(** * RAKSHAK-AI: risk classification, alert lifecycle and run controller

    A shallow embedding of the server's core:
    - [utils/safe_math.py]            (module [SafeMath]),
    - [config.py]                     (record [Config], instance [config]),
    - [services/intent_service.py]    (module [Intent]),
    - [services/alert_service.py] and [routers/alert.py],
      [routers/intent.py]             (module [Alerts]),
    - [simulation_controller.py]      (module [Controller]),
    - the remaining guards of [utils/safe_math.py] (module [Guards]),
    - [services/vision_service.py]    (module [Vision]),
    - [services/sensor_service.py] and
      [SensorGenerator.calculate_likelihood_scores] (module [Sensor]),
    - the queries of [services/alert_service.py] (module [AlertQueries])
      and of [services/audit_service.py] (module [Audit]).

    Conventions.
    - Python floats are modelled as rationals [Q] with exact arithmetic;
      comparisons are the boolean tests [Qltb]/[Qleb], and Python's [max],
      [min] and [round(x, 2)] are written out ([py_max], [py_min],
      [py_round2]).
    - A [datetime] is an integer number of microseconds since the epoch
      (naive UTC, as [datetime.utcnow()] produces); [total_seconds()]
      compared with a whole number of seconds [s] is the comparison of the
      microsecond difference with [s * 1000000].
    - [datetime.utcnow()] and [uuid.uuid4()] are read from an environment
      ([Env]): the n-th clock reading and the n-th identifier drawn.
    - Pydantic models are records; their [Field] bounds are not enforced by
      the record types and appear as explicit predicates where a statement
      needs them. Display-only fields (titles, descriptions, evidence
      strings, recommended actions) are left out. *)

From Stdlib Require Import ZArith QArith Qround Qabs Lia Lqa String List Bool.
From Stdlib Require Import Sorted Permutation.
From stdpp Require Import base option gmap strings list.

Import ListNotations.

(* ===================================================================== *)
(** ** Python numerics on rationals *)
(* ===================================================================== *)

Module PyNum.

(** [a < b] and [a <= b] as Python evaluates them. *)
Definition Qltb (a b : Q) : bool :=
  match (a ?= b)%Q with Lt => true | _ => false end.

Definition Qleb (a b : Q) : bool :=
  match (a ?= b)%Q with Gt => false | _ => true end.

(** [max(a, b)]: the first argument is kept unless the second is
    strictly greater. *)
Definition py_max (a b : Q) : Q := if Qltb a b then b else a.

(** [min(a, b)]: the first argument is kept unless the second is
    strictly smaller. *)
Definition py_min (a b : Q) : Q := if Qltb b a then b else a.

(** Rounding to the nearest integer, ties to the even neighbour. *)
Definition round_half_even (q : Q) : Z :=
  let n := Qfloor q in
  match ((q - inject_Z n) ?= (1 # 2))%Q with
  | Lt => n
  | Gt => (n + 1)%Z
  | Eq => if Z.even n then n else (n + 1)%Z
  end.

(** [round(x, 2)]. *)
Definition py_round2 (x : Q) : Q :=
  (inject_Z (round_half_even (x * 100)) / 100)%Q.

End PyNum.

Import PyNum.

(* ===================================================================== *)
(** ** utils/safe_math.py *)
(* ===================================================================== *)

Module SafeMath.

Inductive MathFallbackReason :=
| DENOMINATOR_ZERO
| EMPTY_ARRAY
| ALL_WEIGHTS_ZERO
| NO_VALID_VALUES
| NEGATIVE_VALUE
| OVERFLOW_PROTECTION
| NORMALIZATION_FALLBACK.

(** [safe_clamp(value, min_val, max_val)] =
    [max(min_val, min(max_val, value))]. *)
Definition safe_clamp (value min_val max_val : Q) : Q :=
  py_max min_val (py_min max_val value).

(** [safe_risk_score(raw_score, min_score, max_score)]. *)
Definition safe_risk_score (raw_score min_score max_score : Q)
  : Q * option MathFallbackReason :=
  if Qltb raw_score min_score then (min_score, Some NEGATIVE_VALUE)
  else if Qltb max_score raw_score then (max_score, Some OVERFLOW_PROTECTION)
  else (raw_score, None).

End SafeMath.

(* ===================================================================== *)
(** ** config.py *)
(* ===================================================================== *)

Inductive SeverityLevel := LOW | MEDIUM | HIGH | CRITICAL.

Inductive TamperingClassification := SAFE | SUSPICIOUS | CONFIRMED_TAMPERING.

#[global] Instance SeverityLevel_eq_dec : EqDecision SeverityLevel.
Proof. solve_decision. Defined.

#[global] Instance TamperingClassification_eq_dec :
  EqDecision TamperingClassification.
Proof. solve_decision. Defined.

(** The attributes of [class Config] that the modelled code reads.
    [SEVERITY_THRESHOLDS] keeps the dict's insertion order; the dict
    [ESCALATION_TIMEOUT] has one entry per severity and is a total
    function. *)
Record Config := {
  RISK_THRESHOLD_SAFE : Q;
  RISK_THRESHOLD_SUSPICIOUS : Q;
  SEVERITY_THRESHOLDS : list (SeverityLevel * (Q * Q));
  TIME_WEIGHTS_night_hours : Q;
  TIME_WEIGHTS_early_morning : Q;
  TIME_WEIGHTS_peak_hours : Q;
  ALERT_COOLDOWN_SECONDS : Z;
  MAX_ALERTS_PER_HOUR : Z;
  ESCALATION_TIMEOUT : SeverityLevel -> Z;
  MAX_AUDIT_LOG_ENTRIES : Z
}.

Definition config : Config := {|
  RISK_THRESHOLD_SAFE := 25;
  RISK_THRESHOLD_SUSPICIOUS := 60;
  SEVERITY_THRESHOLDS :=
    [ (LOW, (25, 49)); (MEDIUM, (50, 69)); (HIGH, (70, 84));
      (CRITICAL, (85, 100)) ]%Q;
  TIME_WEIGHTS_night_hours := 1.3;
  TIME_WEIGHTS_early_morning := 1.2;
  TIME_WEIGHTS_peak_hours := 0.9;
  ALERT_COOLDOWN_SECONDS := 300;
  MAX_ALERTS_PER_HOUR := 10;
  ESCALATION_TIMEOUT := fun s =>
    match s with
    | LOW => 1800 | MEDIUM => 900 | HIGH => 300 | CRITICAL => 60
    end%Z;
  MAX_AUDIT_LOG_ENTRIES := 10000
|}.

(** [datetime] values and [timedelta] arithmetic, in microseconds. *)
Abbreviation datetime := Z (only parsing).

Definition seconds (s : Z) : Z := (s * 1000000)%Z.

Definition hour_of (t : datetime) : Z := ((t / seconds 3600) mod 24)%Z.

(* ===================================================================== *)
(** ** models/vision.py, models/sensor.py, models/intent.py and
       services/intent_service.py *)
(* ===================================================================== *)

Module Intent.

Inductive DetectionClass :=
| MISSING_FISH_PLATE
| FOREIGN_OBJECT
| TRACK_DISPLACEMENT
| HUMAN_PRESENCE
| TOOL_DETECTION
| VEHICLE_NEAR_TRACK
| NORMAL.

Record Detection := {
  detection_id : string;
  class_label : DetectionClass;
  confidence : Q
}.

Record VisionAnalysisResponse := {
  v_analysis_id : string;
  detections : list Detection;
  vision_risk_score : Q;
  v_risk_reasons : list string
}.

Record SensorAnalysisResponse := {
  s_analysis_id : string;
  is_coordinated : bool;
  coordination_confidence : option Q;
  sensor_risk_score : Q;
  s_risk_reasons : list string;
  sabotage_likelihood : Q
}.

Record TemporalContext := {
  tc_timestamp : datetime;
  hour_of_day : Z;
  is_night_hours : bool;
  is_peak_hours : bool;
  is_maintenance_window : bool;
  time_risk_modifier : Q
}.

Record IntentClassifyRequest := {
  req_zone_id : string;
  req_timestamp : datetime;
  req_vision_analysis : option VisionAnalysisResponse;
  req_sensor_analysis : option SensorAnalysisResponse;
  run_vision_analysis : bool;
  run_sensor_analysis : bool;
  use_simulated : bool;
  simulate_scenario : option string
}.

Record IntentClassifyResponse := {
  classification_id : string;
  zone_id : string;
  timestamp : datetime;
  classification : TamperingClassification;
  risk_score : Q;
  resp_confidence : Q;
  primary_reasons : list string;
  resp_vision_risk_score : Q;
  resp_sensor_risk_score : Q;
  temporal_modifier : Q;
  temporal_context : TemporalContext;
  vision_analysis_id : option string;
  sensor_analysis_id : option string
}.

(** What [classify] obtains from outside the modelled steps: the two
    evidence services it may run (called with the zone, the timestamp and
    the scenario of the request), and the explanation text that
    [_generate_risk_factors] and [_generate_primary_reasons] build from
    the classification, the evidence and the temporal context (string
    formatting, not modelled). *)
Record Collaborators := {
  vision_service_analyze :
    string -> datetime -> option string -> VisionAnalysisResponse;
  sensor_service_analyze :
    string -> datetime -> option string -> SensorAnalysisResponse;
  generate_primary_reasons :
    TamperingClassification -> option VisionAnalysisResponse ->
    option SensorAnalysisResponse -> TemporalContext -> list string
}.

(** [IntentService._calculate_temporal_context]. *)
Definition _calculate_temporal_context (cfg : Config) (timestamp : datetime)
  : TemporalContext :=
  let hour := hour_of timestamp in
  let is_night := (22 <=? hour)%Z || (hour <? 5)%Z in
  let is_early_morning := (5 <=? hour)%Z && (hour <? 7)%Z in
  let is_peak :=
    ((7 <=? hour)%Z && (hour <? 10)%Z) || ((17 <=? hour)%Z && (hour <? 20)%Z) in
  let modifier :=
    if is_night then TIME_WEIGHTS_night_hours cfg
    else if is_early_morning then TIME_WEIGHTS_early_morning cfg
    else if is_peak then TIME_WEIGHTS_peak_hours cfg
    else 1%Q in
  {| tc_timestamp := timestamp;
     hour_of_day := hour;
     is_night_hours := is_night;
     is_peak_hours := is_peak;
     is_maintenance_window := false;
     time_risk_modifier := modifier |}.

(** The [class_label.value in ["missing_fish_plate",
    "track_displacement"]] test. *)
Definition is_override_class (c : DetectionClass) : bool :=
  match c with
  | MISSING_FISH_PLATE | TRACK_DISPLACEMENT => true
  | _ => false
  end.

(** The loop over [vision_analysis.detections] in
    [_determine_classification]: the confidence of the first detection
    of an override class with confidence at least 0.85. *)
Fixpoint override_detection (ds : list Detection) : option Q :=
  match ds with
  | [] => None
  | d :: rest =>
      if is_override_class (class_label d) && Qleb 0.85 (confidence d)
      then Some (confidence d)
      else override_detection rest
  end.

(** The threshold branch of [_determine_classification]. *)
Definition threshold_classification (cfg : Config) (risk_score : Q)
  : TamperingClassification * Q :=
  let threshold_safe := py_max (RISK_THRESHOLD_SAFE cfg) 0.01 in
  let threshold_suspicious :=
    py_max (RISK_THRESHOLD_SUSPICIOUS cfg) (threshold_safe + 0.01) in
  let suspicious_range := (threshold_suspicious - threshold_safe)%Q in
  let tampering_range := (100 - threshold_suspicious)%Q in
  if Qltb risk_score threshold_safe then
    let confidence :=
      if Qltb 0 threshold_safe then (1 - risk_score / threshold_safe)%Q
      else 1%Q in
    (SAFE, py_round2 (py_max confidence 0))
  else if Qltb risk_score threshold_suspicious then
    let confidence :=
      if Qltb 0 suspicious_range
      then (0.5 + (risk_score - threshold_safe) / suspicious_range * 0.3)%Q
      else 0.65%Q in
    (SUSPICIOUS, py_round2 confidence)
  else
    let confidence :=
      if Qltb 0 tampering_range
      then (0.7 + (risk_score - threshold_suspicious) / tampering_range * 0.3)%Q
      else 0.85%Q in
    (CONFIRMED_TAMPERING, py_round2 (py_min confidence 1)).

(** [IntentService._determine_classification]. *)
Definition _determine_classification (cfg : Config) (risk_score : Q)
    (vision_analysis : option VisionAnalysisResponse)
    (sensor_analysis : option SensorAnalysisResponse)
  : TamperingClassification * Q :=
  match
    match vision_analysis with
    | Some v => override_detection (detections v)
    | None => None
    end
  with
  | Some c => (CONFIRMED_TAMPERING, c)
  | None =>
      match sensor_analysis with
      | Some s =>
          if is_coordinated s && Qleb 0.7 (sabotage_likelihood s)
          then (CONFIRMED_TAMPERING, sabotage_likelihood s)
          else threshold_classification cfg risk_score
      | None => threshold_classification cfg risk_score
      end
  end.

(** Step 4 of [classify]: the clamped component scores, the final score
    and the clamp reason. *)
Definition combined_risk_score
    (vision_analysis : option VisionAnalysisResponse)
    (sensor_analysis : option SensorAnalysisResponse)
    (temporal_context : TemporalContext)
  : Q * Q * (Q * option SafeMath.MathFallbackReason) :=
  let vision_score :=
    match vision_analysis with Some v => vision_risk_score v | None => 0%Q end in
  let sensor_score :=
    match sensor_analysis with Some s => sensor_risk_score s | None => 0%Q end in
  let vision_score := SafeMath.safe_clamp vision_score 0 100 in
  let sensor_score := SafeMath.safe_clamp sensor_score 0 100 in
  let base_score := (vision_score * 0.45 + sensor_score * 0.45)%Q in
  let temporal_mod := py_max (time_risk_modifier temporal_context) 0 in
  let final_score := (base_score * temporal_mod)%Q in
  (vision_score, sensor_score, SafeMath.safe_risk_score final_score 0 100).

(** Steps 4 to 7 of [classify], from the evidence and the temporal
    context to the response. *)
Definition classify_with_context (ext : Collaborators) (cfg : Config)
    (classification_id : string) (request : IntentClassifyRequest)
    (vision_analysis : option VisionAnalysisResponse)
    (sensor_analysis : option SensorAnalysisResponse)
    (temporal_context : TemporalContext)
  : IntentClassifyResponse :=
  let '(vision_score, sensor_score, (final_score, _)) :=
    combined_risk_score vision_analysis sensor_analysis temporal_context in
  let '(classification, confidence) :=
    _determine_classification cfg final_score vision_analysis sensor_analysis in
  {| classification_id := classification_id;
     zone_id := req_zone_id request;
     timestamp := req_timestamp request;
     classification := classification;
     risk_score := py_round2 final_score;
     resp_confidence := confidence;
     primary_reasons :=
       generate_primary_reasons ext classification vision_analysis
         sensor_analysis temporal_context;
     resp_vision_risk_score := vision_score;
     resp_sensor_risk_score := sensor_score;
     temporal_modifier := time_risk_modifier temporal_context;
     temporal_context := temporal_context;
     vision_analysis_id := v_analysis_id <$> vision_analysis;
     sensor_analysis_id := s_analysis_id <$> sensor_analysis |}.

(** [IntentService.classify]. *)
Definition classify (ext : Collaborators) (cfg : Config)
    (classification_id : string) (request : IntentClassifyRequest)
  : IntentClassifyResponse :=
  let vision_analysis :=
    match req_vision_analysis request with
    | Some v => Some v
    | None =>
        if run_vision_analysis request
        then Some (vision_service_analyze ext (req_zone_id request)
                     (req_timestamp request) (simulate_scenario request))
        else None
    end in
  let sensor_analysis :=
    match req_sensor_analysis request with
    | Some s => Some s
    | None =>
        if run_sensor_analysis request
        then Some (sensor_service_analyze ext (req_zone_id request)
                     (req_timestamp request) (simulate_scenario request))
        else None
    end in
  let temporal_context :=
    _calculate_temporal_context cfg (req_timestamp request) in
  classify_with_context ext cfg classification_id request
    vision_analysis sensor_analysis temporal_context.

End Intent.

(* ===================================================================== *)
(** ** Clock, identifiers and the state monad of the services *)
(* ===================================================================== *)

(** The n-th value returned by [datetime.utcnow()] and the n-th
    [uuid.uuid4().hex[:12]] drawn by the modelled code. *)
Record Env := {
  utcnow_reading : nat -> datetime;
  uuid4_hex12 : nat -> string
}.

(** [l[i:]] for a Python list and any integer index. *)
Definition py_slice_from {A} (l : list A) (i : Z) : list A :=
  let len := Z.of_nat (length l) in
  let start := if (i <? 0)%Z then Z.max (len + i) 0 else Z.min i len in
  drop (Z.to_nat start) l.

Module Alerts.

Inductive AlertStatus :=
| ACTIVE
| ACKNOWLEDGED
| INVESTIGATING
| RESOLVED
| ESCALATED
| FALSE_POSITIVE.

Inductive EscalationLevel := INITIAL | SUPERVISOR | MANAGER | EMERGENCY.

#[global] Instance AlertStatus_eq_dec : EqDecision AlertStatus.
Proof. solve_decision. Defined.

#[global] Instance EscalationLevel_eq_dec : EqDecision EscalationLevel.
Proof. solve_decision. Defined.

(** [EscalationLevel] is an [int] enum: [.value] and the constructor
    call [EscalationLevel(v)], which fails outside 1..4. *)
Definition EscalationLevel_value (l : EscalationLevel) : Z :=
  match l with
  | INITIAL => 1 | SUPERVISOR => 2 | MANAGER => 3 | EMERGENCY => 4
  end.

Definition EscalationLevel_of_value (v : Z) : option EscalationLevel :=
  if (v =? 1)%Z then Some INITIAL
  else if (v =? 2)%Z then Some SUPERVISOR
  else if (v =? 3)%Z then Some MANAGER
  else if (v =? 4)%Z then Some EMERGENCY
  else None.

Record Alert := {
  alert_id : string;
  zone_id : string;
  classification_id : string;
  severity : SeverityLevel;
  status : AlertStatus;
  risk_score : Q;
  classification : TamperingClassification;
  reasons : list string;
  created_at : datetime;
  updated_at : datetime;
  acknowledged : bool;
  acknowledged_by : option string;
  acknowledged_at : option datetime;
  acknowledgement_notes : option string;
  escalation_level : EscalationLevel;
  escalated_at : option datetime;
  resolved_at : option datetime;
  resolution_notes : option string
}.

Record AlertAcknowledgeRequest := {
  ack_alert_id : string;
  ack_acknowledged_by : string;
  ack_notes : option string;
  mark_as_false_positive : bool
}.

Record AlertResolveRequest := {
  res_alert_id : string;
  resolved_by : string;
  res_resolution_notes : string;
  was_actual_tampering : bool
}.

(** [resolution_notes: str = Field(..., min_length=10)]. *)
Definition validate_AlertResolveRequest (r : AlertResolveRequest) : bool :=
  (10 <=? String.length (res_resolution_notes r))%nat.

(** The state of the [AlertService] singleton. *)
Record AlertService := {
  _alerts : gmap string Alert;
  _zone_last_alert : gmap string datetime;
  _zone_alert_counts : gmap string (list datetime)
}.

(** services/audit_service.py: event types and the [details] dicts the
    modelled routers write. *)
Inductive AuditEventType :=
| VISION_ANALYSIS
| SENSOR_ANALYSIS
| INTENT_CLASSIFICATION
| ALERT_CREATED
| ALERT_ACKNOWLEDGED
| ALERT_RESOLVED
| ALERT_ESCALATED
| SYSTEM_EVENT
| API_REQUEST
| ERROR_EVENT.

Inductive AuditDetails :=
| ClassificationDetails
    (classification_id : string) (classification : TamperingClassification)
    (risk_score confidence : Q)
| AcknowledgedDetails
    (acknowledged_by : string) (notes : option string)
    (marked_false_positive : bool)
| ResolvedDetails
    (resolved_by : string) (resolution_notes : string)
    (was_actual_tampering : bool).

Record AuditEntry := {
  entry_id : string;
  entry_timestamp : datetime;
  event_type : AuditEventType;
  entry_zone_id : option string;
  details : AuditDetails;
  user_id : option string
}.

Record World := {
  alert_service : AlertService;
  audit_entries : list AuditEntry;
  clock_reads : nat;
  uuid_draws : nat
}.

(** State passing over [World]. *)
Definition M (A : Type) : Type := World -> A * World.

Definition ret {A} (a : A) : M A := fun w => (a, w).

Definition bind {A B} (m : M A) (k : A -> M B) : M B :=
  fun w => let '(a, w') := m w in k a w'.

Declare Scope svc_scope.
Delimit Scope svc_scope with svc.
Notation "x <- m ;; k" := (bind m (fun x => k))
  (at level 100, m at next level, right associativity) : svc_scope.
Notation "m ;;; k" := (bind m (fun _ => k))
  (at level 100, right associativity) : svc_scope.

Definition get_service : M AlertService := fun w => (alert_service w, w).

Definition put_service (s : AlertService) : M unit := fun w =>
  (tt, {| alert_service := s;
          audit_entries := audit_entries w;
          clock_reads := clock_reads w;
          uuid_draws := uuid_draws w |}).

(** [datetime.utcnow()]. *)
Definition utcnow (env : Env) : M datetime := fun w =>
  (utcnow_reading env (clock_reads w),
   {| alert_service := alert_service w;
      audit_entries := audit_entries w;
      clock_reads := S (clock_reads w);
      uuid_draws := uuid_draws w |}).

(** [uuid.uuid4().hex[:12]]. *)
Definition uuid4 (env : Env) : M string := fun w =>
  (uuid4_hex12 env (uuid_draws w),
   {| alert_service := alert_service w;
      audit_entries := audit_entries w;
      clock_reads := clock_reads w;
      uuid_draws := S (uuid_draws w) |}).

(** [AuditService._add_entry]: append, then keep the last
    [MAX_AUDIT_LOG_ENTRIES] entries when the log has grown past it. *)
Definition _add_entry (cfg : Config) (entry : AuditEntry) : M unit := fun w =>
  let entries := audit_entries w ++ [entry] in
  let entries :=
    if (MAX_AUDIT_LOG_ENTRIES cfg <? Z.of_nat (length entries))%Z
    then py_slice_from entries (- MAX_AUDIT_LOG_ENTRIES cfg)
    else entries in
  (tt, {| alert_service := alert_service w;
          audit_entries := entries;
          clock_reads := clock_reads w;
          uuid_draws := uuid_draws w |}).

Local Open Scope svc_scope.

(** [AuditService.log_alert_event]. *)
Definition log_alert_event (env : Env) (cfg : Config)
    (event : AuditEventType) (zone : string) (det : AuditDetails)
    (user : option string) : M string :=
  hex <- uuid4 env ;;
  now <- utcnow env ;;
  let entry := {| entry_id := "audit_" ++ hex;
                  entry_timestamp := now;
                  event_type := event;
                  entry_zone_id := Some zone;
                  details := det;
                  user_id := user |} in
  _add_entry cfg entry ;;;
  ret (entry_id entry).

(** [AuditService.log_intent_classification]. *)
Definition log_intent_classification (env : Env) (cfg : Config)
    (zone : string) (det : AuditDetails) : M string :=
  hex <- uuid4 env ;;
  now <- utcnow env ;;
  let entry := {| entry_id := "audit_" ++ hex;
                  entry_timestamp := now;
                  event_type := INTENT_CLASSIFICATION;
                  entry_zone_id := Some zone;
                  details := det;
                  user_id := None |} in
  _add_entry cfg entry ;;;
  ret (entry_id entry).

(** [AlertService._check_cooldown]. *)
Definition _check_cooldown (env : Env) (cfg : Config) (zone : string)
  : M bool :=
  s <- get_service ;;
  match _zone_last_alert s !! zone with
  | None => ret true
  | Some last_alert =>
      now <- utcnow env ;;
      let elapsed := (now - last_alert)%Z in
      ret (seconds (ALERT_COOLDOWN_SECONDS cfg) <=? elapsed)%Z
  end.

(** [AlertService._check_flooding]; [_zone_alert_counts] is a
    [defaultdict(list)], so reading a missing zone yields []. *)
Definition _check_flooding (env : Env) (cfg : Config) (zone : string)
  : M bool :=
  now <- utcnow env ;;
  let hour_ago := (now - seconds 3600)%Z in
  s <- get_service ;;
  let kept :=
    List.filter (fun t => (hour_ago <? t)%Z)
      (default [] (_zone_alert_counts s !! zone)) in
  put_service {| _alerts := _alerts s;
                 _zone_last_alert := _zone_last_alert s;
                 _zone_alert_counts := <[zone := kept]> (_zone_alert_counts s) |} ;;;
  ret (Z.of_nat (length kept) <? MAX_ALERTS_PER_HOUR cfg)%Z.

(** The loop of [_determine_severity] over
    [config.SEVERITY_THRESHOLDS.items()]. *)
Fixpoint first_matching_range (ranges : list (SeverityLevel * (Q * Q)))
    (risk_score : Q) : option SeverityLevel :=
  match ranges with
  | [] => None
  | (sev, (min_score, max_score)) :: rest =>
      if Qleb min_score risk_score && Qleb risk_score max_score
      then Some sev
      else first_matching_range rest risk_score
  end.

(** [AlertService._determine_severity]. *)
Definition _determine_severity (cfg : Config) (risk_score : Q)
  : SeverityLevel :=
  match first_matching_range (SEVERITY_THRESHOLDS cfg) risk_score with
  | Some sev => sev
  | None => if Qltb risk_score 25 then LOW else CRITICAL
  end.

(** [AlertService.create_alert_from_classification]. *)
Definition create_alert_from_classification (env : Env) (cfg : Config)
    (zone : string) (cls_id : string) (cls : TamperingClassification)
    (score : Q) (rs : list string) : M (option Alert) :=
  if decide (cls = SAFE) then ret None else
  ok <- _check_cooldown env cfg zone ;;
  if negb ok then ret None else
  ok <- _check_flooding env cfg zone ;;
  if negb ok then ret None else
  let sev := _determine_severity cfg score in
  hex <- uuid4 env ;;
  created <- utcnow env ;;
  updated <- utcnow env ;;
  let alert := {| alert_id := "alert_" ++ hex;
                  zone_id := zone;
                  classification_id := cls_id;
                  severity := sev;
                  status := ACTIVE;
                  risk_score := score;
                  classification := cls;
                  reasons := take 5 rs;
                  created_at := created;
                  updated_at := updated;
                  acknowledged := false;
                  acknowledged_by := None;
                  acknowledged_at := None;
                  acknowledgement_notes := None;
                  escalation_level := INITIAL;
                  escalated_at := None;
                  resolved_at := None;
                  resolution_notes := None |} in
  s <- get_service ;;
  t_last <- utcnow env ;;
  t_count <- utcnow env ;;
  put_service
    {| _alerts := <[alert_id alert := alert]> (_alerts s);
       _zone_last_alert := <[zone := t_last]> (_zone_last_alert s);
       _zone_alert_counts :=
         <[zone := default [] (_zone_alert_counts s !! zone) ++ [t_count]]>
           (_zone_alert_counts s) |} ;;;
  ret (Some alert).

(** The in-place mutations of an alert object. *)
Definition acknowledge_fields (a : Alert) (by_whom : string)
    (at_time : datetime) (notes : option string) (upd : datetime)
    (st : AlertStatus) : Alert :=
  {| alert_id := alert_id a;
     zone_id := zone_id a;
     classification_id := classification_id a;
     severity := severity a;
     status := st;
     risk_score := risk_score a;
     classification := classification a;
     reasons := reasons a;
     created_at := created_at a;
     updated_at := upd;
     acknowledged := true;
     acknowledged_by := Some by_whom;
     acknowledged_at := Some at_time;
     acknowledgement_notes := notes;
     escalation_level := escalation_level a;
     escalated_at := escalated_at a;
     resolved_at := resolved_at a;
     resolution_notes := resolution_notes a |}.

Definition resolve_fields (a : Alert) (at_time : datetime)
    (notes : string) (upd : datetime) : Alert :=
  {| alert_id := alert_id a;
     zone_id := zone_id a;
     classification_id := classification_id a;
     severity := severity a;
     status := RESOLVED;
     risk_score := risk_score a;
     classification := classification a;
     reasons := reasons a;
     created_at := created_at a;
     updated_at := upd;
     acknowledged := acknowledged a;
     acknowledged_by := acknowledged_by a;
     acknowledged_at := acknowledged_at a;
     acknowledgement_notes := acknowledgement_notes a;
     escalation_level := escalation_level a;
     escalated_at := escalated_at a;
     resolved_at := Some at_time;
     resolution_notes := Some notes |}.

Definition escalate_fields (a : Alert) (lvl : EscalationLevel)
    (at_time : datetime) : Alert :=
  {| alert_id := alert_id a;
     zone_id := zone_id a;
     classification_id := classification_id a;
     severity := severity a;
     status := ESCALATED;
     risk_score := risk_score a;
     classification := classification a;
     reasons := reasons a;
     created_at := created_at a;
     updated_at := updated_at a;
     acknowledged := acknowledged a;
     acknowledged_by := acknowledged_by a;
     acknowledged_at := acknowledged_at a;
     acknowledgement_notes := acknowledgement_notes a;
     escalation_level := lvl;
     escalated_at := Some at_time;
     resolved_at := resolved_at a;
     resolution_notes := resolution_notes a |}.

(** Writing a mutated alert object back: the registry holds the object
    itself, under the key of the lookup that returned it. *)
Definition store_alert (key : string) (a : Alert) : M unit :=
  s <- get_service ;;
  put_service {| _alerts := <[key := a]> (_alerts s);
                 _zone_last_alert := _zone_last_alert s;
                 _zone_alert_counts := _zone_alert_counts s |}.

(** [AlertService.acknowledge_alert]. *)
Definition acknowledge_alert (env : Env) (request : AlertAcknowledgeRequest)
  : M (option Alert) :=
  s <- get_service ;;
  match _alerts s !! ack_alert_id request with
  | None => ret None
  | Some alert =>
      at_time <- utcnow env ;;
      upd <- utcnow env ;;
      let alert' :=
        acknowledge_fields alert (ack_acknowledged_by request) at_time
          (ack_notes request) upd
          (if mark_as_false_positive request then FALSE_POSITIVE
           else ACKNOWLEDGED) in
      store_alert (ack_alert_id request) alert' ;;;
      ret (Some alert')
  end.

(** [AlertService.resolve_alert]. *)
Definition resolve_alert (env : Env) (request : AlertResolveRequest)
  : M (option Alert) :=
  s <- get_service ;;
  match _alerts s !! res_alert_id request with
  | None => ret None
  | Some alert =>
      at_time <- utcnow env ;;
      upd <- utcnow env ;;
      let alert' :=
        resolve_fields alert at_time (res_resolution_notes request) upd in
      store_alert (res_alert_id request) alert' ;;;
      ret (Some alert')
  end.

(** The body of the loop of [check_escalations] for one alert. *)
Definition check_escalation (cfg : Config) (now : datetime) (alert : Alert)
  : Alert :=
  if negb (bool_decide (status alert = ACTIVE)) then alert
  else if acknowledged alert then alert
  else
    let timeout := ESCALATION_TIMEOUT cfg (severity alert) in
    let elapsed := (now - created_at alert)%Z in
    if (seconds timeout <? elapsed)%Z
       && (EscalationLevel_value (escalation_level alert)
           <? EscalationLevel_value EMERGENCY)%Z
    then
      match EscalationLevel_of_value
              (EscalationLevel_value (escalation_level alert) + 1) with
      | Some lvl => escalate_fields alert lvl now
      | None => alert
      end
    else alert.

(** [AlertService.check_escalations]: one pass over
    [self._alerts.values()]. *)
Definition check_escalations (env : Env) (cfg : Config) : M unit :=
  now <- utcnow env ;;
  s <- get_service ;;
  put_service {| _alerts := check_escalation cfg now <$> _alerts s;
                 _zone_last_alert := _zone_last_alert s;
                 _zone_alert_counts := _zone_alert_counts s |}.

(** [n] consecutive passes of [check_escalations] (the scheduler
    calling it periodically). *)
Fixpoint escalation_passes (env : Env) (cfg : Config) (n : nat) : M unit :=
  match n with
  | O => ret tt
  | S k => check_escalations env cfg ;;; escalation_passes env cfg k
  end.

(** An HTTP endpoint either returns its response model or raises
    [HTTPException(status_code, detail)]; request bodies that fail the
    model's validation are answered 422 before the handler runs. *)
Inductive HttpResult (A : Type) :=
| HttpOk (a : A)
| HTTPException (status_code : Z) (detail : string).
Arguments HttpOk {A} a.
Arguments HTTPException {A} status_code detail.

(** routers/alert.py, [POST /alert/acknowledge]. *)
Definition acknowledge_alert_endpoint (env : Env) (cfg : Config)
    (request : AlertAcknowledgeRequest) : M (HttpResult Alert) :=
  r <- acknowledge_alert env request ;;
  match r with
  | None =>
      ret (HTTPException 404 ("Alert not found: " ++ ack_alert_id request))
  | Some alert =>
      log_alert_event env cfg ALERT_ACKNOWLEDGED (zone_id alert)
        (AcknowledgedDetails (ack_acknowledged_by request)
           (ack_notes request) (mark_as_false_positive request))
        (Some (ack_acknowledged_by request)) ;;;
      ret (HttpOk alert)
  end.

(** routers/alert.py, [POST /alert/resolve]. *)
Definition resolve_alert_endpoint (env : Env) (cfg : Config)
    (request : AlertResolveRequest) : M (HttpResult Alert) :=
  if negb (validate_AlertResolveRequest request)
  then ret (HTTPException 422 "resolution_notes: too short")
  else
    r <- resolve_alert env request ;;
    match r with
    | None =>
        ret (HTTPException 404 ("Alert not found: " ++ res_alert_id request))
    | Some alert =>
        log_alert_event env cfg ALERT_RESOLVED (zone_id alert)
          (ResolvedDetails (resolved_by request)
             (res_resolution_notes request) (was_actual_tampering request))
          (Some (resolved_by request)) ;;;
        ret (HttpOk alert)
    end.

(** routers/intent.py, [POST /intent/classify]: classify, write the
    audit entry, create an alert unless the verdict is SAFE. The
    endpoint returns the response; the alert it created, if any, is
    returned alongside. The identifier that [classify] draws for the
    classification is drawn here. *)
Definition classify_intent (env : Env) (ext : Intent.Collaborators)
    (cfg : Config) (request : Intent.IntentClassifyRequest)
  : M (Intent.IntentClassifyResponse * option Alert) :=
  hex <- uuid4 env ;;
  let response := Intent.classify ext cfg ("cls_" ++ hex) request in
  log_intent_classification env cfg (Intent.req_zone_id request)
    (ClassificationDetails (Intent.classification_id response)
       (Intent.classification response) (Intent.risk_score response)
       (Intent.resp_confidence response)) ;;;
  if negb (bool_decide (Intent.classification response = SAFE))
  then
    alert <- create_alert_from_classification env cfg
               (Intent.zone_id response) (Intent.classification_id response)
               (Intent.classification response) (Intent.risk_score response)
               (Intent.primary_reasons response) ;;
    ret (response, alert)
  else ret (response, None).

(** The operations of the alert service, for sequences of calls. *)
Inductive Operation :=
| OpCreate (zone cls_id : string) (cls : TamperingClassification)
    (score : Q) (rs : list string)
| OpAcknowledge (request : AlertAcknowledgeRequest)
| OpResolve (request : AlertResolveRequest)
| OpCheckEscalations.

Definition run_operation (env : Env) (cfg : Config) (op : Operation)
  : M unit :=
  match op with
  | OpCreate zone cls_id cls score rs =>
      create_alert_from_classification env cfg zone cls_id cls score rs ;;;
      ret tt
  | OpAcknowledge request => acknowledge_alert env request ;;; ret tt
  | OpResolve request => resolve_alert env request ;;; ret tt
  | OpCheckEscalations => check_escalations env cfg
  end.

Fixpoint run_operations (env : Env) (cfg : Config) (ops : list Operation)
  : M unit :=
  match ops with
  | [] => ret tt
  | op :: rest => run_operation env cfg op ;;; run_operations env cfg rest
  end.

End Alerts.

(* ===================================================================== *)
(** ** simulation_controller.py *)
(* ===================================================================== *)

Module Controller.

Inductive SimulationState := STOPPED | RUNNING | ERROR.

#[global] Instance SimulationState_eq_dec : EqDecision SimulationState.
Proof. solve_decision. Defined.

(** The attributes of the [SimulationController] singleton; the
    [asyncio.Lock] is the flag [lock_locked] of [System] below. *)
Record SimulationController := {
  _state : SimulationState;
  _started_at : option datetime;
  _last_run_at : option datetime;
  _run_count : Z;
  _error_message : option string
}.

(** [SimulationController.__init__]. *)
Definition init : SimulationController :=
  {| _state := STOPPED;
     _started_at := None;
     _last_run_at := None;
     _run_count := 0;
     _error_message := None |}.

Record SimulationStatus := {
  state : SimulationState;
  message : string;
  started_at : option datetime;
  last_run_at : option datetime;
  run_count : Z;
  error_message : option string
}.

(** [x or fallback] on an optional string: [None] and the empty string
    are both falsy. *)
Definition or_else (x : option string) (fallback : string) : string :=
  match x with
  | Some EmptyString => fallback
  | Some s => s
  | None => fallback
  end.

(** [SimulationController._get_status_message]; [isoformat] renders a
    [datetime]. *)
Definition _get_status_message (isoformat : datetime -> string)
    (c : SimulationController) : string :=
  match _state c with
  | STOPPED => "Simulation is stopped. Ready to start."
  | RUNNING =>
      "Simulation running since " ++
      match _started_at c with
      | Some t => isoformat t
      | None => "unknown"
      end
  | ERROR =>
      "Simulation in ERROR state: " ++
      or_else (_error_message c) "Unknown error"
  end.

(** [SimulationController.get_status]. *)
Definition get_status (isoformat : datetime -> string)
    (c : SimulationController) : SimulationStatus :=
  {| state := _state c;
     message := _get_status_message isoformat c;
     started_at := _started_at c;
     last_run_at := _last_run_at c;
     run_count := _run_count c;
     error_message := _error_message c |}.

(** An exception instance as [except Exception as e] binds it: its
    class name and [str(e)]. Signals that derive from [BaseException]
    only (task cancellation, interpreter exit) are not caught by that
    clause and are not part of the model. *)
Record PyException := {
  exc_class : string;
  exc_str : string
}.

(** What the body of the [try] block does: [intent_service.classify]
    returns a response, or something in the cycle raises. *)
Inductive CycleOutcome :=
| Returned (response : Intent.IntentClassifyResponse)
| Raised (e : PyException).

(** The dict [run_single] returns. *)
Inductive RunResult :=
| RunSuccess (result : Intent.IntentClassifyResponse) (state : SimulationState)
| RunFailure (error : string) (state : SimulationState).

(** The three [async with self._lock] blocks of [run_single]. *)
Definition lock_block_start (now : datetime) (c : SimulationController)
  : SimulationController :=
  {| _state := RUNNING;
     _started_at := Some now;
     _last_run_at := _last_run_at c;
     _run_count := _run_count c;
     _error_message := None |}.

Definition lock_block_success (now : datetime) (c : SimulationController)
  : SimulationController :=
  {| _state := STOPPED;
     _started_at := _started_at c;
     _last_run_at := Some now;
     _run_count := (_run_count c + 1)%Z;
     _error_message := _error_message c |}.

Definition lock_block_failure (error_msg : string) (c : SimulationController)
  : SimulationController :=
  {| _state := ERROR;
     _started_at := _started_at c;
     _last_run_at := _last_run_at c;
     _run_count := _run_count c;
     _error_message := Some error_msg |}.

(** The code after the first lock block, from the outcome of the cycle
    to the returned dict. *)
Definition complete_run (outcome : CycleOutcome) (t_end : datetime)
    (c : SimulationController) : RunResult * SimulationController :=
  match outcome with
  | Returned response =>
      (RunSuccess response STOPPED, lock_block_success t_end c)
  | Raised e =>
      let error_msg := exc_str e in
      (RunFailure error_msg ERROR, lock_block_failure error_msg c)
  end.

(** [SimulationController.run_single] when no other task runs in
    between: [t_start] and [t_end] are the clock readings of the first
    and of the closing lock block. *)
Definition run_single (outcome : CycleOutcome) (t_start t_end : datetime)
    (c : SimulationController) : RunResult * SimulationController :=
  complete_run outcome t_end (lock_block_start t_start c).

(** [SimulationController.reset]. *)
Definition reset (isoformat : datetime -> string) (c : SimulationController)
  : SimulationStatus * SimulationController :=
  let c' :=
    match _state c with
    | ERROR =>
        {| _state := STOPPED;
           _started_at := _started_at c;
           _last_run_at := _last_run_at c;
           _run_count := _run_count c;
           _error_message := None |}
    | RUNNING => c
    | STOPPED => c
    end in
  (get_status isoformat c', c').

(** *** Cooperative scheduling of several [run_single] calls

    A task runs until it awaits something that suspends. Acquiring a
    free [asyncio.Lock] does not suspend and the lock blocks contain no
    [await], so a lock block runs in one scheduling step; the only
    suspension point of [run_single] is inside
    [await intent_service.classify(request)]. *)
Inductive TaskState :=
| Requested (zone scenario : string)
| InCycle (zone scenario : string)
| Finished (result : RunResult).

Record System := {
  controller : SimulationController;
  lock_locked : bool;
  tasks : list TaskState
}.

Inductive step : System -> System -> Prop :=
| step_start (s : System) (i : nat) (zone scenario : string) (now : datetime) :
    tasks s !! i = Some (Requested zone scenario) ->
    lock_locked s = false ->
    step s {| controller := lock_block_start now (controller s);
              lock_locked := false;
              tasks := <[i := InCycle zone scenario]> (tasks s) |}
| step_complete (s : System) (i : nat) (zone scenario : string)
    (outcome : CycleOutcome) (now : datetime) :
    tasks s !! i = Some (InCycle zone scenario) ->
    lock_locked s = false ->
    step s {| controller := snd (complete_run outcome now (controller s));
              lock_locked := false;
              tasks :=
                <[i := Finished (fst (complete_run outcome now (controller s)))]>
                  (tasks s) |}.

Inductive reachable (s0 : System) : System -> Prop :=
| reachable_refl : reachable s0 s0
| reachable_step (s s' : System) :
    reachable s0 s -> step s s' -> reachable s0 s'.

(** Task [i] is inside its classification cycle. *)
Definition in_cycle (s : System) (i : nat) : Prop :=
  exists zone scenario, tasks s !! i = Some (InCycle zone scenario).

End Controller.

(* ===================================================================== *)
(** ** Specification vocabulary and concrete inputs *)
(* ===================================================================== *)

(** A detection that triggers the override rule of
    [_determine_classification]. *)
Definition triggers_override (d : Intent.Detection) : Prop :=
  Intent.is_override_class (Intent.class_label d) = true /\
  (0.85 <= Intent.confidence d)%Q.

(** An alert at rest with respect to escalation: still at the initial
    level, or moved one level up and no longer ACTIVE. *)
Definition escalation_settled (a : Alerts.Alert) : Prop :=
  Alerts.escalation_level a = Alerts.INITIAL \/
  (Alerts.status a <> Alerts.ACTIVE /\
   Alerts.escalation_level a = Alerts.SUPERVISOR).

Definition registry_settled (w : Alerts.World) : Prop :=
  forall id a,
    Alerts._alerts (Alerts.alert_service w) !! id = Some a ->
    escalation_settled a.

Module Examples.

Import Intent.

(** Providers that report nothing, and no explanation text. *)
Definition quiet_collaborators : Collaborators :=
  {| vision_service_analyze := fun _ _ _ =>
       {| v_analysis_id := "vis_000000000000";
          detections := [];
          vision_risk_score := 0;
          v_risk_reasons := [] |};
     sensor_service_analyze := fun _ _ _ =>
       {| s_analysis_id := "sen_000000000000";
          is_coordinated := false;
          coordination_confidence := None;
          sensor_risk_score := 0;
          s_risk_reasons := [];
          sabotage_likelihood := 0 |};
     generate_primary_reasons := fun _ _ _ _ => [] |}.

Definition fish_plate_090 : Detection :=
  {| detection_id := "det_1";
     class_label := MISSING_FISH_PLATE;
     confidence := 0.9 |}.

Definition displacement_095 : Detection :=
  {| detection_id := "det_2";
     class_label := TRACK_DISPLACEMENT;
     confidence := 0.95 |}.

Definition vision_with (ds : list Detection) (score : Q)
  : VisionAnalysisResponse :=
  {| v_analysis_id := "vis_0123456789ab";
     detections := ds;
     vision_risk_score := score;
     v_risk_reasons := [] |}.

Definition sensor_with (coordinated : bool) (sabotage score : Q)
  : SensorAnalysisResponse :=
  {| s_analysis_id := "sen_0123456789ab";
     is_coordinated := coordinated;
     coordination_confidence := None;
     sensor_risk_score := score;
     s_risk_reasons := [];
     sabotage_likelihood := sabotage |}.

(** 1970-01-01 12:00:00 and 23:00:00. *)
Definition noon : datetime := seconds (12 * 3600).
Definition night : datetime := seconds (23 * 3600).

Definition request (zone : string) (t : datetime)
    (v : option VisionAnalysisResponse) (s : option SensorAnalysisResponse)
  : IntentClassifyRequest :=
  {| req_zone_id := zone;
     req_timestamp := t;
     req_vision_analysis := v;
     req_sensor_analysis := s;
     run_vision_analysis := false;
     run_sensor_analysis := false;
     use_simulated := true;
     simulate_scenario := None |}.

Definition context_with (modifier : Q) : TemporalContext :=
  {| tc_timestamp := noon;
     hour_of_day := 12;
     is_night_hours := false;
     is_peak_hours := false;
     is_maintenance_window := false;
     time_risk_modifier := modifier |}.

(** A clock that advances by [step] seconds per reading, starting at
    [start], and identifiers numbered by their draw. *)
Definition env_every (start step : Z) : Env :=
  {| utcnow_reading := fun n => (start + seconds (step * Z.of_nat n))%Z;
     uuid4_hex12 := fun n =>
       String.append "00000000000"
         (String (Ascii.ascii_of_nat (48 + n mod 10)) EmptyString) |}.

Definition empty_service : Alerts.AlertService :=
  {| Alerts._alerts := ∅;
     Alerts._zone_last_alert := ∅;
     Alerts._zone_alert_counts := ∅ |}.

Definition world_of (s : Alerts.AlertService) : Alerts.World :=
  {| Alerts.alert_service := s;
     Alerts.audit_entries := [];
     Alerts.clock_reads := 0;
     Alerts.uuid_draws := 0 |}.

Definition empty_world : Alerts.World := world_of empty_service.

(** An active HIGH alert created at time 0, and a service holding it. *)
Definition sample_alert : Alerts.Alert :=
  {| Alerts.alert_id := "alert_0123456789ab";
     Alerts.zone_id := "ZONE-001";
     Alerts.classification_id := "cls_0123456789ab";
     Alerts.severity := HIGH;
     Alerts.status := Alerts.ACTIVE;
     Alerts.risk_score := 72;
     Alerts.classification := CONFIRMED_TAMPERING;
     Alerts.reasons := [];
     Alerts.created_at := 0;
     Alerts.updated_at := 0;
     Alerts.acknowledged := false;
     Alerts.acknowledged_by := None;
     Alerts.acknowledged_at := None;
     Alerts.acknowledgement_notes := None;
     Alerts.escalation_level := Alerts.INITIAL;
     Alerts.escalated_at := None;
     Alerts.resolved_at := None;
     Alerts.resolution_notes := None |}.

Definition service_with_alert : Alerts.AlertService :=
  {| Alerts._alerts := {[ "alert_0123456789ab" := sample_alert ]};
     Alerts._zone_last_alert := {[ "ZONE-001" := 0%Z ]};
     Alerts._zone_alert_counts := {[ "ZONE-001" := [0%Z] ]} |}.

Definition world_with_alert : Alerts.World := world_of service_with_alert.

Definition resolve_request (who : string) (tampering : bool)
  : Alerts.AlertResolveRequest :=
  {| Alerts.res_alert_id := "alert_0123456789ab";
     Alerts.resolved_by := who;
     Alerts.res_resolution_notes := "Fish plate refitted and bolts torqued";
     Alerts.was_actual_tampering := tampering |}.

(** Two [run_single] calls issued before either has started. *)
Definition two_requests : Controller.System :=
  {| Controller.controller := Controller.init;
     Controller.lock_locked := false;
     Controller.tasks :=
       [ Controller.Requested "ZONE-001" "tampering";
         Controller.Requested "ZONE-002" "normal" ] |}.

(** [asyncio.TimeoutError()]: an exception without a message. *)
Definition timeout_error : Controller.PyException :=
  {| Controller.exc_class := "TimeoutError";
     Controller.exc_str := "" |}.

End Examples.

(* ===================================================================== *)
(** ** utils/safe_math.py, the remaining guards *)
(* ===================================================================== *)

Module Guards.

Import SafeMath.


(** [len(values)] as a number. *)
Definition py_len {A} (l : list A) : Q := inject_Z (Z.of_nat (length l)).

(** [safe_divide(numerator, denominator, default)]. *)
Definition safe_divide (numerator denominator default : Q)
  : Q * option MathFallbackReason :=
  if Qeq_bool denominator 0 then (default, Some DENOMINATOR_ZERO)
  else ((numerator / denominator)%Q, None).



(** [safe_normalize(value, min_val, max_val, default)]. *)
Definition safe_normalize (value min_val max_val default : Q)
  : Q * option MathFallbackReason :=
  let range_size := (max_val - min_val)%Q in
  if Qeq_bool range_size 0 then (default, Some NORMALIZATION_FALLBACK)
  else
    let normalized := ((value - min_val) / range_size)%Q in
    (py_max 0 (py_min 1 normalized), None).

(** [safe_percentage(part, whole, default)]. *)
Definition safe_percentage (part whole default : Q)
  : Q * option MathFallbackReason :=
  match safe_divide part whole (default / 100) with
  | (_, Some reason) => (default, Some reason)
  | (result, None) => ((result * 100)%Q, None)
  end.


End Guards.
(** The tiers in increasing order of gravity. *)
Definition tier_rank (c : TamperingClassification) : Z :=
  match c with
  | SAFE => 0
  | SUSPICIOUS => 1
  | CONFIRMED_TAMPERING => 2
  end.

(* ===================================================================== *)
(** ** config.py: detector weights and thresholds *)
(* ===================================================================== *)

(** One entry of [SENSOR_THRESHOLDS]: a dict that may hold the keys
    [normal_range], [warning_range] and [critical_range]. *)
Record ThresholdConfig := {
  normal_range : option (Q * Q);
  warning_range : option (Q * Q);
  critical_range : option (Q * Q)
}.

(** The dicts of [config.py] read by the vision and sensor services,
    keyed by strings as in the source. *)
Record DetectorConfig := {
  VISION_WEIGHTS : gmap string Q;
  VISION_CONFIDENCE_THRESHOLD : Q;
  SENSOR_WEIGHTS : gmap string Q;
  SENSOR_THRESHOLDS : gmap string ThresholdConfig
}.

Definition detector_config : DetectorConfig := {|
  VISION_WEIGHTS :=
    <[ "missing_fish_plate" := 35%Q ]>
    (<[ "foreign_object" := 25%Q ]>
    (<[ "track_displacement" := 40%Q ]>
    (<[ "human_presence" := 20%Q ]>
    (<[ "tool_detection" := 30%Q ]>
    (<[ "vehicle_near_track" := 15%Q ]> ∅)))));
  VISION_CONFIDENCE_THRESHOLD := 0.6%Q;
  SENSOR_WEIGHTS :=
    <[ "vibration_anomaly" := 20%Q ]>
    (<[ "tilt_anomaly" := 30%Q ]>
    (<[ "pressure_anomaly" := 25%Q ]>
    (<[ "sudden_change" := 35%Q ]>
    (<[ "coordinated_anomaly" := 40%Q ]> ∅))));
  SENSOR_THRESHOLDS :=
    <[ "vibration" :=
         {| normal_range := Some (0, 50)%Q;
            warning_range := Some (50, 80)%Q;
            critical_range := Some (80, 100)%Q |} ]>
    (<[ "tilt" :=
         {| normal_range := Some (0, 2)%Q;
            warning_range := Some (2, 5)%Q;
            critical_range := Some (5, 15)%Q |} ]>
    (<[ "pressure" :=
         {| normal_range := Some (0.9, 1.1)%Q;
            warning_range := Some (0.7, 0.9)%Q;
            critical_range := Some (0, 0.7)%Q |} ]> ∅))
|}.

(** [d.get(key, fallback)]. *)
Definition dict_get {V} (d : gmap string V) (key : string) (fallback : V) : V :=
  match d !! key with
  | Some v => v
  | None => fallback
  end.

(** [lo <= value <= hi] for a range [(lo, hi)]. *)
Definition in_range (range : Q * Q) (value : Q) : bool :=
  Qleb (fst range) value && Qleb value (snd range).

(* ===================================================================== *)
(** ** services/vision_service.py *)
(* ===================================================================== *)

Module Vision.

Import Intent.

Inductive ImageCondition :=
| ImageCondition_NORMAL
| LOW_LIGHT
| BLUR
| PARTIAL_OCCLUSION
| RAIN
| FOG.

(** [DetectionClass.value]. *)
Definition DetectionClass_value (c : DetectionClass) : string :=
  match c with
  | MISSING_FISH_PLATE => "missing_fish_plate"
  | FOREIGN_OBJECT => "foreign_object"
  | TRACK_DISPLACEMENT => "track_displacement"
  | HUMAN_PRESENCE => "human_presence"
  | TOOL_DETECTION => "tool_detection"
  | VEHICLE_NEAR_TRACK => "vehicle_near_track"
  | NORMAL => "normal"
  end.

Definition has_poor_visibility (conditions : list ImageCondition) : bool :=
  existsb
    (fun c =>
       match c with
       | LOW_LIGHT | FOG | BLUR | PARTIAL_OCCLUSION => true
       | _ => false
       end)
    conditions.

(** [VisionService._calculate_risk_score].  The per-detection text of
    [_generate_detection_reason] (string formatting) is a parameter. *)
Definition _calculate_risk_score (dc : DetectorConfig)
    (_generate_detection_reason : Detection -> string)
    (detections : list Detection) (conditions : list ImageCondition)
  : Q * list string :=
  match detections with
  | [] => (0%Q, ["No anomalies detected in image"%string])
  | _ =>
      let total_risk :=
        fold_left
          (fun total detection =>
             let class_key := DetectionClass_value (class_label detection) in
             let base_weight := dict_get (VISION_WEIGHTS dc) class_key 10%Q in
             (total + base_weight * confidence detection)%Q)
          detections 0%Q in
      let reasons := List.map _generate_detection_reason detections in
      let poor := has_poor_visibility conditions in
      let total_risk := if poor then (total_risk * 0.85)%Q else total_risk in
      let reasons :=
        if poor
        then reasons ++ ["âš ï¸ Image quality reduced detection confidence"%string]
        else reasons in
      let final_score := py_min total_risk 100 in
      (py_round2 final_score, reasons)
  end.

Record VisionService := {
  _processing_count : Z
}.

(** [VisionService.analyze], from the adapter's answer on: [uuid_hex] is
    the [uuid.uuid4().hex] drawn for the analysis id, [adapter_answer]
    what [self.adapter.get_detections] returned. *)
Definition analyze (dc : DetectorConfig)
    (_generate_detection_reason : Detection -> string)
    (uuid_hex : string)
    (adapter_answer : list Detection * list ImageCondition)
    (self : VisionService)
  : VisionAnalysisResponse * VisionService :=
  let analysis_id := String.append "vis_" (substring 0 12 uuid_hex) in
  let '(detections, conditions) := adapter_answer in
  let filtered_detections :=
    List.filter
      (fun d => Qleb (VISION_CONFIDENCE_THRESHOLD dc) (confidence d))
      detections in
  let '(risk_score, risk_reasons) :=
    _calculate_risk_score dc _generate_detection_reason
      filtered_detections conditions in
  ({| v_analysis_id := analysis_id;
      detections := filtered_detections;
      vision_risk_score := risk_score;
      v_risk_reasons := risk_reasons |},
   {| _processing_count := (_processing_count self + 1)%Z |}).

End Vision.

(* ===================================================================== *)
(** ** models/sensor.py, services/sensor_service.py and
       [SensorGenerator.calculate_likelihood_scores] *)
(* ===================================================================== *)

Module Sensor.

Import SafeMath Guards.

Inductive SensorType := VIBRATION | TILT | PRESSURE.

Inductive AnomalyType :=
| ENVIRONMENTAL_NOISE
| MECHANICAL_WEAR
| SUDDEN_CHANGE
| COORDINATED_ANOMALY
| SENSOR_FAILURE
| AnomalyType_NORMAL.

Inductive AnomalySeverity :=
| AnomalySeverity_NONE
| MINOR
| MODERATE
| SEVERE.

#[global] Instance SensorType_eq_dec : EqDecision SensorType.
Proof. solve_decision. Defined.

#[global] Instance AnomalyType_eq_dec : EqDecision AnomalyType.
Proof. solve_decision. Defined.

#[global] Instance AnomalySeverity_eq_dec : EqDecision AnomalySeverity.
Proof. solve_decision. Defined.

Definition SensorType_value (t : SensorType) : string :=
  match t with
  | VIBRATION => "vibration"
  | TILT => "tilt"
  | PRESSURE => "pressure"
  end.

Definition AnomalyType_value (t : AnomalyType) : string :=
  match t with
  | ENVIRONMENTAL_NOISE => "environmental_noise"
  | MECHANICAL_WEAR => "mechanical_wear"
  | SUDDEN_CHANGE => "sudden_change"
  | COORDINATED_ANOMALY => "coordinated_anomaly"
  | SENSOR_FAILURE => "sensor_failure"
  | AnomalyType_NORMAL => "normal"
  end.

(** The fields of a reading that the service reads. *)
Record SensorReading := {
  sensor_id : string;
  sensor_type : SensorType;
  value : Q;
  is_operational : bool
}.

Record SensorAnomaly := {
  anomaly_id : string;
  anomaly_sensor_id : string;
  anomaly_sensor_type : SensorType;
  anomaly_type : AnomalyType;
  severity : AnomalySeverity;
  value_observed : Q;
  value_expected : Q;
  deviation_percent : Q;
  z_score : option Q;
  isolation_score : option Q;
  duration_seconds : option Q;
  is_recurring : bool
}.

(** An empty dict is falsy. *)
Definition threshold_config_is_empty (t : ThresholdConfig) : bool :=
  match normal_range t, warning_range t, critical_range t with
  | None, None, None => true
  | _, _, _ => false
  end.

(** The body of the loop of [_detect_anomalies] for one reading;
    [uuid_hex] is the [uuid.uuid4().hex] drawn if an anomaly is
    recorded. *)
Definition detect_reading (dc : DetectorConfig) (uuid_hex : string)
    (reading : SensorReading) : option SensorAnomaly :=
  match SENSOR_THRESHOLDS dc !! SensorType_value (sensor_type reading) with
  | None => None
  | Some threshold_config =>
      if threshold_config_is_empty threshold_config then None
      else
        let value := value reading in
        let normal_range :=
          default (0, 100)%Q (normal_range threshold_config) in
        let warning_range :=
          default (0, 100)%Q (warning_range threshold_config) in
        let critical_range :=
          default (0, 100)%Q (critical_range threshold_config) in
        let is_normal := in_range normal_range value in
        let is_warning := in_range warning_range value in
        let is_critical := in_range critical_range value in
        if is_normal then None
        else
          let '(severity, anomaly_type) :=
            if is_critical then (SEVERE, SUDDEN_CHANGE)
            else if is_warning then (MODERATE, MECHANICAL_WEAR)
            else (MINOR, ENVIRONMENTAL_NOISE) in
          if decide (severity = AnomalySeverity_NONE) then None
          else
            let expected := ((fst normal_range + snd normal_range) / 2)%Q in
            let expected_denominator := py_max (Qabs expected) 0.01 in
            let deviation_pct_raw :=
              fst (safe_divide (Qabs (value - expected))
                     expected_denominator 0) in
            let deviation_pct := (deviation_pct_raw * 100)%Q in
            let z_score := safe_clamp (deviation_pct / 25) 0 10 in
            let isolation_score := safe_clamp (deviation_pct / 100) 0 1 in
            Some {| anomaly_id :=
                      String.append "anom_" (substring 0 8 uuid_hex);
                    anomaly_sensor_id := sensor_id reading;
                    anomaly_sensor_type := sensor_type reading;
                    anomaly_type := anomaly_type;
                    severity := severity;
                    value_observed := value;
                    value_expected := expected;
                    deviation_percent := py_round2 deviation_pct;
                    z_score := Some z_score;
                    isolation_score := Some isolation_score;
                    duration_seconds := None;
                    is_recurring := false |}
  end.

(** [SensorService._detect_anomalies].  [uuid4_hex n] is the n-th
    [uuid.uuid4().hex]; [draws] counts the ones drawn so far, and the
    count after the loop is returned with the anomalies. *)
Fixpoint _detect_anomalies (dc : DetectorConfig) (uuid4_hex : nat -> string)
    (readings : list SensorReading) (draws : nat)
  : list SensorAnomaly * nat :=
  match readings with
  | [] => ([], draws)
  | reading :: rest =>
      match detect_reading dc (uuid4_hex draws) reading with
      | Some anomaly =>
          let '(anomalies, draws') :=
            _detect_anomalies dc uuid4_hex rest (S draws) in
          (anomaly :: anomalies, draws')
      | None => _detect_anomalies dc uuid4_hex rest draws
      end
  end.

(** [SensorService._check_coordination]. *)
Definition _check_coordination (anomalies : list SensorAnomaly)
  : bool * option Q :=
  if (length anomalies <? 2)%nat then (false, None)
  else
    let sensor_types := remove_dups (List.map anomaly_sensor_type anomalies) in
    if (2 <=? length sensor_types)%nat then
      let confidence := (0.5 + py_len sensor_types * 0.15)%Q in
      let severe_count :=
        length
          (List.filter (fun a => bool_decide (severity a = SEVERE))
             anomalies) in
      let confidence :=
        if (2 <=? severe_count)%nat then (confidence + 0.2)%Q
        else confidence in
      (true, Some (py_min confidence 1))
    else (false, None).

(** [round(x, 3)]. *)
Definition py_round3 (x : Q) : Q :=
  (inject_Z (round_half_even (x * 1000)) / 1000)%Q.

(** The dict returned by [calculate_likelihood_scores]. *)
Record Likelihoods := {
  environmental : Q;
  mechanical : Q;
  sabotage : Q
}.

Definition severity_points (s : AnomalySeverity) : Z :=
  match s with
  | MINOR => 1
  | MODERATE => 2
  | SEVERE => 3
  | AnomalySeverity_NONE => 0
  end.

Definition has_type (t : AnomalyType) (anomalies : list SensorAnomaly) : bool :=
  existsb (fun a => bool_decide (anomaly_type a = t)) anomalies.

(** [SensorGenerator.calculate_likelihood_scores]
    (simulation/sensor_generator.py). *)
Definition calculate_likelihood_scores (anomalies : list SensorAnomaly)
  : Likelihoods :=
  match anomalies with
  | [] => {| environmental := 0; mechanical := 0; sabotage := 0 |}
  | _ =>
      let severity_sum :=
        fold_left (fun s a => (s + severity_points (severity a))%Z)
          anomalies 0%Z in
      let env_score :=
        if has_type ENVIRONMENTAL_NOISE anomalies then (0 + 0.6)%Q else 0%Q in
      let mech_score :=
        if has_type MECHANICAL_WEAR anomalies then (0 + 0.6)%Q else 0%Q in
      let sab_score := 0%Q in
      let sab_score :=
        if has_type SUDDEN_CHANGE anomalies then (sab_score + 0.5)%Q
        else sab_score in
      let sab_score :=
        if has_type COORDINATED_ANOMALY anomalies then (sab_score + 0.7)%Q
        else sab_score in
      let sab_score :=
        if (4 <? severity_sum)%Z then (sab_score * 1.3)%Q else sab_score in
      let sab_score :=
        if (3 <? length anomalies)%nat then (sab_score * 1.2)%Q
        else sab_score in
      let total := (env_score + mech_score + sab_score + 0.01)%Q in
      let share (score : Q) : Q :=
        py_min (if Qltb 0 total then py_round3 (score / total) else 0) 1 in
      {| environmental := share env_score;
         mechanical := share mech_score;
         sabotage := share sab_score |}
  end.

(** The formatted texts of [_calculate_risk_score] (f-strings, not
    modelled): [_generate_anomaly_reason] and the two likelihood
    lines. *)
Record ReasonTexts := {
  _generate_anomaly_reason : SensorAnomaly -> string;
  sabotage_reason : Q -> string;
  environmental_reason : Q -> string
}.

Definition severity_mult (s : AnomalySeverity) : Q :=
  match s with
  | MINOR => 0.5
  | MODERATE => 1
  | SEVERE => 1.5
  | AnomalySeverity_NONE => 1
  end.

(** [SensorService._calculate_risk_score]. *)
Definition _calculate_risk_score (dc : DetectorConfig) (texts : ReasonTexts)
    (anomalies : list SensorAnomaly) (is_coordinated : bool)
    (likelihoods : Likelihoods) : Q * list string :=
  match anomalies with
  | [] => (0%Q, ["All sensor readings within normal parameters"%string])
  | _ =>
      let total_risk :=
        fold_left
          (fun total anomaly =>
             let type_key := AnomalyType_value (anomaly_type anomaly) in
             let base_weight := dict_get (SENSOR_WEIGHTS dc) type_key 10%Q in
             let contribution :=
               (base_weight * severity_mult (severity anomaly))%Q in
             (total + contribution)%Q)
          anomalies 0%Q in
      let reasons := List.map (_generate_anomaly_reason texts) anomalies in
      let '(total_risk, reasons) :=
        if is_coordinated
        then ((total_risk * 1.5)%Q,
              reasons ++ ["⚠️ Multiple sensors showing coordinated anomalies - indicates potential simultaneous tampering"%string])
        else (total_risk, reasons) in
      let '(total_risk, reasons) :=
        if Qltb 0.5 (sabotage likelihoods)
        then ((total_risk * 1.2)%Q,
              reasons ++ [sabotage_reason texts (sabotage likelihoods)])
        else if Qltb 0.5 (environmental likelihoods)
        then ((total_risk * 0.7)%Q,
              reasons ++
                [environmental_reason texts (environmental likelihoods)])
        else (total_risk, reasons) in
      (py_min (py_round2 total_risk) 100, reasons)
  end.

(** What [analyze] returns: the fields [IntentService.classify] reads,
    and the other fields computed by the service. *)
Record SensorAnalysis := {
  response : Intent.SensorAnalysisResponse;
  total_sensors : nat;
  operational_sensors : nat;
  readings_analyzed : nat;
  anomalies : list SensorAnomaly;
  total_anomalies : nat;
  environmental_likelihood : Q;
  mechanical_likelihood : Q
}.

Record SensorService := {
  _processing_count : Z
}.

(** [SensorService.analyze].  [request_readings] is [request.readings],
    [adapter_readings] what [self.adapter.get_readings] returns when it
    is asked; [uuid4_hex 0] names the analysis, the following ones the
    anomalies. *)
Definition analyze (dc : DetectorConfig) (texts : ReasonTexts)
    (uuid4_hex : nat -> string)
    (request_readings : option (list SensorReading))
    (adapter_readings : list SensorReading)
    (self : SensorService)
  : SensorAnalysis * SensorService :=
  let analysis_id := String.append "sens_" (substring 0 12 (uuid4_hex 0%nat)) in
  let readings :=
    match request_readings with
    | Some (r :: rs) => r :: rs
    | _ => adapter_readings
    end in
  let anomalies := fst (_detect_anomalies dc uuid4_hex readings 1) in
  let total_sensors := length readings in
  let operational_sensors := length (List.filter is_operational readings) in
  let '(is_coordinated, coord_confidence) := _check_coordination anomalies in
  let likelihoods := calculate_likelihood_scores anomalies in
  let '(risk_score, risk_reasons) :=
    _calculate_risk_score dc texts anomalies is_coordinated likelihoods in
  ({| response :=
        {| Intent.s_analysis_id := analysis_id;
           Intent.is_coordinated := is_coordinated;
           Intent.coordination_confidence := coord_confidence;
           Intent.sensor_risk_score := risk_score;
           Intent.s_risk_reasons := risk_reasons;
           Intent.sabotage_likelihood := sabotage likelihoods |};
      total_sensors := total_sensors;
      operational_sensors := operational_sensors;
      readings_analyzed := length readings;
      anomalies := anomalies;
      total_anomalies := length anomalies;
      environmental_likelihood := environmental likelihoods;
      mechanical_likelihood := mechanical likelihoods |},
   {| _processing_count := (_processing_count self + 1)%Z |}).

End Sensor.

(** *** Specification vocabulary for the sensor service *)

(** A reading of an unconfigured sensor type, or within the normal
    range configured for its type. *)
Definition reading_is_quiet (dc : DetectorConfig) (r : Sensor.SensorReading) : Prop :=
  SENSOR_THRESHOLDS dc !! Sensor.SensorType_value (Sensor.sensor_type r) = None \/
  exists t lo hi,
    SENSOR_THRESHOLDS dc !! Sensor.SensorType_value (Sensor.sensor_type r) = Some t /\
    normal_range t = Some (lo, hi) /\ (lo <= Sensor.value r <= hi)%Q.


(* ===================================================================== *)
(** ** services/alert_service.py: the read side *)
(* ===================================================================== *)

(** [sorted(l, key=...)] and [l.sort(key=...)] are stable: the result is
    ordered by key and elements with equal keys keep their order, also
    with [reverse=True].  [before y x] tells that the key of [y] comes
    strictly ahead of the key of [x] in the requested order. *)
Fixpoint py_insert {A} (before : A -> A -> bool) (x : A) (l : list A)
  : list A :=
  match l with
  | [] => [x]
  | y :: rest =>
      if before y x then y :: py_insert before x rest else x :: y :: rest
  end.

Definition py_sorted {A} (before : A -> A -> bool) (l : list A) : list A :=
  foldr (py_insert before) [] l.

(** [a] may stand ahead of [b] in a list sorted by [before]. *)
Definition ahead {A} (before : A -> A -> bool) (a b : A) : Prop :=
  before b a = false.

(** [l[start:stop]] for a Python list and any two integers. *)
Definition py_slice {A} (l : list A) (start stop : Z) : list A :=
  let len := Z.of_nat (length l) in
  let clamp i := if (i <? 0)%Z then Z.max (len + i) 0 else Z.min i len in
  let lo := clamp start in
  let hi := clamp stop in
  take (Z.to_nat (hi - lo)) (drop (Z.to_nat lo) l).

Module AlertQueries.

Import Alerts.

Definition SeverityLevel_value (s : SeverityLevel) : string :=
  match s with
  | LOW => "LOW"
  | MEDIUM => "MEDIUM"
  | HIGH => "HIGH"
  | CRITICAL => "CRITICAL"
  end.

(** [AlertService.get_alert]. *)
Definition get_alert (alert_id : string) : M (option Alert) :=
  fun w => (_alerts (alert_service w) !! alert_id, w).

Record AlertHistoryQuery := {
  q_zone_id : option string;
  q_severity : option SeverityLevel;
  q_status : option AlertStatus;
  start_time : option datetime;
  end_time : option datetime;
  limit : Z;
  offset : Z
}.

Record AlertHistoryResponse := {
  alerts : list Alert;
  total : Z;
  resp_limit : Z;
  resp_offset : Z;
  has_more : bool
}.

(** [if x: l = [a for a in l if test]]: a filter that is skipped when
    the query field is falsy.  [None] is falsy for every field, and so is
    the empty string for [zone_id]; enum members and datetimes are
    truthy. *)
Definition filter_if {A B} (field : option B) (truthy : B -> bool)
    (test : B -> A -> bool) (l : list A) : list A :=
  match field with
  | Some x => if truthy x then List.filter (test x) l else l
  | None => l
  end.

Definition newest_first (y x : Alert) : bool :=
  (created_at x <? created_at y)%Z.

(** [AlertService.get_history]; [values] is [self._alerts.values()], the
    alerts of the registry in the order of the dict. *)
Definition get_history (values : list Alert) (query : AlertHistoryQuery)
  : AlertHistoryResponse :=
  let alerts := values in
  let alerts :=
    filter_if (q_zone_id query)
      (fun z => negb (String.eqb z ""))
      (fun z a => String.eqb (zone_id a) z) alerts in
  let alerts :=
    filter_if (q_severity query) (fun _ => true)
      (fun s a => bool_decide (severity a = s)) alerts in
  let alerts :=
    filter_if (q_status query) (fun _ => true)
      (fun s a => bool_decide (status a = s)) alerts in
  let alerts :=
    filter_if (start_time query) (fun _ => true)
      (fun t a => (t <=? created_at a)%Z) alerts in
  let alerts :=
    filter_if (end_time query) (fun _ => true)
      (fun t a => (created_at a <=? t)%Z) alerts in
  let alerts := py_sorted newest_first alerts in
  let total := Z.of_nat (length alerts) in
  let alerts :=
    py_slice alerts (offset query) (offset query + limit query) in
  {| alerts := alerts;
     total := total;
     resp_limit := limit query;
     resp_offset := offset query;
     has_more := (offset query + Z.of_nat (length alerts) <? total)%Z |}.

(** [AlertStatusResponse] without the constant [system_status] and the
    clock reading [last_updated]. *)
Record AlertStatusResponse := {
  total_active : Z;
  by_severity : gmap string Z;
  most_urgent : option Alert;
  recent_alerts : list Alert;
  alerts_last_hour : Z;
  alerts_last_24h : Z
}.

(** The dict [severity_order] of [get_status]; it has an entry for every
    member of the enum. *)
Definition severity_order (s : SeverityLevel) : Z :=
  match s with
  | CRITICAL => 0
  | HIGH => 1
  | MEDIUM => 2
  | LOW => 3
  end.

(** Comparison of the sort keys [(severity_order, created_at)]. *)
Definition more_urgent (y x : Alert) : bool :=
  (severity_order (severity y) <? severity_order (severity x))%Z
  || ((severity_order (severity y) =? severity_order (severity x))%Z
      && (created_at y <? created_at x)%Z).

(** [AlertService.get_status]; [values] is [self._alerts.values()] and
    [now] the reading of the clock. *)
Definition get_status (values : list Alert) (now : datetime)
  : AlertStatusResponse :=
  let active_alerts :=
    List.filter (fun a => bool_decide (status a = ACTIVE)) values in
  let by_severity : gmap string Z :=
    fold_left
      (fun d s => <[SeverityLevel_value s := 0%Z]> d)
      [LOW; MEDIUM; HIGH; CRITICAL] ∅ in
  let by_severity :=
    fold_left
      (fun d alert =>
         alter (fun n => (n + 1)%Z) (SeverityLevel_value (severity alert)) d)
      active_alerts by_severity in
  let most_urgent :=
    match active_alerts with
    | [] => None
    | _ => head (py_sorted more_urgent active_alerts)
    end in
  let all_alerts := py_sorted newest_first values in
  let hour_ago := (now - seconds 3600)%Z in
  let day_ago := (now - seconds (24 * 3600))%Z in
  {| total_active := Z.of_nat (length active_alerts);
     by_severity := by_severity;
     most_urgent := most_urgent;
     recent_alerts := py_slice all_alerts 0 10;
     alerts_last_hour :=
       Z.of_nat (length (List.filter
                           (fun a => (hour_ago <? created_at a)%Z) values));
     alerts_last_24h :=
       Z.of_nat (length (List.filter
                           (fun a => (day_ago <? created_at a)%Z) values)) |}.

End AlertQueries.

(* ===================================================================== *)
(** ** services/audit_service.py: the read side *)
(* ===================================================================== *)

Module Audit.

Import Alerts.

#[global] Instance AuditEventType_eq_dec : EqDecision AuditEventType.
Proof. solve_decision. Defined.

(** [AuditService.get_recent_entries]; [entries] is [self._entries]. *)
Definition get_recent_entries (entries : list AuditEntry) (limit : Z)
    (event_type_filter : option AuditEventType)
    (zone_id_filter : option string) : list AuditEntry :=
  let entries :=
    match event_type_filter with
    | Some t => List.filter (fun e => bool_decide (event_type e = t)) entries
    | None => entries
    end in
  let entries :=
    match zone_id_filter with
    | Some z =>
        if String.eqb z "" then entries
        else List.filter
               (fun e => bool_decide (entry_zone_id e = Some z)) entries
    | None => entries
    end in
  rev (py_slice_from entries (- limit)).

(** [AuditService.get_entry]. *)
Fixpoint get_entry (entries : list AuditEntry) (id : string)
  : option AuditEntry :=
  match entries with
  | [] => None
  | entry :: rest =>
      if String.eqb (entry_id entry) id then Some entry
      else get_entry rest id
  end.

End Audit.

(** *** Specification vocabulary for the alert queries *)

(** The alert passes every filter of the query that is in force. *)
Definition query_matches (query : AlertQueries.AlertHistoryQuery)
    (a : Alerts.Alert) : bool :=
  match AlertQueries.q_zone_id query with
  | Some z => String.eqb z "" || String.eqb (Alerts.zone_id a) z
  | None => true
  end
  && match AlertQueries.q_severity query with
     | Some s => bool_decide (Alerts.severity a = s)
     | None => true
     end
  && match AlertQueries.q_status query with
     | Some s => bool_decide (Alerts.status a = s)
     | None => true
     end
  && match AlertQueries.start_time query with
     | Some t => (t <=? Alerts.created_at a)%Z
     | None => true
     end
  && match AlertQueries.end_time query with
     | Some t => (Alerts.created_at a <=? t)%Z
     | None => true
     end.

(** The same query with another page window. *)
Definition with_page (query : AlertQueries.AlertHistoryQuery)
    (page_offset page_limit : Z) : AlertQueries.AlertHistoryQuery :=
  {| AlertQueries.q_zone_id := AlertQueries.q_zone_id query;
     AlertQueries.q_severity := AlertQueries.q_severity query;
     AlertQueries.q_status := AlertQueries.q_status query;
     AlertQueries.start_time := AlertQueries.start_time query;
     AlertQueries.end_time := AlertQueries.end_time query;
     AlertQueries.limit := page_limit;
     AlertQueries.offset := page_offset |}.

(** All alerts that match the query, newest first. *)
Definition listing (values : list Alerts.Alert)
    (query : AlertQueries.AlertHistoryQuery) : list Alerts.Alert :=
  py_sorted AlertQueries.newest_first (List.filter (query_matches query) values).

(** *** Specification vocabulary for the audit queries *)

(** The entry passes the filters of [get_recent_entries] that are in
    force. *)
Definition entry_matches (event_type_filter : option Alerts.AuditEventType)
    (zone_id_filter : option string) (e : Alerts.AuditEntry) : bool :=
  match event_type_filter with
  | Some t => bool_decide (Alerts.event_type e = t)
  | None => true
  end
  && match zone_id_filter with
     | Some z =>
         String.eqb z "" || bool_decide (Alerts.entry_zone_id e = Some z)
     | None => true
     end.

(** *** More concrete inputs *)

Module Scenarios.

(** A zone that raised an alert every five minutes, ten alerts in 45
    minutes, none of them kept in the registry here. *)
Definition flooded_service : Alerts.AlertService :=
  {| Alerts._alerts := ∅;
     Alerts._zone_last_alert := {[ "ZONE-001"%string := seconds 2700 ]};
     Alerts._zone_alert_counts :=
       {[ "ZONE-001"%string :=
            List.map (fun k => seconds (300 * k))
              [0; 1; 2; 3; 4; 5; 6; 7; 8; 9]%Z ]} |}.

Definition flooded_world : Alerts.World := Examples.world_of flooded_service.

Definition acknowledge_request : Alerts.AlertAcknowledgeRequest :=
  {| Alerts.ack_alert_id := "alert_0123456789ab";
     Alerts.ack_acknowledged_by := "operator-2";
     Alerts.ack_notes := None;
     Alerts.mark_as_false_positive := false |}.

End Scenarios.

(** *** Specification vocabulary for the run controller *)

(** The task has finished with a success payload. *)
Definition is_success (t : Controller.TaskState) : bool :=
  match t with
  | Controller.Finished (Controller.RunSuccess _ _) => true
  | _ => false
  end.

(** The number of [run_single] calls that have returned a success
    payload. *)
Definition successful_runs (s : Controller.System) : Z :=
  Z.of_nat (length (List.filter is_success (Controller.tasks s))).

(* ===================================================================== *)
(** * Properties *)
(* ===================================================================== *)

(** ** Numeric guard layer *)

Section NumericFacts.

Local Open Scope Q_scope.

Lemma Qltb_true (a b : Q) : Qltb a b = true <-> a < b.
Proof.
  unfold Qltb. rewrite Qlt_alt.
  destruct (a ?= b); split; congruence.
Qed.

Lemma Qltb_false (a b : Q) : Qltb a b = false <-> b <= a.
Proof.
  unfold Qltb. destruct (a ?= b) eqn:E; split; intros H;
    try reflexivity; try discriminate.
  - apply Qeq_alt in E. lra.
  - apply Qlt_alt in E. lra.
  - apply Qgt_alt in E. lra.
Qed.

Lemma Qleb_true (a b : Q) : Qleb a b = true <-> a <= b.
Proof.
  unfold Qleb. rewrite Qle_alt.
  destruct (a ?= b); split; congruence.
Qed.

Lemma Qleb_false (a b : Q) : Qleb a b = false <-> b < a.
Proof.
  unfold Qleb. destruct (a ?= b) eqn:E; split; intros H;
    try reflexivity; try discriminate.
  - apply Qeq_alt in E. lra.
  - apply Qlt_alt in E. lra.
  - apply Qgt_alt in E. lra.
Qed.

Lemma py_max_cases (a b : Q) :
  (a < b /\ py_max a b = b) \/ (b <= a /\ py_max a b = a).
Proof.
  unfold py_max. destruct (Qltb a b) eqn:E.
  - left. split; [now apply Qltb_true | reflexivity].
  - right. split; [now apply Qltb_false | reflexivity].
Qed.

Lemma py_min_cases (a b : Q) :
  (b < a /\ py_min a b = b) \/ (a <= b /\ py_min a b = a).
Proof.
  unfold py_min. destruct (Qltb b a) eqn:E.
  - left. split; [now apply Qltb_true | reflexivity].
  - right. split; [now apply Qltb_false | reflexivity].
Qed.

Lemma py_max_lower (a b : Q) : a <= py_max a b /\ b <= py_max a b.
Proof. destruct (py_max_cases a b) as [[H ->] | [H ->]]; lra. Qed.

Lemma py_min_upper (a b : Q) : py_min a b <= a /\ py_min a b <= b.
Proof. destruct (py_min_cases a b) as [[H ->] | [H ->]]; lra. Qed.

(** [safe_clamp] lands in the range whenever the range is not empty. *)
Lemma safe_clamp_bounds (value lo hi : Q) :
  lo <= hi ->
  lo <= SafeMath.safe_clamp value lo hi <= hi.
Proof.
  intros Hle. unfold SafeMath.safe_clamp.
  destruct (py_min_cases hi value) as [[H1 ->] | [H1 ->]];
    destruct (py_max_cases lo value) as [[H2 E2] | [H2 E2]];
    destruct (py_max_cases lo hi) as [[H3 E3] | [H3 E3]];
    rewrite ?E2, ?E3; lra.
Qed.

Lemma safe_risk_score_bounds (raw lo hi : Q) :
  lo <= hi ->
  lo <= fst (SafeMath.safe_risk_score raw lo hi) <= hi.
Proof.
  intros Hle. unfold SafeMath.safe_risk_score.
  destruct (Qltb raw lo) eqn:E1; simpl; [lra |].
  destruct (Qltb hi raw) eqn:E2; simpl; [lra |].
  apply Qltb_false in E1, E2. lra.
Qed.

(** Rounding never crosses an integer. *)
Lemma round_half_even_lower (a : Z) (q : Q) :
  inject_Z a <= q -> (a <= round_half_even q)%Z.
Proof.
  intros H.
  assert (Hf : (a <= Qfloor q)%Z).
  { rewrite <- (Qfloor_Z a). now apply Qfloor_resp_le. }
  unfold round_half_even.
  destruct (q - inject_Z (Qfloor q) ?= 1 # 2); [| lia | lia].
  destruct (Z.even (Qfloor q)); lia.
Qed.

Lemma round_half_even_upper (b : Z) (q : Q) :
  q <= inject_Z b -> (round_half_even q <= b)%Z.
Proof.
  intros H.
  assert (Hf : (Qfloor q <= b)%Z).
  { rewrite <- (Qfloor_Z b). now apply Qfloor_resp_le. }
  destruct (Z.eq_dec (Qfloor q) b) as [Heq | Hne].
  - (* the floor is already [b]: the fractional part is zero *)
    pose proof (Qfloor_le q) as Hfl. rewrite Heq in Hfl.
    unfold round_half_even. rewrite Heq.
    destruct (q - inject_Z b ?= 1 # 2) eqn:E.
    + apply Qeq_alt in E. lra.
    + lia.
    + apply Qgt_alt in E. lra.
  - unfold round_half_even.
    destruct (q - inject_Z (Qfloor q) ?= 1 # 2); [| lia | lia].
    destruct (Z.even (Qfloor q)); lia.
Qed.

Lemma py_round2_bounds (a b : Z) (x : Q) :
  inject_Z a <= x * 100 <= inject_Z b ->
  inject_Z a <= py_round2 x * 100 <= inject_Z b.
Proof.
  intros [Hlo Hhi].
  pose proof (round_half_even_lower a _ Hlo) as H1.
  pose proof (round_half_even_upper b _ Hhi) as H2.
  rewrite Zle_Qle in H1, H2.
  assert (E : py_round2 x * 100 == inject_Z (round_half_even (x * 100))).
  { unfold py_round2. field. }
  rewrite E. split; assumption.
Qed.

Lemma py_round2_unit (x : Q) : 0 <= x <= 1 -> 0 <= py_round2 x <= 1.
Proof.
  intros H.
  destruct (py_round2_bounds 0 100 x) as [H1 H2].
  { change (inject_Z 0) with 0. change (inject_Z 100) with 100. lra. }
  change (inject_Z 0) with 0 in H1. change (inject_Z 100) with 100 in H2.
  lra.
Qed.

Lemma py_round2_percent (x : Q) : 0 <= x <= 100 -> 0 <= py_round2 x <= 100.
Proof.
  intros H.
  destruct (py_round2_bounds 0 10000 x) as [H1 H2].
  { change (inject_Z 0) with 0. change (inject_Z 10000) with 10000. lra. }
  change (inject_Z 0) with 0 in H1. change (inject_Z 10000) with 10000 in H2.
  lra.
Qed.

Lemma Qdiv_nonneg (a b : Q) : 0 <= a -> 0 < b -> 0 <= a / b.
Proof. intros Ha Hb. apply Qle_shift_div_l; lra. Qed.

Lemma Qdiv_le_1 (a b : Q) : a <= b -> 0 < b -> a / b <= 1.
Proof. intros Ha Hb. apply Qle_shift_div_r; lra. Qed.

End NumericFacts.

(** ** Risk classification engine *)

Section ClassificationFacts.

Import Intent.
Local Open Scope Q_scope.

Lemma triggers_override_test (d : Detection) :
  is_override_class (class_label d) && Qleb 0.85 (confidence d) = true
  <-> triggers_override d.
Proof.
  unfold triggers_override.
  rewrite andb_true_iff, Qleb_true. reflexivity.
Qed.

(** The loop returns the confidence of the first triggering detection. *)
Lemma override_detection_first (pre post : list Detection) (d : Detection) :
  (forall x, In x pre -> ~ triggers_override x) ->
  triggers_override d ->
  override_detection (pre ++ d :: post) = Some (confidence d).
Proof.
  intros Hpre Hd. induction pre as [| x pre IH]; simpl.
  - apply triggers_override_test in Hd. now rewrite Hd.
  - destruct (is_override_class (class_label x) && Qleb 0.85 (confidence x))
      eqn:E.
    + apply triggers_override_test in E.
      exfalso. apply (Hpre x); [now left | assumption].
    + apply IH. intros y Hy. apply Hpre. now right.
Qed.

(** Every triggering detection is preceded by a first one. *)
Lemma first_triggering_detection (ds : list Detection) (d : Detection) :
  In d ds -> triggers_override d ->
  exists d1 pre post,
    ds = pre ++ d1 :: post /\
    (forall x, In x pre -> ~ triggers_override x) /\
    triggers_override d1.
Proof.
  induction ds as [| x ds IH]; intros Hin Hd; [destruct Hin |].
  destruct (is_override_class (class_label x) && Qleb 0.85 (confidence x))
    eqn:E.
  - apply triggers_override_test in E.
    exists x, [], ds. repeat split; try assumption; try apply E.
    intros y [].
  - destruct Hin as [-> | Hin].
    + apply triggers_override_test in Hd. congruence.
    + destruct (IH Hin Hd) as (d1 & pre & post & -> & Hpre & Hd1).
      exists d1, (x :: pre), post. repeat split; try apply Hd1.
      intros y [<- | Hy].
      * intros Hx. apply triggers_override_test in Hx. congruence.
      * now apply Hpre.
Qed.

Lemma override_detection_in (ds : list Detection) (c : Q) :
  override_detection ds = Some c ->
  exists d, In d ds /\ triggers_override d /\ c = confidence d.
Proof.
  induction ds as [| x ds IH]; simpl; [discriminate |].
  destruct (is_override_class (class_label x) && Qleb 0.85 (confidence x))
    eqn:E.
  - intros [= <-]. exists x. apply triggers_override_test in E.
    repeat split; try apply E. now left.
  - intros H. destruct (IH H) as (d & Hin & Hd & ->).
    exists d. repeat split; try apply Hd. now right.
Qed.

Lemma override_detection_none (ds : list Detection) :
  override_detection ds = None ->
  forall d, In d ds -> ~ triggers_override d.
Proof.
  induction ds as [| x ds IH]; simpl; intros H d Hin; [destruct Hin |].
  destruct (is_override_class (class_label x) && Qleb 0.85 (confidence x))
    eqn:E; [discriminate |].
  destruct Hin as [<- | Hin].
  - intros Hx. apply triggers_override_test in Hx. congruence.
  - now apply IH.
Qed.

(** The confidence of the threshold branch is a probability. *)
Lemma threshold_confidence_unit (cfg : Config) (score : Q) :
  0 <= score <= 100 ->
  0 <= snd (threshold_classification cfg score) <= 1.
Proof.
  intros [Hlo Hhi]. unfold threshold_classification.
  set (ts := py_max (RISK_THRESHOLD_SAFE cfg) 0.01).
  set (tsu := py_max (RISK_THRESHOLD_SUSPICIOUS cfg) (ts + 0.01)).
  assert (Hts : 0.01 <= ts) by apply py_max_lower.
  assert (Htsu : ts + 0.01 <= tsu) by apply py_max_lower.
  destruct (Qltb score ts) eqn:E1; [| destruct (Qltb score tsu) eqn:E2];
    cbn [snd]; apply py_round2_unit.
  - apply Qltb_true in E1.
    assert (E0 : Qltb 0 ts = true) by (apply Qltb_true; lra).
    rewrite E0.
    pose proof (Qdiv_nonneg score ts Hlo ltac:(lra)) as D1.
    destruct (py_max_cases (1 - score / ts) 0) as [[? ->] | [? ->]]; lra.
  - apply Qltb_false in E1. apply Qltb_true in E2.
    assert (E0 : Qltb 0 (tsu - ts) = true) by (apply Qltb_true; lra).
    rewrite E0.
    pose proof (Qdiv_nonneg (score - ts) (tsu - ts) ltac:(lra) ltac:(lra)).
    pose proof (Qdiv_le_1 (score - ts) (tsu - ts) ltac:(lra) ltac:(lra)).
    lra.
  - apply Qltb_false in E2.
    destruct (Qltb 0 (100 - tsu)) eqn:E3.
    + apply Qltb_true in E3.
      pose proof (Qdiv_nonneg (score - tsu) (100 - tsu) ltac:(lra) E3).
      destruct (py_min_cases
                  (0.7 + (score - tsu) / (100 - tsu) * 0.3) 1)
        as [[? ->] | [? ->]]; lra.
    + destruct (py_min_cases 0.85 1) as [[? ->] | [? ->]]; lra.
Qed.

Lemma determine_classification_confidence_unit (cfg : Config) (score : Q)
    (vision : option VisionAnalysisResponse)
    (sensor : option SensorAnalysisResponse) :
  0 <= score <= 100 ->
  (forall v, vision = Some v ->
     Forall (fun d => 0 <= confidence d <= 1) (detections v)) ->
  (forall s, sensor = Some s -> 0 <= sabotage_likelihood s <= 1) ->
  0 <= snd (_determine_classification cfg score vision sensor) <= 1.
Proof.
  intros Hs Hv Hsen. unfold _determine_classification.
  destruct (match vision with
            | Some v => override_detection (detections v)
            | None => None
            end) as [c |] eqn:Eo.
  - destruct vision as [v |]; [| discriminate].
    destruct (override_detection_in _ _ Eo) as (d & Hin & _ & ->).
    specialize (Hv v eq_refl). rewrite Forall_forall in Hv.
    apply Hv. now apply list_elem_of_In.
  - destruct sensor as [s |];
      [destruct (is_coordinated s && Qleb 0.7 (sabotage_likelihood s)) |];
      try (now apply threshold_confidence_unit).
    cbn [snd]. now apply Hsen.
Qed.

Lemma combined_risk_score_bounds
    (vision : option VisionAnalysisResponse)
    (sensor : option SensorAnalysisResponse) (tc : TemporalContext) :
  0 <= fst (snd (combined_risk_score vision sensor tc)) <= 100.
Proof.
  unfold combined_risk_score. cbn [fst snd].
  apply safe_risk_score_bounds. lra.
Qed.

End ClassificationFacts.

(** ** C1, C2: bounds and the override rule *)

Section ClassifyResult.

Import Intent.
Local Open Scope Q_scope.

(** The three fields of the response the claims speak about, in terms
    of the two steps that compute them. *)
Lemma classify_with_context_fields (ext : Collaborators) (cfg : Config)
    (cid : string) (request : IntentClassifyRequest)
    (vision : option VisionAnalysisResponse)
    (sensor : option SensorAnalysisResponse) (tc : TemporalContext) :
  let final := fst (snd (combined_risk_score vision sensor tc)) in
  let r := classify_with_context ext cfg cid request vision sensor tc in
  risk_score r = py_round2 final /\
  classification r = fst (_determine_classification cfg final vision sensor) /\
  resp_confidence r = snd (_determine_classification cfg final vision sensor).
Proof.
  cbv zeta. unfold classify_with_context.
  destruct (combined_risk_score vision sensor tc) as [[vs ss] [final reason]].
  cbn [fst snd].
  destruct (_determine_classification cfg final vision sensor) as [c q].
  cbn. repeat split.
Qed.

(** C1. For every classification, whatever the supplied vision and
    sensor scores and whatever the temporal multiplier, the returned
    risk score lies in [0, 100] and the returned confidence in [0, 1],
    provided every detection confidence and the sabotage likelihood lie
    in [0, 1]. *)
Theorem C1_risk_score_and_confidence_bounded (ext : Collaborators)
    (cfg : Config) (cid : string) (request : IntentClassifyRequest)
    (vision : option VisionAnalysisResponse)
    (sensor : option SensorAnalysisResponse) (tc : TemporalContext) :
  (forall v, vision = Some v ->
     Forall (fun d => 0 <= confidence d <= 1) (detections v)) ->
  (forall s, sensor = Some s -> 0 <= sabotage_likelihood s <= 1) ->
  let r := classify_with_context ext cfg cid request vision sensor tc in
  (0 <= risk_score r <= 100) /\ (0 <= resp_confidence r <= 1).
Proof.
  intros Hv Hs r.
  destruct (classify_with_context_fields ext cfg cid request vision sensor tc)
    as (Er & _ & Ec).
  fold r in Er, Ec. rewrite Er, Ec.
  pose proof (combined_risk_score_bounds vision sensor tc) as Hb.
  split.
  - now apply py_round2_percent.
  - now apply determine_classification_confidence_unit.
Qed.

Lemma C1_witness :
  let vision := Examples.vision_with [Examples.fish_plate_090] 250 in
  let sensor := Examples.sensor_with false 0.2 (-40) in
  let r := classify_with_context Examples.quiet_collaborators config
             "cls_0123456789ab"
             (Examples.request "ZONE-001" Examples.noon None None)
             (Some vision) (Some sensor) (Examples.context_with 7.5) in
  (0 <= risk_score r <= 100) /\ (0 <= resp_confidence r <= 1).
Proof.
  apply C1_risk_score_and_confidence_bounded.
  - intros v [= <-]. repeat constructor; simpl; lra.
  - intros s [= <-]. simpl. lra.
Defined.

(** The same bounds for the entry point [classify], which computes the
    temporal context from the request's timestamp. *)
Lemma classify_bounded (ext : Collaborators) (cfg : Config) (cid : string)
    (request : IntentClassifyRequest) :
  (forall t sc, Forall (fun d => 0 <= confidence d <= 1)
     (detections (vision_service_analyze ext (req_zone_id request) t sc))) ->
  (forall t sc, 0 <= sabotage_likelihood
     (sensor_service_analyze ext (req_zone_id request) t sc) <= 1) ->
  (forall v, req_vision_analysis request = Some v ->
     Forall (fun d => 0 <= confidence d <= 1) (detections v)) ->
  (forall s, req_sensor_analysis request = Some s ->
     0 <= sabotage_likelihood s <= 1) ->
  let r := classify ext cfg cid request in
  (0 <= risk_score r <= 100) /\ (0 <= resp_confidence r <= 1).
Proof.
  intros Hpv Hps Hv Hs r. subst r. unfold classify.
  match goal with
  | |- context [classify_with_context ext cfg cid request ?v ?s ?tc] =>
      destruct (classify_with_context_fields ext cfg cid request v s tc)
        as (Er & _ & Ec);
      pose proof (combined_risk_score_bounds v s tc) as Hb;
      rewrite Er, Ec; split;
      [ now apply py_round2_percent
      | apply determine_classification_confidence_unit; [assumption | |] ]
  end.
  - intros v. destruct (req_vision_analysis request) as [v0 |].
    + intros [= <-]. now apply Hv.
    + destruct (run_vision_analysis request); [| discriminate].
      intros [= <-]. apply Hpv.
  - intros s. destruct (req_sensor_analysis request) as [s0 |].
    + intros [= <-]. now apply Hs.
    + destruct (run_sensor_analysis request); [| discriminate].
      intros [= <-]. apply Hps.
Qed.

End ClassifyResult.

Section OverrideRule.

Import Intent.
Local Open Scope Q_scope.

(** C2, as the claim states it, fails when two detections trigger the
    override with different confidences: with missing_fish_plate at 0.9
    listed before track_displacement at 0.95 (scores 0, multiplier 1.0)
    the result is CONFIRMED_TAMPERING with confidence 0.9, not the 0.95
    of the second detection. *)
Lemma C2_counterexample :
  let v := Examples.vision_with
             [Examples.fish_plate_090; Examples.displacement_095] 0 in
  let d := Examples.displacement_095 in
  let r := classify Examples.quiet_collaborators config "cls_0123456789ab"
             (Examples.request "ZONE-001" Examples.noon (Some v) None) in
  In d (detections v) /\ triggers_override d /\
  classification r = CONFIRMED_TAMPERING /\
  resp_confidence r == 0.9 /\
  ~ resp_confidence r == confidence d.
Proof.
  cbv zeta. split; [right; left; reflexivity |].
  split; [split; [reflexivity | vm_compute; discriminate] |].
  split; [vm_compute; reflexivity |].
  split; [vm_compute; reflexivity |].
  vm_compute. discriminate.
Qed.

(** C2 (amended). Whenever the vision evidence contains a detection of
    class missing_fish_plate or track_displacement with confidence at
    least 0.85, the classification is CONFIRMED_TAMPERING whatever the
    scores, the sensor evidence and the temporal multiplier, and the
    confidence is that of the first such detection in the list. *)
Theorem C2_override_first_detection (ext : Collaborators) (cfg : Config)
    (cid : string) (request : IntentClassifyRequest)
    (v : VisionAnalysisResponse) (sensor : option SensorAnalysisResponse)
    (tc : TemporalContext) (d : Detection) :
  In d (detections v) ->
  triggers_override d ->
  let r := classify_with_context ext cfg cid request (Some v) sensor tc in
  classification r = CONFIRMED_TAMPERING /\
  exists d1 pre post,
    detections v = pre ++ d1 :: post /\
    (forall x, In x pre -> ~ triggers_override x) /\
    triggers_override d1 /\
    resp_confidence r = confidence d1.
Proof.
  intros Hin Hd r.
  destruct (first_triggering_detection _ _ Hin Hd)
    as (d1 & pre & post & Hsplit & Hpre & Hd1).
  destruct (classify_with_context_fields ext cfg cid request (Some v) sensor tc)
    as (_ & Ecls & Econf).
  fold r in Ecls, Econf.
  assert (Hdet : forall score,
            _determine_classification cfg score (Some v) sensor
            = (CONFIRMED_TAMPERING, confidence d1)).
  { intros score. unfold _determine_classification.
    rewrite Hsplit, (override_detection_first pre post d1 Hpre Hd1).
    reflexivity. }
  rewrite Hdet in Ecls, Econf. cbn [fst snd] in Ecls, Econf.
  split; [assumption |].
  exists d1, pre, post. repeat split; try assumption; apply Hd1.
Qed.

Lemma C2_witness :
  let v := Examples.vision_with
             [Examples.fish_plate_090; Examples.displacement_095] 0 in
  let r := classify_with_context Examples.quiet_collaborators config
             "cls_0123456789ab"
             (Examples.request "ZONE-001" Examples.noon (Some v) None)
             (Some v) None (Examples.context_with 1) in
  classification r = CONFIRMED_TAMPERING /\
  exists d1 pre post,
    detections v = pre ++ d1 :: post /\
    (forall x, In x pre -> ~ triggers_override x) /\
    triggers_override d1 /\
    resp_confidence r = confidence d1.
Proof.
  apply (C2_override_first_detection Examples.quiet_collaborators config
           "cls_0123456789ab" _ _ None _ Examples.displacement_095).
  - right. left. reflexivity.
  - split; [reflexivity | vm_compute; discriminate].
Defined.

(** When a single detection triggers the override, the confidence is
    that detection's. *)
Lemma override_single_detection (ext : Collaborators) (cfg : Config)
    (cid : string) (request : IntentClassifyRequest)
    (v : VisionAnalysisResponse) (sensor : option SensorAnalysisResponse)
    (tc : TemporalContext) (pre post : list Detection) (d : Detection) :
  detections v = pre ++ d :: post ->
  (forall x, In x pre -> ~ triggers_override x) ->
  triggers_override d ->
  let r := classify_with_context ext cfg cid request (Some v) sensor tc in
  classification r = CONFIRMED_TAMPERING /\ resp_confidence r = confidence d.
Proof.
  intros Hsplit Hpre Hd r.
  destruct (classify_with_context_fields ext cfg cid request (Some v) sensor tc)
    as (_ & Ecls & Econf).
  fold r in Ecls, Econf.
  unfold _determine_classification in Ecls, Econf.
  rewrite Hsplit, (override_detection_first pre post d Hpre Hd) in Ecls, Econf.
  now split.
Qed.

End OverrideRule.

(** ** Alert lifecycle manager *)

Section SeverityFacts.

Import Alerts.
Local Open Scope Q_scope.

(** The loop returns the first range, in table order, that contains
    the score. *)
Lemma first_matching_range_spec (ranges : list (SeverityLevel * (Q * Q)))
    (score : Q) (sev : SeverityLevel) :
  first_matching_range ranges score = Some sev <->
  exists pre lo hi post,
    ranges = pre ++ (sev, (lo, hi)) :: post /\
    lo <= score <= hi /\
    forall s l h, In (s, (l, h)) pre -> ~ (l <= score <= h).
Proof.
  split.
  - induction ranges as [| [s [l h]] rest IH]; simpl; [discriminate |].
    destruct (Qleb l score && Qleb score h) eqn:E.
    + intros [= <-]. apply andb_true_iff in E as [E1 E2].
      apply Qleb_true in E1, E2.
      exists [], l, h, rest. repeat split; try assumption.
      intros ? ? ? [].
    + intros H. destruct (IH H) as (pre & lo & hi & post & -> & Hin & Hpre).
      exists ((s, (l, h)) :: pre), lo, hi, post.
      repeat split; try apply Hin.
      intros s' l' h' [[= <- <- <-] | Hx].
      * intros [H1 H2]. apply Qleb_true in H1, H2.
        rewrite H1, H2 in E. discriminate.
      * exact (Hpre _ _ _ Hx).
  - intros (pre & lo & hi & post & -> & [H1 H2] & Hpre).
    induction pre as [| [s [l h]] pre IH]; simpl.
    + apply Qleb_true in H1, H2. now rewrite H1, H2.
    + destruct (Qleb l score && Qleb score h) eqn:E.
      * apply andb_true_iff in E as [E1 E2]. apply Qleb_true in E1, E2.
        exfalso. apply (Hpre s l h); [now left | split; assumption].
      * apply IH. intros s' l' h' Hx. apply (Hpre s'). now right.
Qed.

Lemma first_matching_range_none (ranges : list (SeverityLevel * (Q * Q)))
    (score : Q) :
  first_matching_range ranges score = None <->
  forall s l h, In (s, (l, h)) ranges -> ~ (l <= score <= h).
Proof.
  induction ranges as [| [s [l h]] rest IH]; simpl.
  - split; [intros _ ? ? ? [] | reflexivity].
  - destruct (Qleb l score && Qleb score h) eqn:E.
    + split; [discriminate |]. intros H. exfalso.
      apply andb_true_iff in E as [E1 E2]. apply Qleb_true in E1, E2.
      apply (H s l h); [now left | split; assumption].
    + rewrite IH. split.
      * intros H s' l' h' [[= <- <- <-] | Hx]; [| exact (H _ _ _ Hx)].
        intros [H1 H2]. apply Qleb_true in H1, H2.
        rewrite H1, H2 in E. discriminate.
      * intros H s' l' h' Hx. apply (H s'). now right.
Qed.

(** The severity under the shipped configuration, band by band. *)
Lemma determine_severity_default (score : Q) :
  _determine_severity config score =
    if Qltb score 25 then LOW
    else if Qleb score 49 then LOW
    else if Qleb 50 score && Qleb score 69 then MEDIUM
    else if Qleb 70 score && Qleb score 84 then HIGH
    else CRITICAL.
Proof.
  unfold _determine_severity. cbn [config SEVERITY_THRESHOLDS first_matching_range].
  destruct (Qltb score 25) eqn:E25.
  - apply Qltb_true in E25.
    assert (Qleb 25 score = false) as -> by (apply Qleb_false; lra).
    assert (Qleb 50 score = false) as -> by (apply Qleb_false; lra).
    assert (Qleb 70 score = false) as -> by (apply Qleb_false; lra).
    assert (Qleb 85 score = false) as -> by (apply Qleb_false; lra).
    reflexivity.
  - apply Qltb_false in E25.
    assert (Qleb 25 score = true) as -> by (apply Qleb_true; lra).
    destruct (Qleb score 49); cbn [andb]; [reflexivity |].
    destruct (Qleb 50 score && Qleb score 69); [reflexivity |].
    destruct (Qleb 70 score && Qleb score 84); [reflexivity |].
    destruct (Qleb 85 score && Qleb score 100); reflexivity.
Qed.

End SeverityFacts.

(** Unfolding the state-passing operations of the services. *)
Ltac run_service :=
  unfold Alerts.bind, Alerts.ret, Alerts.get_service, Alerts.put_service,
    Alerts.store_alert, Alerts.utcnow, Alerts.uuid4;
  cbn [fst snd Alerts.alert_service Alerts.audit_entries Alerts.clock_reads
       Alerts.uuid_draws Alerts._alerts Alerts._zone_last_alert
       Alerts._zone_alert_counts].

Section AlertCreation.

Import Alerts.

Variable env : Env.
Variable cfg : Config.

(** C4. For every classification that is SAFE,
    [create_alert_from_classification] returns none and leaves the alert
    registry, the per-zone gates and everything else untouched. *)
Theorem C4_safe_creates_no_alert (zone cid : string)
    (cls : TamperingClassification) (score : Q) (rs : list string)
    (w : World) :
  cls = SAFE ->
  let out := create_alert_from_classification env cfg zone cid cls score rs w in
  fst out = None /\
  snd out = w /\
  _alerts (alert_service (snd out)) = _alerts (alert_service w) /\
  _zone_last_alert (alert_service (snd out)) = _zone_last_alert (alert_service w) /\
  _zone_alert_counts (alert_service (snd out))
  = _zone_alert_counts (alert_service w).
Proof.
  intros Hsafe out. subst out. unfold create_alert_from_classification.
  destruct (decide (cls = SAFE)) as [_ | Hne]; [| contradiction].
  unfold ret. cbn [fst snd]. repeat split.
Qed.

(** A zone inside its cooldown window gets no alert, and the service
    state does not change. *)
Lemma create_alert_cooldown_blocks (zone cid : string)
    (cls : TamperingClassification) (score : Q) (rs : list string)
    (w : World) (t1 : Z) :
  _zone_last_alert (alert_service w) !! zone = Some t1 ->
  (utcnow_reading env (clock_reads w) - t1
   < seconds (ALERT_COOLDOWN_SECONDS cfg))%Z ->
  exists w',
    create_alert_from_classification env cfg zone cid cls score rs w
    = (None, w') /\
    alert_service w' = alert_service w /\
    audit_entries w' = audit_entries w.
Proof.
  intros Hlast Hlt. unfold create_alert_from_classification.
  destruct (decide (cls = SAFE)) as [_ | _]; [exists w; now run_service |].
  unfold _check_cooldown. run_service. rewrite Hlast. run_service.
  apply Z.leb_gt in Hlt. rewrite Hlt. cbn [negb].
  eexists. split; [reflexivity | split; reflexivity].
Qed.

(** What a call that creates an alert leaves behind. *)
Lemma create_alert_success (zone cid : string)
    (cls : TamperingClassification) (score : Q) (rs : list string)
    (w w1 : World) (a : Alert) :
  create_alert_from_classification env cfg zone cid cls score rs w
  = (Some a, w1) ->
  cls <> SAFE /\
  zone_id a = zone /\ status a = ACTIVE /\ escalation_level a = INITIAL /\
  acknowledged a = false /\
  severity a = _determine_severity cfg score /\
  _alerts (alert_service w1) = <[alert_id a := a]> (_alerts (alert_service w)) /\
  audit_entries w1 = audit_entries w /\
  _zone_last_alert (alert_service w1) !! zone
  = Some (utcnow_reading env (clock_reads w1 - 2)).
Proof.
  unfold create_alert_from_classification.
  destruct (decide (cls = SAFE)) as [_ | Hcls]; [discriminate |].
  unfold _check_cooldown, _check_flooding. run_service.
  destruct (_zone_last_alert (alert_service w) !! zone) as [t |]; run_service;
    repeat match goal with
      | |- context [if negb ?b then _ else _] => destruct b; cbn [negb]
      end; try discriminate;
    intros [= <- <-]; cbn;
    (repeat split; try assumption); apply lookup_insert_eq.
Qed.

(** A zone without prior alerts passes both gates. *)
Lemma create_alert_fresh_zone (zone cid : string)
    (cls : TamperingClassification) (score : Q) (rs : list string)
    (w : World) :
  cls <> SAFE ->
  _zone_last_alert (alert_service w) !! zone = None ->
  _zone_alert_counts (alert_service w) !! zone = None ->
  (0 < MAX_ALERTS_PER_HOUR cfg)%Z ->
  exists a w1,
    create_alert_from_classification env cfg zone cid cls score rs w
    = (Some a, w1).
Proof.
  intros Hcls Hlast Hcounts Hmax. unfold create_alert_from_classification.
  destruct (decide (cls = SAFE)) as [E | _]; [contradiction |].
  unfold _check_cooldown, _check_flooding. run_service.
  rewrite Hlast. cbn [negb]. run_service. rewrite Hcounts.
  cbn [default from_option List.filter length].
  apply Z.ltb_lt in Hmax. change (Z.of_nat 0) with 0%Z. rewrite Hmax.
  cbn [negb]. eexists. eexists. reflexivity.
Qed.

(** C8. When a call for a zone has created an alert and the next call
    for that zone reads the clock less than the cooldown after the
    recorded last-alert time, the next call returns none and leaves the
    service state as it was: the pair yields exactly one alert. *)
Theorem C8_cooldown_single_alert (zone cid1 cid2 : string)
    (cls1 cls2 : TamperingClassification) (score1 score2 : Q)
    (rs1 rs2 : list string) (w : World) :
  let first :=
    create_alert_from_classification env cfg zone cid1 cls1 score1 rs1 w in
  let w1 := snd first in
  let second :=
    create_alert_from_classification env cfg zone cid2 cls2 score2 rs2 w1 in
  is_Some (fst first) ->
  (exists t1,
     _zone_last_alert (alert_service w1) !! zone = Some t1 /\
     (utcnow_reading env (clock_reads w1) - t1
      < seconds (ALERT_COOLDOWN_SECONDS cfg))%Z) ->
  fst second = None /\
  alert_service (snd second) = alert_service w1 /\
  _zone_last_alert (alert_service w1) !! zone
  = Some (utcnow_reading env (clock_reads w1 - 2)).
Proof.
  intros first w1 second [a Ha] (t1 & Hlast & Hlt).
  assert (Hfirst : first = (Some a, w1)).
  { subst w1. destruct first as [o w']. cbn in Ha |- *. now subst o. }
  destruct (create_alert_success _ _ _ _ _ _ _ _ Hfirst)
    as (_ & _ & _ & _ & _ & _ & _ & _ & Hrec).
  destruct (create_alert_cooldown_blocks zone cid2 cls2 score2 rs2 w1 t1
              Hlast Hlt) as (w2 & Hsecond & Hsvc & _).
  subst second. rewrite Hsecond. cbn [fst snd]. now repeat split.
Qed.

End AlertCreation.

Lemma C4_witness :
  let out :=
    Alerts.create_alert_from_classification (Examples.env_every 0 1) config
      "ZONE-001" "cls_0123456789ab" SAFE 12 [] Examples.world_with_alert in
  fst out = None /\
  snd out = Examples.world_with_alert /\
  Alerts._alerts (Alerts.alert_service (snd out))
  = Alerts._alerts (Alerts.alert_service Examples.world_with_alert) /\
  Alerts._zone_last_alert (Alerts.alert_service (snd out))
  = Alerts._zone_last_alert (Alerts.alert_service Examples.world_with_alert) /\
  Alerts._zone_alert_counts (Alerts.alert_service (snd out))
  = Alerts._zone_alert_counts (Alerts.alert_service Examples.world_with_alert).
Proof.
  apply (C4_safe_creates_no_alert (Examples.env_every 0 1) config).
  reflexivity.
Defined.

(** The classify endpoint never creates an alert for a SAFE verdict; it
    only appends its audit entry. *)
Lemma classify_intent_safe (env : Env) (ext : Intent.Collaborators)
    (cfg : Config) (request : Intent.IntentClassifyRequest)
    (w : Alerts.World) :
  let out := Alerts.classify_intent env ext cfg request w in
  Intent.classification (fst (fst out)) = SAFE ->
  snd (fst out) = None /\
  Alerts.alert_service (snd out) = Alerts.alert_service w.
Proof.
  cbv zeta. unfold Alerts.classify_intent. run_service.
  match goal with
  | |- context [Alerts.log_intent_classification ?e ?c ?z ?d ?w0] =>
      assert (Hsvc : Alerts.alert_service
                       (snd (Alerts.log_intent_classification e c z d w0))
                     = Alerts.alert_service w) by reflexivity;
      destruct (Alerts.log_intent_classification e c z d w0) as [entry w2]
  end.
  cbn [snd] in Hsvc.
  match goal with
  | |- context [bool_decide (?c = SAFE)] =>
      destruct (bool_decide (c = SAFE)) eqn:E; cbn [negb]
  end.
  - intros _. cbn [fst snd]. now split.
  - apply bool_decide_eq_false in E.
    match goal with
    | |- context [Alerts.create_alert_from_classification ?a ?b ?c ?d ?e ?f ?g ?h] =>
        destruct (Alerts.create_alert_from_classification a b c d e f g h)
    end.
    cbn [fst snd]. intros Hs. contradiction.
Qed.

Lemma C8_witness :
  let env := Examples.env_every 0 1 in
  let first :=
    Alerts.create_alert_from_classification env config "ZONE-001"
      "cls_000000000001" SUSPICIOUS 40 [] Examples.empty_world in
  let w1 := snd first in
  let second :=
    Alerts.create_alert_from_classification env config "ZONE-001"
      "cls_000000000002" SUSPICIOUS 45 [] w1 in
  fst second = None /\
  Alerts.alert_service (snd second) = Alerts.alert_service w1 /\
  Alerts._zone_last_alert (Alerts.alert_service w1) !! "ZONE-001"
  = Some (utcnow_reading env (Alerts.clock_reads w1 - 2)).
Proof.
  apply (C8_cooldown_single_alert (Examples.env_every 0 1) config).
  - vm_compute. eexists. reflexivity.
  - exists (seconds 3). split; vm_compute; reflexivity.
Defined.

(** ** C3, C7: the end-to-end scenario and the severity bands *)

Section Scenario.

Import Intent.
Local Open Scope Q_scope.

Lemma override_detection_none_iff (ds : list Detection) :
  override_detection ds = None <->
  forall d, In d ds -> ~ triggers_override d.
Proof.
  split; [apply override_detection_none |].
  induction ds as [| x ds IH]; simpl; intros H; [reflexivity |].
  destruct (is_override_class (class_label x) && Qleb 0.85 (confidence x))
    eqn:E.
  - apply triggers_override_test in E. exfalso. apply (H x); [now left | assumption].
  - apply IH. intros d Hd. apply H. now right.
Qed.


Lemma scenario_classification (ext : Collaborators) (cid : string)
    (request : IntentClassifyRequest) (v : VisionAnalysisResponse)
    (s : SensorAnalysisResponse) :
  req_vision_analysis request = Some v ->
  req_sensor_analysis request = Some s ->
  vision_risk_score v = 80 ->
  sensor_risk_score s = 70 ->
  (22 <= hour_of (req_timestamp request)
   \/ hour_of (req_timestamp request) < 5)%Z ->
  (forall d, In d (detections v) -> ~ triggers_override d) ->
  ~ (is_coordinated s = true /\ 0.7 <= sabotage_likelihood s) ->
  let r := classify ext config cid request in
  temporal_modifier r = 1.3 /\
  resp_vision_risk_score r = 80 /\
  resp_sensor_risk_score r = 70 /\
  risk_score r = 87.75 /\
  classification r = CONFIRMED_TAMPERING /\
  resp_confidence r = 0.91 /\
  Intent.zone_id r = req_zone_id request /\
  Intent.classification_id r = cid.
Proof.
  intros Hv Hs Hvs Hss Hnight Hno Hcoord r. subst r.
  unfold classify. rewrite Hv, Hs.
  set (tc := _calculate_temporal_context config (req_timestamp request)).
  assert (Htc : time_risk_modifier tc = 1.3).
  { unfold tc, _calculate_temporal_context. cbn [time_risk_modifier].
    assert ((22 <=? hour_of (req_timestamp request))%Z
            || (hour_of (req_timestamp request) <? 5)%Z = true) as ->.
    { apply orb_true_iff. destruct Hnight; [left | right]; lia. }
    reflexivity. }
  assert (Hc : combined_risk_score (Some v) (Some s) tc
               = (80, 70, (87.75000, None))).
  { unfold combined_risk_score. rewrite Hvs, Hss, Htc. vm_compute. reflexivity. }
  assert (Hd : _determine_classification config 87.75000 (Some v) (Some s)
               = (CONFIRMED_TAMPERING, 0.91)).
  { unfold _determine_classification.
    apply override_detection_none_iff in Hno. rewrite Hno.
    assert (is_coordinated s && Qleb 0.7 (sabotage_likelihood s) = false) as ->.
    { apply not_true_is_false. intros E. apply Hcoord.
      apply andb_true_iff in E as [E1 E2]. apply Qleb_true in E2. now split. }
    vm_compute. reflexivity. }
  unfold classify_with_context. rewrite Hc, Hd. cbn.
  repeat split; try assumption.
Qed.


(** C3, as the claim states it, fails on the confidence: the scenario
    yields 0.7 + (87.75 - 60) / 40 * 0.3 = 0.908125, reported as 0.91,
    which is not 0.83 to two decimals. *)
Lemma C3_counterexample :
  let out :=
    Alerts.classify_intent (Examples.env_every 0 1)
      Examples.quiet_collaborators config
      (Examples.request "Z1" Examples.night
         (Some (Examples.vision_with [] 80))
         (Some (Examples.sensor_with false 0 70)))
      Examples.empty_world in
  let r := fst (fst out) in
  temporal_modifier r == 1.3 /\
  risk_score r == 87.75 /\
  classification r = CONFIRMED_TAMPERING /\
  resp_confidence r == 0.91 /\
  ~ (0.825 <= resp_confidence r <= 0.835).
Proof.
  cbv zeta. repeat split; try (vm_compute; reflexivity).
  intros [_ H]. vm_compute in H. apply H. reflexivity.
Qed.

(** C3 (amended). With the default thresholds and no override firing,
    vision score 80, sensor score 70 and the night multiplier 1.3 give
    base score 67.5, final risk score 87.75, CONFIRMED_TAMPERING with
    confidence 0.91, and for a zone with no prior alerts the classify
    endpoint creates exactly one alert, ACTIVE and of severity
    CRITICAL. *)
Theorem C3_scenario_creates_one_critical_alert (env : Env)
    (ext : Collaborators) (request : IntentClassifyRequest)
    (v : VisionAnalysisResponse) (s : SensorAnalysisResponse)
    (w : Alerts.World) :
  req_vision_analysis request = Some v ->
  req_sensor_analysis request = Some s ->
  vision_risk_score v = 80 ->
  sensor_risk_score s = 70 ->
  (22 <= hour_of (req_timestamp request)
   \/ hour_of (req_timestamp request) < 5)%Z ->
  (forall d, In d (detections v) -> ~ triggers_override d) ->
  ~ (is_coordinated s = true /\ 0.7 <= sabotage_likelihood s) ->
  Alerts._zone_last_alert (Alerts.alert_service w) !! req_zone_id request
  = None ->
  Alerts._zone_alert_counts (Alerts.alert_service w) !! req_zone_id request
  = None ->
  let out := Alerts.classify_intent env ext config request w in
  let r := fst (fst out) in
  temporal_modifier r == 1.3 /\
  resp_vision_risk_score r * 0.45 + resp_sensor_risk_score r * 0.45 == 67.5 /\
  risk_score r == 87.75 /\
  classification r = CONFIRMED_TAMPERING /\
  resp_confidence r == 0.91 /\
  exists a,
    snd (fst out) = Some a /\
    Alerts.severity a = CRITICAL /\
    Alerts.status a = Alerts.ACTIVE /\
    Alerts.zone_id a = req_zone_id request /\
    Alerts._alerts (Alerts.alert_service (snd out))
    = <[Alerts.alert_id a := a]> (Alerts._alerts (Alerts.alert_service w)).
Proof.
  intros Hv Hs Hvs Hss Hnight Hno Hcoord Hlast Hcounts out r.
  subst r out. unfold Alerts.classify_intent. run_service.
  set (cid := String.append "cls_" (uuid4_hex12 env (Alerts.uuid_draws w))).
  destruct (scenario_classification ext cid request v s
              Hv Hs Hvs Hss Hnight Hno Hcoord)
    as (Hm & Hrv & Hrs & Hr & Hc & Hq & Hz & Hid).
  set (r := classify ext config cid request) in *.
  match goal with
  | |- context [Alerts.log_intent_classification ?e ?c ?z ?d ?w0] =>
      set (logged := Alerts.log_intent_classification e c z d w0)
  end.
  assert (Hsvc : Alerts.alert_service (snd logged) = Alerts.alert_service w)
    by reflexivity.
  destruct logged as [entry w2] eqn:Elog. cbn [snd] in Hsvc.
  rewrite Hc. rewrite bool_decide_eq_false_2 by discriminate.
  cbn [negb]. cbv beta.
  assert (Hfresh : exists a w3,
            Alerts.create_alert_from_classification env config (zone_id r)
              (classification_id r) CONFIRMED_TAMPERING (risk_score r)
              (primary_reasons r) w2 = (Some a, w3)).
  { apply create_alert_fresh_zone.
    - discriminate.
    - now rewrite Hsvc, Hz.
    - now rewrite Hsvc, Hz.
    - reflexivity. }
  destruct Hfresh as (a & w3 & Hcreate).
  rewrite Hcreate. cbn [fst snd].
  destruct (create_alert_success _ _ _ _ _ _ _ _ _ _ Hcreate)
    as (_ & Hza & Hst & _ & _ & Hsev & Hreg & _ & _).
  rewrite Hm, Hrv, Hrs, Hr, Hq.
  split; [reflexivity |].
  split; [vm_compute; reflexivity |].
  split; [reflexivity |].
  split; [exact Hc |].
  split; [reflexivity |].
  exists a. repeat split; try assumption.
  - rewrite Hsev, Hr. vm_compute. reflexivity.
  - now rewrite Hza.
  - now rewrite Hreg, Hsvc.
Qed.

Lemma C3_witness :
  let request :=
    Examples.request "Z1" Examples.night
      (Some (Examples.vision_with
               [ {| detection_id := "det_3";
                    class_label := HUMAN_PRESENCE;
                    confidence := 0.9 |};
                 {| detection_id := "det_4";
                    class_label := MISSING_FISH_PLATE;
                    confidence := 0.8 |} ] 80))
      (Some (Examples.sensor_with true 0.5 70)) in
  let out :=
    Alerts.classify_intent (Examples.env_every 0 1)
      Examples.quiet_collaborators config request Examples.empty_world in
  let r := fst (fst out) in
  temporal_modifier r == 1.3 /\
  resp_vision_risk_score r * 0.45 + resp_sensor_risk_score r * 0.45 == 67.5 /\
  risk_score r == 87.75 /\
  classification r = CONFIRMED_TAMPERING /\
  resp_confidence r == 0.91 /\
  exists a,
    snd (fst out) = Some a /\
    Alerts.severity a = CRITICAL /\
    Alerts.status a = Alerts.ACTIVE /\
    Alerts.zone_id a = req_zone_id request /\
    Alerts._alerts (Alerts.alert_service (snd out))
    = <[Alerts.alert_id a := a]>
        (Alerts._alerts (Alerts.alert_service Examples.empty_world)).
Proof.
  cbv zeta.
  eapply (C3_scenario_creates_one_critical_alert (Examples.env_every 0 1)
            Examples.quiet_collaborators).
  - reflexivity.
  - reflexivity.
  - reflexivity.
  - reflexivity.
  - left. vm_compute. discriminate.
  - intros d [<- | [<- | []]] [Hc Hq].
    + discriminate Hc.
    + vm_compute in Hq. apply Hq. reflexivity.
  - intros [_ H]. vm_compute in H. apply H. reflexivity.
  - reflexivity.
  - reflexivity.
Defined.

(** C7 fails on the shipped table: its integer bounds (25-49, 50-69,
    70-84, 85-100) leave gaps, and a score in a gap falls through to
    CRITICAL. Vision score 60 and sensor score 50 at noon give risk
    score 49.5, classification SUSPICIOUS; no configured range contains
    49.5, it is neither below nor above all ranges, and the alert
    created for it has severity CRITICAL. *)
Theorem C7_gap_score_rated_critical :
  let out :=
    Alerts.classify_intent (Examples.env_every 0 1)
      Examples.quiet_collaborators config
      (Examples.request "ZONE-001" Examples.noon
         (Some (Examples.vision_with [] 60))
         (Some (Examples.sensor_with false 0 50)))
      Examples.empty_world in
  let r := fst (fst out) in
  risk_score r == 49.5 /\
  classification r = SUSPICIOUS /\
  25 <= risk_score r <= 100 /\
  Alerts.first_matching_range (SEVERITY_THRESHOLDS config) (risk_score r)
  = None /\
  Alerts.severity <$> snd (fst out) = Some CRITICAL.
Proof.
  cbv zeta. repeat split; try (vm_compute; reflexivity);
    vm_compute; discriminate.
Qed.

(** Every score strictly between two bands of the shipped table is
    rated CRITICAL. *)
Lemma determine_severity_gaps (score : Q) :
  49 < score < 50 \/ 69 < score < 70 \/ 84 < score < 85 ->
  Alerts._determine_severity config score = CRITICAL.
Proof.
  intros H. rewrite determine_severity_default.
  assert (Qltb score 25 = false) as -> by (apply Qltb_false; lra).
  assert (Qleb score 49 = false) as -> by (apply Qleb_false; lra).
  destruct (Qleb 50 score && Qleb score 69) eqn:E1.
  { apply andb_true_iff in E1 as [E1 E2]. apply Qleb_true in E1, E2. lra. }
  destruct (Qleb 70 score && Qleb score 84) eqn:E2; [| reflexivity].
  apply andb_true_iff in E2 as [E2 E3]. apply Qleb_true in E2, E3. lra.
Qed.

End Scenario.

(** ** C9: resolving an alert *)

Section Resolution.

Import Alerts.

Lemma py_slice_from_keeps_last {A} (l : list A) (x : A) (m : Z) :
  (0 <= m < Z.of_nat (length (l ++ [x])))%Z ->
  last (py_slice_from (l ++ [x]) (- m)) = Some x.
Proof.
  intros Hm. unfold py_slice_from.
  set (len := Z.of_nat (length (l ++ [x]))) in *.
  assert (Hstart : exists k, (k <= length l)%nat /\
            Z.to_nat (if (- m <? 0)%Z then Z.max (len + - m) 0
                      else Z.min (- m) len) = k).
  { eexists. split; [| reflexivity].
    subst len. rewrite length_app in *. cbn [length] in *.
    destruct (- m <? 0)%Z eqn:E; lia. }
  destruct Hstart as (k & Hk & ->).
  rewrite drop_app_le by assumption.
  apply last_snoc.
Qed.

Lemma add_entry_last (cfg : Config) (e : AuditEntry) (w : World) :
  (0 <= MAX_AUDIT_LOG_ENTRIES cfg)%Z ->
  last (audit_entries (snd (_add_entry cfg e w))) = Some e /\
  alert_service (snd (_add_entry cfg e w)) = alert_service w.
Proof.
  intros Hmax. unfold _add_entry. cbn [snd audit_entries alert_service].
  split; [| reflexivity].
  destruct (MAX_AUDIT_LOG_ENTRIES cfg <? _)%Z eqn:E.
  - apply Z.ltb_lt in E. apply py_slice_from_keeps_last. lia.
  - apply last_snoc.
Qed.

(** C9, as the claim states it, fails on who resolved the alert and on
    the ground-truth flag: [resolve_alert] stores neither. Two requests
    for the same alert that differ only in [resolved_by] and
    [was_actual_tampering] leave the same alert and the same service
    state behind. *)
Lemma C9_counterexample :
  let env := Examples.env_every 1000 1 in
  let r1 := Examples.resolve_request "inspector-7" true in
  let r2 := Examples.resolve_request "operator-2" false in
  resolved_by r1 <> resolved_by r2 /\
  was_actual_tampering r1 <> was_actual_tampering r2 /\
  (exists a, fst (resolve_alert env r1 Examples.world_with_alert) = Some a
             /\ status a = RESOLVED) /\
  resolve_alert env r1 Examples.world_with_alert
  = resolve_alert env r2 Examples.world_with_alert.
Proof.
  cbv zeta. split; [discriminate |]. split; [discriminate |].
  split; [eexists; split; vm_compute; reflexivity |].
  vm_compute. reflexivity.
Qed.

(** C9 (amended). A resolve request whose notes are shorter than 10
    characters is rejected with 422 and changes nothing. Otherwise, for
    an unknown alert id the endpoint answers 404 and the registry and
    the audit log are unchanged; for a known id the alert's status
    becomes RESOLVED and the alert records the resolution time and the
    resolution notes, while who resolved it and the
    was_actual_tampering flag are not stored on the alert: they are
    written, with the notes, to the audit entry the endpoint appends. *)
Theorem C9_resolve_records_notes_and_audits (env : Env) (cfg : Config)
    (request : AlertResolveRequest) (w : World) :
  (0 <= MAX_AUDIT_LOG_ENTRIES cfg)%Z ->
  let out := resolve_alert_endpoint env cfg request w in
  if validate_AlertResolveRequest request then
    match _alerts (alert_service w) !! res_alert_id request with
    | None =>
        (exists detail, fst out = HTTPException 404 detail) /\
        alert_service (snd out) = alert_service w /\
        audit_entries (snd out) = audit_entries w
    | Some a =>
        let a' :=
          resolve_fields a (utcnow_reading env (clock_reads w))
            (res_resolution_notes request)
            (utcnow_reading env (S (clock_reads w))) in
        fst out = HttpOk a' /\
        status a' = RESOLVED /\
        resolution_notes a' = Some (res_resolution_notes request) /\
        (10 <= String.length (res_resolution_notes request))%nat /\
        _alerts (alert_service (snd out))
        = <[res_alert_id request := a']> (_alerts (alert_service w)) /\
        exists e,
          last (audit_entries (snd out)) = Some e /\
          event_type e = ALERT_RESOLVED /\
          details e = ResolvedDetails (resolved_by request)
                        (res_resolution_notes request)
                        (was_actual_tampering request) /\
          user_id e = Some (resolved_by request)
    end
  else
    (exists detail, fst out = HTTPException 422 detail) /\ snd out = w.
Proof.
  intros Hmax out. subst out. unfold resolve_alert_endpoint.
  destruct (validate_AlertResolveRequest request) eqn:Hval; cbn [negb];
    [| split; [eexists |]; reflexivity].
  unfold resolve_alert. run_service.
  destruct (_alerts (alert_service w) !! res_alert_id request) as [a |];
    run_service.
  - unfold log_alert_event. run_service.
    match goal with
    | |- context [_add_entry cfg ?e ?w0] =>
        destruct (add_entry_last cfg e w0 Hmax) as [Hlast Hsvc];
        destruct (_add_entry cfg e w0) as [u w3] eqn:Eadd
    end.
    cbn [fst snd] in *.
    split; [reflexivity |]. split; [reflexivity |]. split; [reflexivity |].
    split; [now apply Nat.leb_le |].
    split; [now rewrite Hsvc |].
    eexists. split; [exact Hlast |]. repeat split.
  - repeat split. eexists. reflexivity.
Qed.


Lemma C9_witness :
  let env := Examples.env_every 1000 1 in
  let request := Examples.resolve_request "inspector-7" true in
  let w := Examples.world_with_alert in
  let out := resolve_alert_endpoint env config request w in
  let a' :=
    resolve_fields Examples.sample_alert (utcnow_reading env 0)
      (res_resolution_notes request) (utcnow_reading env 1) in
  fst out = HttpOk a' /\
  status a' = RESOLVED /\
  resolution_notes a' = Some (res_resolution_notes request) /\
  (10 <= String.length (res_resolution_notes request))%nat /\
  _alerts (alert_service (snd out))
  = <[res_alert_id request := a']> (_alerts (alert_service w)) /\
  exists e,
    last (audit_entries (snd out)) = Some e /\
    event_type e = ALERT_RESOLVED /\
    details e = ResolvedDetails (resolved_by request)
                  (res_resolution_notes request)
                  (was_actual_tampering request) /\
    user_id e = Some (resolved_by request).
Proof.
  cbv zeta.
  apply (C9_resolve_records_notes_and_audits (Examples.env_every 1000 1)
           config (Examples.resolve_request "inspector-7" true)
           Examples.world_with_alert).
  vm_compute. discriminate.
Defined.

(** The sibling operation does store who acted: [acknowledge_alert]
    writes [acknowledged_by] on the alert. *)
Lemma acknowledge_alert_records_who (env : Env)
    (request : AlertAcknowledgeRequest) (w : World) (a : Alert) :
  _alerts (alert_service w) !! ack_alert_id request = Some a ->
  exists a',
    fst (acknowledge_alert env request w) = Some a' /\
    acknowledged a' = true /\
    acknowledged_by a' = Some (ack_acknowledged_by request) /\
    acknowledgement_notes a' = ack_notes request /\
    status a' = (if mark_as_false_positive request then FALSE_POSITIVE
                 else ACKNOWLEDGED) /\
    _alerts (alert_service (snd (acknowledge_alert env request w)))
      !! ack_alert_id request = Some a'.
Proof.
  intros H. unfold acknowledge_alert. run_service. rewrite H. run_service.
  eexists. split; [reflexivity |]. repeat split. apply lookup_insert_eq.
Qed.

(** The service call on an unknown id: a miss, and nothing changes. *)
Lemma resolve_alert_unknown (env : Env) (request : AlertResolveRequest)
    (w : World) :
  _alerts (alert_service w) !! res_alert_id request = None ->
  resolve_alert env request w = (None, w).
Proof.
  intros H. unfold resolve_alert. run_service. now rewrite H.
Qed.

End Resolution.

(** ** C10: escalation *)

Section Escalation.

Import Alerts.

Variable env : Env.
Variable cfg : Config.

(** Under the guard of [check_escalations] the enum constructor call
    cannot fail. *)
Lemma next_level_exists (l : EscalationLevel) :
  (EscalationLevel_value l <? EscalationLevel_value EMERGENCY)%Z = true ->
  exists l', EscalationLevel_of_value (EscalationLevel_value l + 1) = Some l'
             /\ EscalationLevel_value l' = (EscalationLevel_value l + 1)%Z.
Proof.
  destruct l; cbn; intros H; try discriminate; eexists; split; reflexivity.
Qed.

(** One alert through one pass: untouched, or escalated by exactly one
    level from ACTIVE to ESCALATED. *)
Lemma check_escalation_cases (now : Z) (a : Alert) :
  check_escalation cfg now a = a \/
  (status a = ACTIVE /\ acknowledged a = false /\
   (seconds (ESCALATION_TIMEOUT cfg (severity a)) < now - created_at a)%Z /\
   exists l',
     EscalationLevel_value l' = (EscalationLevel_value (escalation_level a) + 1)%Z /\
     check_escalation cfg now a = escalate_fields a l' now).
Proof.
  unfold check_escalation.
  destruct (bool_decide (status a = ACTIVE)) eqn:Est; cbn [negb]; [| now left].
  apply bool_decide_eq_true in Est.
  destruct (acknowledged a) eqn:Eack; [now left |].
  destruct (seconds (ESCALATION_TIMEOUT cfg (severity a)) <? now - created_at a)%Z
    eqn:Et; cbn [andb]; [| now left].
  destruct (EscalationLevel_value (escalation_level a)
            <? EscalationLevel_value EMERGENCY)%Z eqn:El; [| now left].
  destruct (next_level_exists _ El) as (l' & -> & Hv).
  right. repeat split; try assumption; [now apply Z.ltb_lt |].
  exists l'. now split.
Qed.

Lemma check_escalation_not_active (now : Z) (a : Alert) :
  status a <> ACTIVE -> check_escalation cfg now a = a.
Proof.
  intros H. unfold check_escalation.
  rewrite bool_decide_eq_false_2 by assumption. reflexivity.
Qed.

Lemma check_escalations_lookup (w : World) (id : string) :
  _alerts (alert_service (snd (check_escalations env cfg w))) !! id
  = check_escalation cfg (utcnow_reading env (clock_reads w))
      <$> _alerts (alert_service w) !! id.
Proof. unfold check_escalations. run_service. apply lookup_fmap. Qed.

Lemma escalation_passes_succ (n : nat) (w : World) :
  snd (escalation_passes env cfg (S n) w)
  = snd (escalation_passes env cfg n (snd (check_escalations env cfg w))).
Proof.
  cbn [escalation_passes]. unfold bind.
  destruct (check_escalations env cfg w) as [u w1]. reflexivity.
Qed.

Lemma escalated_alert_stays (n : nat) (w : World) (id : string) (a : Alert) :
  _alerts (alert_service w) !! id = Some a ->
  status a <> ACTIVE ->
  _alerts (alert_service (snd (escalation_passes env cfg n w))) !! id = Some a.
Proof.
  revert w. induction n as [| n IH]; intros w Hl Hs; [exact Hl |].
  rewrite escalation_passes_succ. apply IH; [| assumption].
  rewrite check_escalations_lookup, Hl. cbn.
  now rewrite check_escalation_not_active.
Qed.

(** C10. An alert that a pass of [check_escalations] has set to
    ESCALATED is left as it is by every later pass, so an alert that
    starts at the initial level is moved by at most one level, to
    SUPERVISOR, however many passes run. *)
Theorem C10_escalated_alert_is_never_escalated_again (n : nat) (w : World)
    (id : string) (a : Alert) :
  _alerts (alert_service w) !! id = Some a ->
  let w' := snd (escalation_passes env cfg n w) in
  (status a = ESCALATED -> _alerts (alert_service w') !! id = Some a) /\
  (escalation_level a = INITIAL ->
   exists a',
     _alerts (alert_service w') !! id = Some a' /\
     (EscalationLevel_value (escalation_level a')
      <= EscalationLevel_value SUPERVISOR)%Z /\
     (a' = a \/
      (status a = ACTIVE /\ status a' = ESCALATED /\
       escalation_level a' = SUPERVISOR))).
Proof.
  intros Hl w'. subst w'. split.
  - intros Hs. apply escalated_alert_stays; [assumption |].
    rewrite Hs. discriminate.
  - intros Hlevel. revert w Hl.
    induction n as [| n IH]; intros w Hl.
    + exists a. split; [exact Hl |]. rewrite Hlevel. split; [cbn; lia | now left].
    + rewrite escalation_passes_succ.
      set (now := utcnow_reading env (clock_reads w)).
      assert (Hl1 : _alerts (alert_service (snd (check_escalations env cfg w))) !! id
                    = Some (check_escalation cfg now a)).
      { rewrite check_escalations_lookup, Hl. reflexivity. }
      destruct (check_escalation_cases now a)
        as [Esame | (Hact & _ & _ & l' & Hv & Eesc)].
      * rewrite Esame in Hl1. now apply IH.
      * rewrite Eesc in Hl1.
        assert (l' = SUPERVISOR) as ->.
        { rewrite Hlevel in Hv. destruct l'; cbn in Hv; try lia. reflexivity. }
        exists (escalate_fields a SUPERVISOR now).
        split; [| split; [cbn; lia | right; now repeat split]].
        apply escalated_alert_stays; [assumption | discriminate].
Qed.

(** *** The invariant over arbitrary sequences of service calls *)

Lemma check_escalation_settled (now : Z) (a : Alert) :
  escalation_settled a -> escalation_settled (check_escalation cfg now a).
Proof.
  intros Ha.
  destruct (check_escalation_cases now a)
    as [-> | (Hact & _ & _ & l' & Hv & ->)]; [assumption |].
  destruct Ha as [Hi | [Hna _]]; [| contradiction].
  right. split; [discriminate |]. cbn.
  rewrite Hi in Hv. destruct l'; cbn in Hv; try lia. reflexivity.
Qed.

Lemma create_alert_registry (zone cid : string)
    (cls : TamperingClassification) (score : Q) (rs : list string)
    (w : World) :
  let out := create_alert_from_classification env cfg zone cid cls score rs w in
  _alerts (alert_service (snd out)) = _alerts (alert_service w) \/
  exists a, status a = ACTIVE /\ escalation_level a = INITIAL /\
    _alerts (alert_service (snd out))
    = <[alert_id a := a]> (_alerts (alert_service w)).
Proof.
  cbv zeta.
  destruct (create_alert_from_classification env cfg zone cid cls score rs w)
    as [[a |] w1] eqn:E.
  - right. exists a.
    destruct (create_alert_success _ _ _ _ _ _ _ _ _ _ E)
      as (_ & _ & Hst & Hlv & _ & _ & Hreg & _).
    now repeat split.
  - left. revert E. unfold create_alert_from_classification.
    destruct (decide (cls = SAFE)); [now intros [= <-] |].
    unfold _check_cooldown, _check_flooding. run_service.
    destruct (_zone_last_alert (alert_service w) !! zone) as [t |]; run_service;
      repeat match goal with
        | |- context [if negb ?b then _ else _] => destruct b; cbn [negb]
        end; try discriminate; now intros [= <-].
Qed.

Lemma run_operation_settled (op : Operation) (w : World) :
  registry_settled w -> registry_settled (snd (run_operation env cfg op w)).
Proof.
  intros Hw. destruct op as [zone cid cls score rs | request | request |];
    cbn [run_operation].
  - unfold bind, ret.
    pose proof (create_alert_registry zone cid cls score rs w) as Hreg.
    cbv zeta in Hreg.
    destruct (create_alert_from_classification env cfg zone cid cls score rs w)
      as [o w1]. cbn [snd] in *.
    intros id a.
    destruct Hreg as [-> | (a0 & Hst & Hlv & ->)]; [apply Hw |].
    rewrite lookup_insert. case_decide.
    + intros [= <-]. now left.
    + apply Hw.
  - unfold acknowledge_alert. run_service.
    destruct (_alerts (alert_service w) !! ack_alert_id request) as [a0 |] eqn:E;
      run_service; [| exact Hw].
    intros id a. run_service. rewrite lookup_insert. case_decide; [| apply Hw].
    intros [= <-].
    destruct (Hw _ _ E) as [Hi | [_ Hs]]; [now left |].
    right. split; [| exact Hs]. cbn.
    destruct (mark_as_false_positive request); discriminate.
  - unfold resolve_alert. run_service.
    destruct (_alerts (alert_service w) !! res_alert_id request) as [a0 |] eqn:E;
      run_service; [| exact Hw].
    intros id a. run_service. rewrite lookup_insert. case_decide; [| apply Hw].
    intros [= <-].
    destruct (Hw _ _ E) as [Hi | [_ Hs]]; [now left |].
    right. split; [discriminate | exact Hs].
  - intros id a. rewrite check_escalations_lookup.
    destruct (_alerts (alert_service w) !! id) as [a0 |] eqn:E; [| discriminate].
    cbn. intros [= <-]. apply check_escalation_settled. exact (Hw _ _ E).
Qed.

Lemma run_operations_settled (ops : list Operation) (w : World) :
  registry_settled w -> registry_settled (snd (run_operations env cfg ops w)).
Proof.
  revert w. induction ops as [| op ops IH]; intros w Hw; [exact Hw |].
  cbn [run_operations]. unfold bind.
  pose proof (run_operation_settled op w Hw) as H1.
  destruct (run_operation env cfg op w) as [u w1]. cbn [snd] in H1.
  now apply IH.
Qed.

(** Starting from an empty registry, no sequence of service calls ever
    takes an alert past SUPERVISOR. *)
Lemma reachable_alert_level_bounded (ops : list Operation) (w : World)
    (id : string) (a : Alert) :
  _alerts (alert_service w) = ∅ ->
  _alerts (alert_service (snd (run_operations env cfg ops w))) !! id = Some a ->
  (EscalationLevel_value (escalation_level a)
   <= EscalationLevel_value SUPERVISOR)%Z.
Proof.
  intros Hempty Hl.
  assert (Hw : registry_settled w).
  { intros id' a'. rewrite Hempty, lookup_empty. discriminate. }
  destruct (run_operations_settled ops w Hw _ _ Hl) as [-> | [_ ->]]; cbn; lia.
Qed.

End Escalation.

Lemma C10_witness :
  let w' :=
    snd (Alerts.escalation_passes (Examples.env_every 0 400) config 3
           Examples.world_with_alert) in
  let a := Examples.sample_alert in
  (Alerts.status a = Alerts.ESCALATED ->
   Alerts._alerts (Alerts.alert_service w') !! "alert_0123456789ab" = Some a) /\
  (Alerts.escalation_level a = Alerts.INITIAL ->
   exists a',
     Alerts._alerts (Alerts.alert_service w') !! "alert_0123456789ab" = Some a' /\
     (Alerts.EscalationLevel_value (Alerts.escalation_level a')
      <= Alerts.EscalationLevel_value Alerts.SUPERVISOR)%Z /\
     (a' = a \/
      (Alerts.status a = Alerts.ACTIVE /\
       Alerts.status a' = Alerts.ESCALATED /\
       Alerts.escalation_level a' = Alerts.SUPERVISOR))).
Proof.
  apply (C10_escalated_alert_is_never_escalated_again
           (Examples.env_every 0 400) config 3 Examples.world_with_alert
           "alert_0123456789ab" Examples.sample_alert).
  vm_compute. reflexivity.
Defined.

(** The HIGH alert created at time 0, checked at 0 s, 400 s and 800 s:
    the second pass escalates it to SUPERVISOR, the third leaves it. *)
Example three_passes_escalate_once :
  let w' :=
    snd (Alerts.escalation_passes (Examples.env_every 0 400) config 3
           Examples.world_with_alert) in
  (fun a => (Alerts.status a, Alerts.escalation_level a, Alerts.escalated_at a))
    <$> Alerts._alerts (Alerts.alert_service w') !! "alert_0123456789ab"
  = Some (Alerts.ESCALATED, Alerts.SUPERVISOR, Some (seconds 400)).
Proof. vm_compute. reflexivity. Qed.

(** ** C5, C6: the run controller *)

Section RunController.

Import Controller.

(** C6, as the claim states it, fails on the error message: it is
    [str(e)], which is empty for an exception raised without a
    message, such as a timeout. *)
Lemma C6_counterexample :
  let out := run_single (Raised Examples.timeout_error) 0 1 init in
  fst out = RunFailure "" ERROR /\
  _state (snd out) = ERROR /\
  _error_message (snd out) = Some "" /\
  message (get_status (fun _ => "") (snd out))
  = "Simulation in ERROR state: Unknown error".
Proof. cbv zeta. repeat split. Qed.

(** C6 (amended). For every exception raised during the cycle,
    [run_single] returns the failure dict instead of raising, the
    controller state becomes ERROR and the recorded error message is
    [str(e)] (empty when the exception has no message); a following
    [reset()] returns the state to STOPPED with the error cleared and
    the counters untouched. *)
Theorem C6_failure_is_contained_and_recoverable
    (isoformat : Z -> string) (e : PyException) (t_start t_end : Z)
    (c : SimulationController) :
  let out := run_single (Raised e) t_start t_end c in
  let after := reset isoformat (snd out) in
  fst out = RunFailure (exc_str e) ERROR /\
  _state (snd out) = ERROR /\
  _error_message (snd out) = Some (exc_str e) /\
  _state (snd after) = STOPPED /\
  _error_message (snd after) = None /\
  state (fst after) = STOPPED /\
  error_message (fst after) = None /\
  _run_count (snd after) = _run_count c /\
  _last_run_at (snd after) = _last_run_at c.
Proof. cbv zeta. repeat split. Qed.

(** [reset] outside ERROR changes nothing. *)
Lemma reset_not_error (isoformat : Z -> string) (c : SimulationController) :
  _state c <> ERROR -> snd (reset isoformat c) = c.
Proof.
  unfold reset. destruct (_state c); [reflexivity | reflexivity | congruence].
Qed.

(** A successful run ends STOPPED with the run counted. *)
Lemma run_single_success (r : Intent.IntentClassifyResponse)
    (t_start t_end : Z) (c : SimulationController) :
  let out := run_single (Returned r) t_start t_end c in
  fst out = RunSuccess r STOPPED /\
  _state (snd out) = STOPPED /\
  _run_count (snd out) = (_run_count c + 1)%Z /\
  _last_run_at (snd out) = Some t_end /\
  _error_message (snd out) = None.
Proof. cbv zeta. repeat split. Qed.

(** The lock is free at every scheduling point: no task ever waits
    for it. *)
Lemma lock_free_at_scheduling_points (s0 s : System) :
  lock_locked s0 = false -> reachable s0 s -> lock_locked s = false.
Proof.
  intros H0 Hr. induction Hr as [| s s' _ _ Hstep]; [assumption |].
  destruct Hstep; reflexivity.
Qed.

(** C5 fails on the code: the lock is released before the cycle
    starts, so a second [run_single] call starts its own cycle while
    the first is suspended inside [intent_service.classify]. From two
    pending calls the scheduler reaches a state in which both tasks are
    inside their cycle. *)
Theorem C5_two_cycles_overlap :
  exists s,
    reachable Examples.two_requests s /\
    in_cycle s 0 /\ in_cycle s 1 /\
    _state (controller s) = RUNNING.
Proof.
  eexists. split.
  - eapply reachable_step.
    + eapply reachable_step; [apply reachable_refl |].
      apply (step_start Examples.two_requests 0 "ZONE-001" "tampering" 0);
        reflexivity.
    + apply (step_start _ 1 "ZONE-002" "normal" 1); reflexivity.
  - split; [| split]; [do 2 eexists; reflexivity .. | reflexivity].
Qed.

(** A further consequence: when the first cycle completes, the
    controller reports STOPPED while the second cycle is still in
    flight. *)
Lemma stopped_while_a_cycle_runs (r : Intent.IntentClassifyResponse) :
  exists s,
    reachable Examples.two_requests s /\
    in_cycle s 1 /\
    _state (controller s) = STOPPED.
Proof.
  eexists. split.
  - eapply reachable_step.
    + eapply reachable_step.
      * eapply reachable_step; [apply reachable_refl |].
        apply (step_start Examples.two_requests 0 "ZONE-001" "tampering" 0);
          reflexivity.
      * apply (step_start _ 1 "ZONE-002" "normal" 1); reflexivity.
    + apply (step_complete _ 0 "ZONE-001" "tampering" (Returned r) 2);
        reflexivity.
  - split; [do 2 eexists; reflexivity | reflexivity].
Qed.

End RunController.

(** ** The remaining numeric guards *)

Section GuardFacts.

Import SafeMath Guards.
Local Open Scope Q_scope.





Lemma Qeq_bool_false (a b : Q) : Qeq_bool a b = false <-> ~ a == b.
Proof.
  split.
  - intros H E. apply Qeq_bool_iff in E. congruence.
  - intros H. destruct (Qeq_bool a b) eqn:E; [| reflexivity].
    apply Qeq_bool_iff in E. contradiction.
Qed.










(** X3. over a range with [min_val < max_val], normalization needs no
    fallback, lands in [0, 1], is 0 at and below the minimum, 1 at and
    above the maximum, and linear in between. *)
Theorem safe_normalize_unit (value min_val max_val default : Q) :
  min_val < max_val ->
  let r := safe_normalize value min_val max_val default in
  snd r = None /\
  0 <= fst r <= 1 /\
  (value <= min_val -> fst r == 0) /\
  (max_val <= value -> fst r == 1) /\
  (min_val <= value <= max_val ->
   fst r == (value - min_val) / (max_val - min_val)).
Proof.
  intros Hlt r. subst r. unfold safe_normalize.
  assert (Hr : Qeq_bool (max_val - min_val) 0 = false)
    by (apply Qeq_bool_false; lra).
  rewrite Hr. cbn [fst snd].
  set (n := (value - min_val) / (max_val - min_val)).
  assert (Hn0 : value <= min_val -> n <= 0).
  { intros H. unfold n. apply Qle_shift_div_r; lra. }
  assert (Hn1 : max_val <= value -> 1 <= n).
  { intros H. unfold n. apply Qle_shift_div_l; lra. }
  assert (Hn2 : min_val <= value -> 0 <= n).
  { intros H. unfold n. apply Qle_shift_div_l; lra. }
  assert (Hn3 : value <= max_val -> n <= 1).
  { intros H. unfold n. apply Qle_shift_div_r; lra. }
  split; [reflexivity |].
  destruct (py_min_cases 1 n) as [[Ha Ea] | [Ha Ea]]; rewrite Ea;
    [destruct (py_max_cases 0 n) as [[Hb Eb] | [Hb Eb]]
    | destruct (py_max_cases 0 1) as [[Hb Eb] | [Hb Eb]]];
    rewrite Eb; repeat split; intros; try lra;
    try (specialize (Hn0 ltac:(lra)); lra);
    try (specialize (Hn1 ltac:(lra)); lra);
    try (specialize (Hn2 ltac:(lra)); specialize (Hn3 ltac:(lra)); lra).
Qed.

Lemma safe_normalize_witness :
  let r := safe_normalize 65 50 80 0 in
  snd r = None /\
  0 <= fst r <= 1 /\
  (65 <= 50 -> fst r == 0) /\
  (80 <= 65 -> fst r == 1) /\
  (50 <= 65 <= 80 -> fst r == (65 - 50) / (80 - 50)).
Proof. apply safe_normalize_unit. lra. Defined.

(** X4. on a non-empty range [safe_risk_score] returns the value that
    [safe_clamp] returns, and its reason code tells which bound was
    crossed: none inside the range, NEGATIVE_VALUE below it,
    OVERFLOW_PROTECTION above it. *)
Theorem safe_risk_score_agrees_with_clamp (raw lo hi : Q) :
  lo <= hi ->
  let r := safe_risk_score raw lo hi in
  fst r == safe_clamp raw lo hi /\
  (snd r = None <-> lo <= raw <= hi) /\
  (snd r = Some NEGATIVE_VALUE <-> raw < lo) /\
  (snd r = Some OVERFLOW_PROTECTION <-> hi < raw) /\
  (snd r = None -> fst r = raw).
Proof.
  intros Hle r. subst r. unfold safe_risk_score, safe_clamp.
  destruct (Qltb raw lo) eqn:E1; [| destruct (Qltb hi raw) eqn:E2];
    cbn [fst snd].
  - apply Qltb_true in E1.
    destruct (py_min_cases hi raw) as [[Ha ->] | [Ha ->]];
      [destruct (py_max_cases lo raw) as [[Hb ->] | [Hb ->]]
      | destruct (py_max_cases lo hi) as [[Hb ->] | [Hb ->]]];
      repeat split; intros; try discriminate; try lra.
  - apply Qltb_false in E1. apply Qltb_true in E2.
    destruct (py_min_cases hi raw) as [[Ha ->] | [Ha ->]];
      [destruct (py_max_cases lo raw) as [[Hb ->] | [Hb ->]]
      | destruct (py_max_cases lo hi) as [[Hb ->] | [Hb ->]]];
      repeat split; intros; try discriminate; try lra.
  - apply Qltb_false in E1, E2.
    destruct (py_min_cases hi raw) as [[Ha ->] | [Ha ->]];
      [destruct (py_max_cases lo raw) as [[Hb ->] | [Hb ->]]
      | destruct (py_max_cases lo hi) as [[Hb ->] | [Hb ->]]];
      repeat split; intros; try discriminate; try lra.
Qed.

Lemma safe_risk_score_agrees_with_clamp_witness :
  let r := safe_risk_score 117 0 100 in
  fst r == safe_clamp 117 0 100 /\
  (snd r = None <-> 0 <= 117 <= 100) /\
  (snd r = Some NEGATIVE_VALUE <-> 117 < 0) /\
  (snd r = Some OVERFLOW_PROTECTION <-> 100 < 117) /\
  (snd r = None -> fst r = 117).
Proof. apply safe_risk_score_agrees_with_clamp. lra. Defined.

Lemma safe_clamp_in_range (x lo hi : Q) :
  lo <= x <= hi -> safe_clamp x lo hi == x.
Proof.
  intros [H1 H2]. unfold safe_clamp.
  destruct (py_min_cases hi x) as [[H ->] | [H ->]];
    [destruct (py_max_cases lo x) as [[H' ->] | [H' ->]]
    | destruct (py_max_cases lo hi) as [[H' ->] | [H' ->]]]; lra.
Qed.


End GuardFacts.

(** ** More on the classification engine *)

Section EngineFacts.

Import Intent.
Local Open Scope Q_scope.

(** X6. for fixed evidence and configuration the tier never decreases
    when the risk score increases. *)
Theorem classification_monotone_in_score (cfg : Config) (s1 s2 : Q)
    (vision : option VisionAnalysisResponse)
    (sensor : option SensorAnalysisResponse) :
  s1 <= s2 ->
  (tier_rank (fst (_determine_classification cfg s1 vision sensor))
   <= tier_rank (fst (_determine_classification cfg s2 vision sensor)))%Z.
Proof.
  intros Hle.
  assert (Hthr : (tier_rank (fst (threshold_classification cfg s1))
                  <= tier_rank (fst (threshold_classification cfg s2)))%Z).
  { unfold threshold_classification.
    set (ts := py_max (RISK_THRESHOLD_SAFE cfg) 0.01).
    set (tsu := py_max (RISK_THRESHOLD_SUSPICIOUS cfg) (ts + 0.01)).
    destruct (Qltb s1 ts) eqn:A1; destruct (Qltb s2 ts) eqn:A2;
      destruct (Qltb s1 tsu) eqn:B1; destruct (Qltb s2 tsu) eqn:B2;
      cbn [fst tier_rank]; try lia;
      repeat match goal with
        | H : Qltb _ _ = true |- _ => apply Qltb_true in H
        | H : Qltb _ _ = false |- _ => apply Qltb_false in H
        end; lra. }
  unfold _determine_classification.
  destruct (match vision with
            | Some v => override_detection (detections v)
            | None => None
            end); [cbn; lia |].
  destruct sensor as [s |]; [| exact Hthr].
  destruct (is_coordinated s && Qleb 0.7 (sabotage_likelihood s));
    [cbn; lia | exact Hthr].
Qed.

Lemma classification_monotone_in_score_witness :
  (tier_rank (fst (_determine_classification config 24.99 None None))
   <= tier_rank (fst (_determine_classification config 60 None None)))%Z.
Proof. apply classification_monotone_in_score. lra. Defined.

(** X7. without an override the tier is decided by the two effective
    thresholds [max(T_safe, 0.01)] and [max(T_susp, T_safe' + 0.01)],
    and for scores in [0, 100] the confidence lies in [0, 1] for SAFE, in
    [0.5, 0.8] for SUSPICIOUS and in [0.7, 1] for CONFIRMED_TAMPERING. *)
Theorem threshold_tiers_and_confidence_bands (cfg : Config) (score : Q) :
  0 <= score <= 100 ->
  let ts := py_max (RISK_THRESHOLD_SAFE cfg) 0.01 in
  let tsu := py_max (RISK_THRESHOLD_SUSPICIOUS cfg) (ts + 0.01) in
  let r := threshold_classification cfg score in
  (score < ts -> fst r = SAFE /\ 0 <= snd r <= 1) /\
  (ts <= score < tsu -> fst r = SUSPICIOUS /\ 0.5 <= snd r <= 0.8) /\
  (tsu <= score -> fst r = CONFIRMED_TAMPERING /\ 0.7 <= snd r <= 1).
Proof.
  intros [Hlo Hhi] ts tsu r.
  assert (Hu : 0 <= snd r <= 1) by (apply threshold_confidence_unit; lra).
  subst r. unfold threshold_classification in *. fold ts. fold tsu.
  fold ts in Hu. fold tsu in Hu.
  assert (Hts : 0.01 <= ts) by apply py_max_lower.
  assert (Htsu : ts + 0.01 <= tsu) by apply py_max_lower.
  destruct (Qltb score ts) eqn:E1; [| destruct (Qltb score tsu) eqn:E2];
    cbn [fst snd] in *;
    repeat match goal with
      | H : Qltb _ _ = true |- _ => apply Qltb_true in H
      | H : Qltb _ _ = false |- _ => apply Qltb_false in H
      end.
  - repeat split; intros; try lra.
  - split; [intros; lra |]. split; [| intros; lra].
    intros _. split; [reflexivity |].
    assert (E0 : Qltb 0 (tsu - ts) = true) by (apply Qltb_true; lra).
    rewrite E0.
    pose proof (Qdiv_nonneg (score - ts) (tsu - ts) ltac:(lra) ltac:(lra)).
    pose proof (Qdiv_le_1 (score - ts) (tsu - ts) ltac:(lra) ltac:(lra)).
    match goal with
    | |- _ <= py_round2 ?x <= _ =>
        pose proof (py_round2_bounds 50 80 x) as Hb
    end.
    change (inject_Z 50) with 50 in Hb. change (inject_Z 80) with 80 in Hb.
    specialize (Hb ltac:(lra)). lra.
  - split; [intros; lra |]. split; [intros; lra |].
    intros _. split; [reflexivity |].
    destruct (Qltb 0 (100 - tsu)) eqn:E3.
    + apply Qltb_true in E3.
      pose proof (Qdiv_nonneg (score - tsu) (100 - tsu) ltac:(lra) E3).
      match goal with
      | |- _ <= py_round2 ?x <= _ =>
          pose proof (py_round2_bounds 70 100 x) as Hb
      end.
      change (inject_Z 70) with 70 in Hb. change (inject_Z 100) with 100 in Hb.
      destruct (py_min_cases
                  (0.7 + (score - tsu) / (100 - tsu) * 0.3) 1)
        as [[Ha Ea] | [Ha Ea]]; rewrite Ea in *;
        specialize (Hb ltac:(lra)); lra.
    + match goal with
      | |- _ <= py_round2 ?x <= _ =>
          pose proof (py_round2_bounds 70 100 x) as Hb
      end.
      change (inject_Z 70) with 70 in Hb. change (inject_Z 100) with 100 in Hb.
      destruct (py_min_cases 0.85 1) as [[Ha Ea] | [Ha Ea]]; rewrite Ea in *;
        specialize (Hb ltac:(lra)); lra.
Qed.

Lemma threshold_tiers_and_confidence_bands_witness :
  let ts := py_max (RISK_THRESHOLD_SAFE config) 0.01 in
  let tsu := py_max (RISK_THRESHOLD_SUSPICIOUS config) (ts + 0.01) in
  let r := threshold_classification config 42 in
  (42 < ts -> fst r = SAFE /\ 0 <= snd r <= 1) /\
  (ts <= 42 < tsu -> fst r = SUSPICIOUS /\ 0.5 <= snd r <= 0.8) /\
  (tsu <= 42 -> fst r = CONFIRMED_TAMPERING /\ 0.7 <= snd r <= 1).
Proof. apply threshold_tiers_and_confidence_bands. lra. Defined.


Lemma round_half_even_floor (q : Q) :
  (Qfloor q <= round_half_even q <= Qfloor q + 1)%Z.
Proof.
  unfold round_half_even.
  destruct (q - inject_Z (Qfloor q) ?= 1 # 2); [| lia | lia].
  destruct (Z.even (Qfloor q)); lia.
Qed.

(** Rounding preserves order. *)
Lemma round_half_even_mono (x y : Q) :
  x <= y -> (round_half_even x <= round_half_even y)%Z.
Proof.
  intros Hle.
  pose proof (Qfloor_resp_le x y Hle) as Hf.
  pose proof (round_half_even_floor x) as Hx.
  pose proof (round_half_even_floor y) as Hy.
  destruct (Z.eq_dec (Qfloor x) (Qfloor y)) as [E | NE]; [| lia].
  unfold round_half_even. rewrite <- E.
  destruct (x - inject_Z (Qfloor x) ?= 1 # 2) eqn:Cx;
    destruct (y - inject_Z (Qfloor x) ?= 1 # 2) eqn:Cy;
    try (destruct (Z.even (Qfloor x))); try lia;
    repeat match goal with
      | H : (_ ?= _) = Eq |- _ => apply Qeq_alt in H
      | H : (_ ?= _) = Lt |- _ => apply Qlt_alt in H
      | H : (_ ?= _) = Gt |- _ => apply Qgt_alt in H
      end; lra.
Qed.

Lemma py_round2_mono (x y : Q) : x <= y -> py_round2 x <= py_round2 y.
Proof.
  intros Hle. unfold py_round2.
  apply Qmult_le_compat_r; [| apply Qinv_le_0_compat; lra].
  rewrite <- Zle_Qle. apply round_half_even_mono. lra.
Qed.

Lemma safe_clamp_mono (x y lo hi : Q) :
  x <= y -> SafeMath.safe_clamp x lo hi <= SafeMath.safe_clamp y lo hi.
Proof.
  intros Hle. unfold SafeMath.safe_clamp.
  destruct (py_min_cases hi x) as [[Ha ->] | [Ha ->]];
    destruct (py_min_cases hi y) as [[Hb ->] | [Hb ->]];
    repeat match goal with
      | |- context [py_max ?a ?b] =>
          let H := fresh in let E := fresh in
          destruct (py_max_cases a b) as [[H E] | [H E]]; rewrite E
      end; lra.
Qed.

Lemma safe_risk_score_mono (x y : Q) :
  x <= y ->
  fst (SafeMath.safe_risk_score x 0 100)
  <= fst (SafeMath.safe_risk_score y 0 100).
Proof.
  intros Hle. unfold SafeMath.safe_risk_score.
  destruct (Qltb x 0) eqn:A1; destruct (Qltb y 0) eqn:A2;
    destruct (Qltb 100 x) eqn:B1; destruct (Qltb 100 y) eqn:B2;
    cbn [fst];
    repeat match goal with
      | H : Qltb _ _ = true |- _ => apply Qltb_true in H
      | H : Qltb _ _ = false |- _ => apply Qltb_false in H
      end; lra.
Qed.

(** X8. with the temporal context fixed, raising the vision score or the
    sensor score never lowers the reported risk score. *)
Theorem risk_score_monotone_in_evidence (ext : Collaborators) (cfg : Config)
    (cid : string) (request : IntentClassifyRequest)
    (v1 v2 : VisionAnalysisResponse) (s1 s2 : SensorAnalysisResponse)
    (tc : TemporalContext) :
  vision_risk_score v1 <= vision_risk_score v2 ->
  sensor_risk_score s1 <= sensor_risk_score s2 ->
  risk_score (classify_with_context ext cfg cid request (Some v1) (Some s1) tc)
  <= risk_score (classify_with_context ext cfg cid request (Some v2) (Some s2) tc).
Proof.
  intros Hv Hs.
  destruct (classify_with_context_fields ext cfg cid request (Some v1) (Some s1) tc)
    as (-> & _ & _).
  destruct (classify_with_context_fields ext cfg cid request (Some v2) (Some s2) tc)
    as (-> & _ & _).
  apply py_round2_mono. unfold combined_risk_score. cbn [fst snd].
  apply safe_risk_score_mono.
  pose proof (safe_clamp_mono _ _ 0 100 Hv) as Cv.
  pose proof (safe_clamp_mono _ _ 0 100 Hs) as Cs.
  pose proof (py_max_lower (time_risk_modifier tc) 0) as [_ Hm].
  apply Qmult_le_compat_r; [lra | exact Hm].
Qed.

Lemma risk_score_monotone_in_evidence_witness :
  risk_score (classify_with_context Examples.quiet_collaborators config
                "cls_0123456789ab"
                (Examples.request "ZONE-001" Examples.noon None None)
                (Some (Examples.vision_with [] 40))
                (Some (Examples.sensor_with false 0 30))
                (Examples.context_with 1.3))
  <= risk_score (classify_with_context Examples.quiet_collaborators config
                   "cls_0123456789ab"
                   (Examples.request "ZONE-001" Examples.noon None None)
                   (Some (Examples.vision_with [] 55))
                   (Some (Examples.sensor_with false 0 30))
                   (Examples.context_with 1.3)).
Proof.
  apply risk_score_monotone_in_evidence; simpl; lra.
Defined.

(** X9. the final score is never clamped from below, so the reason
    NEGATIVE_VALUE cannot occur in a classification; when the temporal
    multiplier is at most 10/9 nothing is clamped at all, and whenever
    OVERFLOW_PROTECTION is reported the final score is exactly 100. *)
Theorem final_score_clamp_reason
    (vision : option VisionAnalysisResponse)
    (sensor : option SensorAnalysisResponse) (tc : TemporalContext) :
  let '(vision_score, sensor_score, (final, reason)) :=
    combined_risk_score vision sensor tc in
  reason <> Some SafeMath.NEGATIVE_VALUE /\
  (time_risk_modifier tc <= 10 # 9 ->
   reason = None /\
   final == (vision_score * 0.45 + sensor_score * 0.45)
            * py_max (time_risk_modifier tc) 0) /\
  (reason = Some SafeMath.OVERFLOW_PROTECTION -> final = 100).
Proof.
  unfold combined_risk_score.
  set (vs := SafeMath.safe_clamp _ 0 100).
  set (ss := SafeMath.safe_clamp _ 0 100).
  assert (Hvs : 0 <= vs <= 100) by (apply safe_clamp_bounds; lra).
  assert (Hss : 0 <= ss <= 100) by (apply safe_clamp_bounds; lra).
  set (m := py_max (time_risk_modifier tc) 0).
  assert (Hm : 0 <= m) by apply py_max_lower.
  assert (Hnn : 0 <= (vs * 0.45 + ss * 0.45) * m).
  { apply Qmult_le_0_compat; lra. }
  unfold SafeMath.safe_risk_score.
  assert (Qltb ((vs * 0.45 + ss * 0.45) * m) 0 = false) as ->
    by (apply Qltb_false; exact Hnn).
  destruct (Qltb 100 ((vs * 0.45 + ss * 0.45) * m)) eqn:E.
  - apply Qltb_true in E. split; [discriminate |]. split; [| reflexivity].
    intros Hmod. exfalso.
    assert (m <= 10 # 9).
    { unfold m. destruct (py_max_cases (time_risk_modifier tc) 0)
        as [[? ->] | [? ->]]; lra. }
    assert ((vs * 0.45 + ss * 0.45) * m <= 90 * m)
      by (apply Qmult_le_compat_r; lra).
    lra.
  - split; [discriminate |]. split; [| discriminate].
    intros _. split; reflexivity.
Qed.

(** X10. a request without vision and sensor evidence, and not asking
    for either analysis, is classified SAFE with risk score 0 and
    confidence 1, whatever the configuration and the time of day. *)
Theorem classify_without_evidence (ext : Collaborators) (cfg : Config)
    (cid : string) (request : IntentClassifyRequest) :
  req_vision_analysis request = None ->
  req_sensor_analysis request = None ->
  run_vision_analysis request = false ->
  run_sensor_analysis request = false ->
  let r := classify ext cfg cid request in
  classification r = SAFE /\
  risk_score r == 0 /\
  resp_confidence r == 1 /\
  vision_analysis_id r = None /\
  sensor_analysis_id r = None.
Proof.
  intros Hv Hs Hrv Hrs r. subst r. unfold classify.
  rewrite Hv, Hs, Hrv, Hrs.
  set (tc := _calculate_temporal_context cfg (req_timestamp request)).
  unfold classify_with_context.
  destruct (combined_risk_score None None tc) as [[vs ss] [final reason]] eqn:E.
  assert (Hfinal : final == 0).
  { revert E. unfold combined_risk_score, SafeMath.safe_risk_score.
    change (SafeMath.safe_clamp 0 0 100) with 0.
    set (raw := (0 * 0.45 + 0 * 0.45) * py_max (time_risk_modifier tc) 0).
    assert (Hraw : raw == 0) by (unfold raw; ring).
    assert (Qltb raw 0 = false) as -> by (apply Qltb_false; lra).
    assert (Qltb 100 raw = false) as -> by (apply Qltb_false; lra).
    intros [= _ _ <- _]. exact Hraw. }
  unfold _determine_classification, threshold_classification.
  set (ts := py_max (RISK_THRESHOLD_SAFE cfg) 0.01).
  assert (Hts : 0.01 <= ts) by apply py_max_lower.
  assert (Qltb final ts = true) as -> by (apply Qltb_true; lra).
  assert (Qltb 0 ts = true) as -> by (apply Qltb_true; lra).
  cbn [classification risk_score resp_confidence vision_analysis_id
       sensor_analysis_id fmap option_fmap option_map].
  split; [reflexivity |].
  assert (Hdiv : final / ts == 0).
  { unfold Qdiv. rewrite Hfinal. ring. }
  split.
  - pose proof (py_round2_bounds 0 0 final) as Hb.
    change (inject_Z 0) with 0 in Hb. specialize (Hb ltac:(lra)). lra.
  - split; [| split; reflexivity].
    pose proof (py_round2_bounds 100 100 (py_max (1 - final / ts) 0)) as Hb.
    change (inject_Z 100) with 100 in Hb.
    destruct (py_max_cases (1 - final / ts) 0) as [[Ha Ea] | [Ha Ea]];
      rewrite Ea in *; specialize (Hb ltac:(lra)); lra.
Qed.

Lemma classify_without_evidence_witness :
  let r := classify Examples.quiet_collaborators config "cls_0123456789ab"
             (Examples.request "ZONE-003" Examples.night None None) in
  classification r = SAFE /\
  risk_score r == 0 /\
  resp_confidence r == 1 /\
  vision_analysis_id r = None /\
  sensor_analysis_id r = None.
Proof. apply classify_without_evidence; reflexivity. Defined.

(** X11. when no detection triggers the vision override and the sensor
    evidence is coordinated with sabotage likelihood at least 0.7, the
    result is CONFIRMED_TAMPERING with the sabotage likelihood as its
    confidence, whatever the risk score; without coordination, or below
    0.7, the thresholds decide. *)
Theorem sensor_override (cfg : Config) (score : Q)
    (vision : option VisionAnalysisResponse) (s : SensorAnalysisResponse) :
  (forall v d, vision = Some v -> In d (detections v) -> ~ triggers_override d) ->
  (is_coordinated s = true -> 0.7 <= sabotage_likelihood s ->
   _determine_classification cfg score vision (Some s)
   = (CONFIRMED_TAMPERING, sabotage_likelihood s)) /\
  (is_coordinated s = false \/ sabotage_likelihood s < 0.7 ->
   _determine_classification cfg score vision (Some s)
   = threshold_classification cfg score).
Proof.
  intros Hno. unfold _determine_classification.
  assert (match vision with
          | Some v => override_detection (detections v)
          | None => None
          end = None) as ->.
  { destruct vision as [v |]; [| reflexivity].
    apply override_detection_none_iff. intros d. now apply (Hno v). }
  split.
  - intros Hc Hq. apply Qleb_true in Hq. now rewrite Hc, Hq.
  - intros [Hc | Hq].
    + now rewrite Hc.
    + apply Qleb_false in Hq. rewrite Hq, andb_false_r. reflexivity.
Qed.

Lemma sensor_override_witness :
  let s := Examples.sensor_with true 0.98 0 in
  (is_coordinated s = true -> 0.7 <= sabotage_likelihood s ->
   _determine_classification config 0 None (Some s)
   = (CONFIRMED_TAMPERING, sabotage_likelihood s)) /\
  (is_coordinated s = false \/ sabotage_likelihood s < 0.7 ->
   _determine_classification config 0 None (Some s)
   = threshold_classification config 0).
Proof. apply sensor_override. intros v d H. discriminate H. Defined.

(** X12. for every timestamp, also before the epoch, the temporal
    context under the shipped weights has an hour in 0..23, never sets
    the night and the peak flag together, and carries the multiplier 1.3
    at night, 1.2 from 5 to 7, 0.9 in the peak bands and 1 otherwise,
    always within the bounds [0.5, 2.0] of the model's field. *)
Theorem temporal_context_shipped (t : Z) :
  let tc := _calculate_temporal_context config t in
  let h := hour_of_day tc in
  (0 <= h < 24)%Z /\
  is_night_hours tc && is_peak_hours tc = false /\
  time_risk_modifier tc =
    (if (22 <=? h)%Z || (h <? 5)%Z then 1.3
     else if (h <? 7)%Z then 1.2
     else if (h <? 10)%Z || ((17 <=? h)%Z && (h <? 20)%Z) then 0.9
     else 1) /\
  0.5 <= time_risk_modifier tc <= 2.
Proof.
  cbv zeta. unfold _calculate_temporal_context.
  cbn [hour_of_day is_night_hours is_peak_hours time_risk_modifier
       TIME_WEIGHTS_night_hours TIME_WEIGHTS_early_morning
       TIME_WEIGHTS_peak_hours config].
  set (h := hour_of t).
  assert (Hh : (0 <= h < 24)%Z).
  { unfold h, hour_of. apply Z.mod_pos_bound. lia. }
  split; [exact Hh |].
  destruct (22 <=? h)%Z eqn:A; destruct (h <? 5)%Z eqn:B;
    destruct (5 <=? h)%Z eqn:C; destruct (h <? 7)%Z eqn:D;
    destruct (7 <=? h)%Z eqn:E; destruct (h <? 10)%Z eqn:F;
    destruct (17 <=? h)%Z eqn:G; destruct (h <? 20)%Z eqn:I;
    cbn [orb andb]; try lia; repeat split; try reflexivity; try lra.
Qed.

End EngineFacts.

(** ** Vision and sensor services *)

Section DetectorFacts.

Import Intent.
Local Open Scope Q_scope.

Lemma dict_get_nonneg (d : gmap string Q) (key : string) (fallback : Q) :
  map_Forall (fun _ w => 0 <= w) d -> 0 <= fallback ->
  0 <= dict_get d key fallback.
Proof.
  intros Hd Hf. unfold dict_get.
  destruct (d !! key) as [w |] eqn:E; [| assumption].
  exact (Hd key w E).
Qed.

Lemma detector_config_vision_weights :
  map_Forall (fun _ w => 0 <= w) (VISION_WEIGHTS detector_config).
Proof.
  unfold detector_config; cbn [VISION_WEIGHTS].
  repeat (apply map_Forall_insert_2; [lra |]). apply map_Forall_empty.
Qed.

Lemma detector_config_sensor_weights :
  map_Forall (fun _ w => 0 <= w) (SENSOR_WEIGHTS detector_config).
Proof.
  unfold detector_config; cbn [SENSOR_WEIGHTS].
  repeat (apply map_Forall_insert_2; [lra |]). apply map_Forall_empty.
Qed.

Lemma vision_total_nonneg (dc : DetectorConfig) (ds : list Detection) (acc : Q) :
  map_Forall (fun _ w => 0 <= w) (VISION_WEIGHTS dc) ->
  Forall (fun d => 0 <= confidence d) ds ->
  0 <= acc ->
  0 <= fold_left
         (fun total detection =>
            total +
            dict_get (VISION_WEIGHTS dc)
              (Vision.DetectionClass_value (class_label detection)) 10
            * confidence detection)
         ds acc.
Proof.
  intros Hw Hds. revert acc.
  induction Hds as [| d ds Hd Hds IH]; intros acc Hacc; simpl; [assumption |].
  apply IH.
  pose proof (dict_get_nonneg (VISION_WEIGHTS dc)
                (Vision.DetectionClass_value (class_label d)) 10 Hw) as H.
  assert (0 <= 10) as H10 by lra. specialize (H H10).
  pose proof (Qmult_le_0_compat _ _ H Hd). lra.
Qed.

Lemma py_min_cap_bounds (x cap : Q) : 0 <= x -> 0 <= cap ->
  0 <= py_min x cap <= cap.
Proof.
  intros Hx Hc. destruct (py_min_cases x cap) as [[H ->] | [H ->]]; lra.
Qed.

Lemma vision_score_in_range (dc : DetectorConfig)
    (reason : Detection -> string) (ds : list Detection)
    (conditions : list Vision.ImageCondition) :
  map_Forall (fun _ w => 0 <= w) (VISION_WEIGHTS dc) ->
  Forall (fun d => 0 <= confidence d) ds ->
  0 <= fst (Vision._calculate_risk_score dc reason ds conditions) <= 100.
Proof.
  intros Hw Hds. destruct ds as [| d ds]; [cbn; lra |].
  unfold Vision._calculate_risk_score.
  set (total := fold_left _ (d :: ds) 0).
  assert (Ht : 0 <= total).
  { subst total. apply vision_total_nonneg; [assumption | assumption | lra]. }
  destruct (Vision.has_poor_visibility conditions); cbn [fst snd];
    apply py_round2_percent; apply py_min_cap_bounds; lra.
Qed.

Lemma override_detection_filter (threshold : Q) (ds : list Detection) :
  threshold <= 0.85 ->
  override_detection
    (List.filter (fun d => Qleb threshold (confidence d)) ds)
  = override_detection ds.
Proof.
  intros Ht. induction ds as [| d ds IH]; [reflexivity |].
  cbn [List.filter].
  destruct (Qleb threshold (confidence d)) eqn:E.
  - cbn [override_detection]. now rewrite IH.
  - cbn [override_detection]. rewrite IH.
    apply Qleb_false in E.
    destruct (Qleb 0.85 (confidence d)) eqn:E2.
    + apply Qleb_true in E2. lra.
    + now rewrite andb_false_r.
Qed.

(** X13. the vision analysis keeps exactly the detections whose
    confidence reaches the configured threshold, in their order; with a
    threshold of at most 0.85 the filter never removes a detection that
    triggers the critical-evidence override, so the override sees the
    same detection before and after filtering. *)
Theorem vision_analyze_keeps_confident_detections (dc : DetectorConfig)
    (reason : Detection -> string) (uuid_hex : string)
    (raw : list Detection) (conditions : list Vision.ImageCondition)
    (self : Vision.VisionService) :
  VISION_CONFIDENCE_THRESHOLD dc <= 0.85 ->
  let v := fst (Vision.analyze dc reason uuid_hex (raw, conditions) self) in
  (forall d, In d (detections v) <->
             In d raw /\ VISION_CONFIDENCE_THRESHOLD dc <= confidence d) /\
  sublist (detections v) raw /\
  override_detection (detections v) = override_detection raw /\
  vision_risk_score v
  = fst (Vision._calculate_risk_score dc reason (detections v) conditions).
Proof.
  intros Ht v. subst v. unfold Vision.analyze.
  destruct (Vision._calculate_risk_score dc reason _ conditions) as [score rs]
    eqn:E.
  cbn [fst detections vision_risk_score].
  split; [| split; [| split]].
  - intros d. rewrite filter_In, Qleb_true. reflexivity.
  - clear E. induction raw as [| d raw IH]; [constructor |].
    cbn [List.filter]. destruct (Qleb _ _); now constructor.
  - now apply override_detection_filter.
  - now rewrite E.
Qed.

Lemma vision_analyze_keeps_confident_detections_witness :
  let raw := [Examples.fish_plate_090;
              {| detection_id := "det_low"; class_label := HUMAN_PRESENCE;
                 confidence := 0.4 |}] in
  let v := fst (Vision.analyze detector_config (fun _ => "detection"%string)
                  "0123456789abcdef" (raw, []) {| Vision._processing_count := 0 |}) in
  (forall d, In d (detections v) <->
             In d raw /\
             VISION_CONFIDENCE_THRESHOLD detector_config <= confidence d) /\
  sublist (detections v) raw /\
  override_detection (detections v) = override_detection raw /\
  vision_risk_score v
  = fst (Vision._calculate_risk_score detector_config
           (fun _ => "detection"%string) (detections v) []).
Proof.
  apply (vision_analyze_keeps_confident_detections detector_config
           (fun _ => "detection"%string) "0123456789abcdef"
           [Examples.fish_plate_090;
            {| detection_id := "det_low"; class_label := HUMAN_PRESENCE;
               confidence := 0.4 |}] [] {| Vision._processing_count := 0 |}).
  vm_compute. discriminate.
Defined.

End DetectorFacts.

Section SensorFacts.

Import SafeMath Guards Sensor.
Local Open Scope Q_scope.

Lemma py_round2_nonneg (x : Q) : 0 <= x -> 0 <= py_round2 x.
Proof.
  intros Hx. unfold py_round2.
  assert (H : (0 <= round_half_even (x * 100))%Z).
  { apply round_half_even_lower. change (inject_Z 0) with 0. lra. }
  apply Qdiv_nonneg; [| lra].
  change 0 with (inject_Z 0). now rewrite <- Zle_Qle.
Qed.

Lemma py_round3_nonneg (x : Q) : 0 <= x -> 0 <= py_round3 x.
Proof.
  intros Hx. unfold py_round3.
  assert (H : (0 <= round_half_even (x * 1000))%Z).
  { apply round_half_even_lower. change (inject_Z 0) with 0. lra. }
  apply Qdiv_nonneg; [| lra].
  change 0 with (inject_Z 0). now rewrite <- Zle_Qle.
Qed.

Lemma py_round3_zero (x : Q) : x == 0 -> py_round3 x == 0.
Proof.
  intros Hx. unfold py_round3.
  assert (H1 : (0 <= round_half_even (x * 1000))%Z).
  { apply round_half_even_lower. change (inject_Z 0) with 0. lra. }
  assert (H2 : (round_half_even (x * 1000) <= 0)%Z).
  { apply round_half_even_upper. change (inject_Z 0) with 0. lra. }
  replace (round_half_even (x * 1000)) with 0%Z by lia.
  reflexivity.
Qed.

Lemma safe_divide_nonneg (n d : Q) : 0 <= n -> 0 <= d ->
  0 <= fst (safe_divide n d 0).
Proof.
  intros Hn Hd. unfold safe_divide.
  destruct (Qeq_bool d 0) eqn:E; cbn [fst]; [lra |].
  apply Qeq_bool_false in E. apply Qdiv_nonneg; [assumption | lra].
Qed.

(** What [detect_reading] records when it reports a reading. *)
Lemma detect_reading_some (dc : DetectorConfig) (uuid_hex : string)
    (r : SensorReading) (a : SensorAnomaly) :
  detect_reading dc uuid_hex r = Some a ->
  anomaly_sensor_id a = sensor_id r /\
  anomaly_sensor_type a = sensor_type r /\
  value_observed a = value r /\
  ((anomaly_type a = SUDDEN_CHANGE /\ severity a = SEVERE) \/
   (anomaly_type a = MECHANICAL_WEAR /\ severity a = MODERATE) \/
   (anomaly_type a = ENVIRONMENTAL_NOISE /\ severity a = MINOR)) /\
  (exists z, z_score a = Some z /\ 0 <= z <= 10) /\
  (exists i, isolation_score a = Some i /\ 0 <= i <= 1) /\
  0 <= deviation_percent a /\
  anomaly_id a = String.append "anom_" (substring 0 8 uuid_hex).
Proof.
  unfold detect_reading.
  destruct (SENSOR_THRESHOLDS dc !! SensorType_value (sensor_type r))
    as [t |]; [| discriminate].
  destruct (threshold_config_is_empty t); [discriminate |].
  destruct (in_range (default (0, 100) (normal_range t)) (value r));
    [discriminate |].
  set (dev := fst (safe_divide _ _ 0) * 100).
  assert (Hdev : 0 <= dev).
  { subst dev.
    match goal with
    | |- 0 <= fst (safe_divide ?n ?d 0) * 100 =>
        pose proof (safe_divide_nonneg n d (Qabs_nonneg _)) as H;
        pose proof (py_max_lower (Qabs ((fst (default (0, 100) (normal_range t))
                      + snd (default (0, 100) (normal_range t))) / 2)) 0.01)
          as [_ Hd]
    end.
    assert (0 <= fst (safe_divide
                        (Qabs (value r - (fst (default (0, 100) (normal_range t))
                               + snd (default (0, 100) (normal_range t))) / 2))
                        (py_max (Qabs ((fst (default (0, 100) (normal_range t))
                               + snd (default (0, 100) (normal_range t))) / 2))
                           0.01) 0)) by (apply H; lra).
    lra. }
  destruct (in_range (default (0, 100) (critical_range t)) (value r));
    [| destruct (in_range (default (0, 100) (warning_range t)) (value r))];
    cbn beta iota; (destruct (decide _) as [? | _]; [discriminate |]);
    intros [= <-]; cbn;
    (repeat split; try reflexivity;
     [ tauto
     | eexists; split; [reflexivity | apply safe_clamp_bounds; lra]
     | eexists; split; [reflexivity | apply safe_clamp_bounds; lra]
     | now apply py_round2_nonneg ]).
Qed.

(** X14. every anomaly reported by the detector names a reading it was
    given, carries one of the three (type, severity) ratings, a z-score
    in [0, 10], an isolation score in [0, 1] and a deviation of at least
    0; there are at most as many anomalies as readings, and one
    identifier is drawn per anomaly. *)
Theorem detected_anomalies_are_well_formed (dc : DetectorConfig)
    (uuid4_hex : nat -> string) (readings : list SensorReading)
    (draws : nat) :
  let r := _detect_anomalies dc uuid4_hex readings draws in
  Forall
    (fun a =>
       (exists reading, In reading readings /\
          anomaly_sensor_id a = sensor_id reading /\
          anomaly_sensor_type a = sensor_type reading /\
          value_observed a = value reading) /\
       ((anomaly_type a = SUDDEN_CHANGE /\ severity a = SEVERE) \/
        (anomaly_type a = MECHANICAL_WEAR /\ severity a = MODERATE) \/
        (anomaly_type a = ENVIRONMENTAL_NOISE /\ severity a = MINOR)) /\
       (exists z, z_score a = Some z /\ 0 <= z <= 10) /\
       (exists i, isolation_score a = Some i /\ 0 <= i <= 1) /\
       0 <= deviation_percent a)
    (fst r) /\
  (length (fst r) <= length readings)%nat /\
  snd r = (draws + length (fst r))%nat.
Proof.
  cbv zeta. revert draws.
  induction readings as [| x readings IH]; intros draws.
  - simpl. repeat split; [constructor | lia | lia].
  - cbn [_detect_anomalies].
    destruct (detect_reading dc (uuid4_hex draws) x) as [a |] eqn:E.
    + specialize (IH (S draws)).
      destruct (_detect_anomalies dc uuid4_hex readings (S draws))
        as [l n]. cbn [fst snd] in *.
      destruct IH as (IH1 & IH2 & IH3).
      apply detect_reading_some in E.
      destruct E as (E1 & E2 & E3 & E4 & E5 & E6 & E7 & _).
      repeat split.
      * constructor.
        -- repeat split; try assumption.
           exists x. repeat split; try assumption. now left.
        -- eapply Forall_impl; [exact IH1 |].
           intros b ((rd & Hin & Hrd) & Hb). split; [| exact Hb].
           exists rd. split; [now right | exact Hrd].
      * simpl. lia.
      * simpl. lia.
    + specialize (IH draws).
      destruct IH as (IH1 & IH2 & IH3).
      repeat split.
      * eapply Forall_impl; [exact IH1 |].
        intros b ((rd & Hin & Hrd) & Hb). split; [| exact Hb].
        exists rd. split; [now right | exact Hrd].
      * simpl. lia.
      * exact IH3.
Qed.

End SensorFacts.

Section SensorAnalysisFacts.

Import SafeMath Guards Sensor.
Local Open Scope Q_scope.

Lemma in_range_true (range : Q * Q) (v : Q) :
  in_range range v = true <-> fst range <= v <= snd range.
Proof.
  unfold in_range. rewrite andb_true_iff, !Qleb_true. reflexivity.
Qed.

Lemma detect_reading_quiet (dc : DetectorConfig) (uuid_hex : string)
    (r : SensorReading) :
  reading_is_quiet dc r -> detect_reading dc uuid_hex r = None.
Proof.
  intros [H | (t & lo & hi & H & Hn & Hv)]; unfold detect_reading; rewrite H;
    [reflexivity |].
  destruct (threshold_config_is_empty t); [reflexivity |].
  rewrite Hn. cbn [from_option id].
  assert (E : in_range (lo, hi) (value r) = true)
    by now apply in_range_true.
  now rewrite E.
Qed.

Lemma detect_anomalies_quiet (dc : DetectorConfig)
    (uuid4_hex : nat -> string) (readings : list SensorReading) (draws : nat) :
  Forall (reading_is_quiet dc) readings ->
  _detect_anomalies dc uuid4_hex readings draws = ([], draws).
Proof.
  induction 1 as [| r readings Hr _ IH]; [reflexivity |].
  cbn [_detect_anomalies]. now rewrite (detect_reading_quiet dc _ r Hr).
Qed.

(** X15. when every analysed reading is of an unconfigured sensor type
    or within the normal range configured for its type, the sensor
    analysis reports no anomaly, risk score 0, no coordination and
    sabotage likelihood 0. *)
Theorem quiet_readings_raise_no_risk (dc : DetectorConfig)
    (texts : ReasonTexts) (uuid4_hex : nat -> string)
    (request_readings : option (list SensorReading))
    (adapter_readings : list SensorReading) (self : SensorService) :
  (forall rs, request_readings = Some rs -> Forall (reading_is_quiet dc) rs) ->
  Forall (reading_is_quiet dc) adapter_readings ->
  let a := fst (analyze dc texts uuid4_hex request_readings
                  adapter_readings self) in
  anomalies a = [] /\
  total_anomalies a = 0%nat /\
  Intent.sensor_risk_score (response a) = 0 /\
  Intent.is_coordinated (response a) = false /\
  Intent.coordination_confidence (response a) = None /\
  Intent.sabotage_likelihood (response a) = 0 /\
  Intent.s_risk_reasons (response a)
  = ["All sensor readings within normal parameters"%string].
Proof.
  intros Hreq Hadp a. subst a. unfold analyze.
  match goal with
  | |- context [_detect_anomalies dc uuid4_hex ?rs 1] =>
      assert (Hq : Forall (reading_is_quiet dc) rs)
  end.
  { destruct request_readings as [[| r rs] |]; try assumption.
    now apply Hreq. }
  rewrite (detect_anomalies_quiet dc uuid4_hex _ 1 Hq).
  cbn. repeat split; reflexivity.
Qed.

Lemma quiet_readings_raise_no_risk_witness :
  let texts := {| _generate_anomaly_reason := fun _ => "anomaly"%string;
                  sabotage_reason := fun _ => "sabotage"%string;
                  environmental_reason := fun _ => "environment"%string |} in
  let readings := [ {| sensor_id := "VIB-001"; sensor_type := VIBRATION;
                       value := 12.5; is_operational := true |};
                    {| sensor_id := "PRS-001"; sensor_type := PRESSURE;
                       value := 1.0; is_operational := true |} ] in
  let a := fst (analyze detector_config texts (fun _ => "0123456789abcdef"%string)
                  None readings {| _processing_count := 0 |}) in
  anomalies a = [] /\
  total_anomalies a = 0%nat /\
  Intent.sensor_risk_score (response a) = 0 /\
  Intent.is_coordinated (response a) = false /\
  Intent.coordination_confidence (response a) = None /\
  Intent.sabotage_likelihood (response a) = 0 /\
  Intent.s_risk_reasons (response a)
  = ["All sensor readings within normal parameters"%string].
Proof.
  apply (quiet_readings_raise_no_risk detector_config
           {| _generate_anomaly_reason := fun _ => "anomaly"%string;
              sabotage_reason := fun _ => "sabotage"%string;
              environmental_reason := fun _ => "environment"%string |}
           (fun _ => "0123456789abcdef"%string) None
           [ {| sensor_id := "VIB-001"; sensor_type := VIBRATION;
                value := 12.5; is_operational := true |};
             {| sensor_id := "PRS-001"; sensor_type := PRESSURE;
                value := 1.0; is_operational := true |} ]
           {| _processing_count := 0 |}).
  - discriminate.
  - constructor; [| constructor; [| constructor]].
    + right.
      exists {| normal_range := Some (0, 50); warning_range := Some (50, 80);
                critical_range := Some (80, 100) |}, 0, 50.
      split; [vm_compute; reflexivity |].
      split; [reflexivity |]. split; vm_compute; discriminate.
    + right.
      exists {| normal_range := Some (0.9, 1.1);
                warning_range := Some (0.7, 0.9);
                critical_range := Some (0, 0.7) |}, 0.9, 1.1.
      split; [vm_compute; reflexivity |].
      split; [reflexivity |]. split; vm_compute; discriminate.
Defined.

Lemma detect_anomalies_complete (dc : DetectorConfig)
    (uuid4_hex : nat -> string) (readings : list SensorReading)
    (draws : nat) (r : SensorReading) :
  In r readings ->
  (forall h, detect_reading dc h r <> None) ->
  exists k a, detect_reading dc (uuid4_hex k) r = Some a /\
              In a (fst (_detect_anomalies dc uuid4_hex readings draws)).
Proof.
  intros Hin Hr. revert draws.
  induction readings as [| x readings IH]; intros draws; [destruct Hin |].
  cbn [_detect_anomalies].
  destruct Hin as [-> | Hin].
  - destruct (detect_reading dc (uuid4_hex draws) r) as [a |] eqn:E.
    + destruct (_detect_anomalies dc uuid4_hex readings (S draws)) as [l n].
      exists draws, a. split; [assumption | now left].
    + now destruct (Hr (uuid4_hex draws)).
  - destruct (detect_reading dc (uuid4_hex draws) x) as [b |].
    + destruct (IH Hin (S draws)) as (k & a & Ha & Hl).
      destruct (_detect_anomalies dc uuid4_hex readings (S draws)) as [l n].
      exists k, a. split; [assumption | now right].
    + apply (IH Hin draws).
Qed.

(** X16. a reading outside the normal range configured for its type is
    always reported, with the midpoint of the normal range as expected
    value; it is rated SEVERE when it lies in the critical range,
    MODERATE when it lies only in the warning range, and MINOR -
    environmental noise - when it lies in none of the three ranges, in
    particular beyond the critical range. *)
Theorem out_of_range_reading_is_reported (dc : DetectorConfig)
    (uuid4_hex : nat -> string) (readings : list SensorReading)
    (draws : nat) (r : SensorReading) (t : ThresholdConfig)
    (n w c : Q * Q) :
  In r readings ->
  SENSOR_THRESHOLDS dc !! SensorType_value (sensor_type r) = Some t ->
  normal_range t = Some n ->
  warning_range t = Some w ->
  critical_range t = Some c ->
  ~ (fst n <= value r <= snd n) ->
  exists a,
    In a (fst (_detect_anomalies dc uuid4_hex readings draws)) /\
    anomaly_sensor_id a = sensor_id r /\
    value_observed a = value r /\
    value_expected a = (fst n + snd n) / 2 /\
    (fst c <= value r <= snd c ->
     severity a = SEVERE /\ anomaly_type a = SUDDEN_CHANGE) /\
    (~ (fst c <= value r <= snd c) -> fst w <= value r <= snd w ->
     severity a = MODERATE /\ anomaly_type a = MECHANICAL_WEAR) /\
    (~ (fst c <= value r <= snd c) -> ~ (fst w <= value r <= snd w) ->
     severity a = MINOR /\ anomaly_type a = ENVIRONMENTAL_NOISE).
Proof.
  intros Hin Ht Hn Hw Hc Hout.
  assert (En : in_range n (value r) = false).
  { destruct (in_range n (value r)) eqn:E; [| reflexivity].
    now apply in_range_true in E. }
  assert (Hshape : forall h,
            detect_reading dc h r
            = Some {| anomaly_id := String.append "anom_" (substring 0 8 h);
                      anomaly_sensor_id := sensor_id r;
                      anomaly_sensor_type := sensor_type r;
                      anomaly_type :=
                        if in_range c (value r) then SUDDEN_CHANGE
                        else if in_range w (value r) then MECHANICAL_WEAR
                        else ENVIRONMENTAL_NOISE;
                      severity :=
                        if in_range c (value r) then SEVERE
                        else if in_range w (value r) then MODERATE
                        else MINOR;
                      value_observed := value r;
                      value_expected := (fst n + snd n) / 2;
                      deviation_percent :=
                        py_round2
                          (fst (safe_divide
                                  (Qabs (value r - (fst n + snd n) / 2))
                                  (py_max (Qabs ((fst n + snd n) / 2)) 0.01) 0)
                           * 100);
                      z_score :=
                        Some (safe_clamp
                                (fst (safe_divide
                                        (Qabs (value r - (fst n + snd n) / 2))
                                        (py_max (Qabs ((fst n + snd n) / 2)) 0.01)
                                        0) * 100 / 25) 0 10);
                      isolation_score :=
                        Some (safe_clamp
                                (fst (safe_divide
                                        (Qabs (value r - (fst n + snd n) / 2))
                                        (py_max (Qabs ((fst n + snd n) / 2)) 0.01)
                                        0) * 100 / 100) 0 1);
                      duration_seconds := None;
                      is_recurring := false |}).
  { intros h. unfold detect_reading. rewrite Ht.
    assert (Ee : threshold_config_is_empty t = false).
    { unfold threshold_config_is_empty. now rewrite Hn. }
    rewrite Ee, Hn, Hw, Hc. cbn [from_option id]. rewrite En.
    destruct (in_range c (value r)); [reflexivity |].
    destruct (in_range w (value r)); reflexivity. }
  destruct (detect_anomalies_complete dc uuid4_hex readings draws r Hin)
    as (k & a & Ha & Hl).
  { intros h. now rewrite Hshape. }
  rewrite Hshape in Ha. injection Ha as <-.
  eexists. split; [exact Hl |]. cbn.
  repeat split.
  - apply in_range_true in H. now rewrite H.
  - apply in_range_true in H. now rewrite H.
  - destruct (in_range c (value r)) eqn:E1;
      [apply in_range_true in E1; tauto |].
    apply in_range_true in H0. now rewrite H0.
  - destruct (in_range c (value r)) eqn:E1;
      [apply in_range_true in E1; tauto |].
    apply in_range_true in H0. now rewrite H0.
  - destruct (in_range c (value r)) eqn:E1;
      [apply in_range_true in E1; tauto |].
    destruct (in_range w (value r)) eqn:E2;
      [apply in_range_true in E2; tauto | reflexivity].
  - destruct (in_range c (value r)) eqn:E1;
      [apply in_range_true in E1; tauto |].
    destruct (in_range w (value r)) eqn:E2;
      [apply in_range_true in E2; tauto | reflexivity].
Qed.

Lemma out_of_range_reading_is_reported_witness :
  let r := {| sensor_id := "VIB-001"; sensor_type := VIBRATION;
              value := 150; is_operational := true |} in
  exists a,
    In a (fst (_detect_anomalies detector_config
                 (fun _ => "0123456789abcdef"%string) [r] 0)) /\
    anomaly_sensor_id a = sensor_id r /\
    value_observed a = value r /\
    value_expected a = (fst (0, 50) + snd (0, 50)) / 2 /\
    (fst (80, 100) <= value r <= snd (80, 100) ->
     severity a = SEVERE /\ anomaly_type a = SUDDEN_CHANGE) /\
    (~ (fst (80, 100) <= value r <= snd (80, 100)) ->
     fst (50, 80) <= value r <= snd (50, 80) ->
     severity a = MODERATE /\ anomaly_type a = MECHANICAL_WEAR) /\
    (~ (fst (80, 100) <= value r <= snd (80, 100)) ->
     ~ (fst (50, 80) <= value r <= snd (50, 80)) ->
     severity a = MINOR /\ anomaly_type a = ENVIRONMENTAL_NOISE).
Proof.
  apply (out_of_range_reading_is_reported detector_config
           (fun _ => "0123456789abcdef"%string)
           [ {| sensor_id := "VIB-001"; sensor_type := VIBRATION;
                value := 150; is_operational := true |} ] 0
           {| sensor_id := "VIB-001"; sensor_type := VIBRATION;
              value := 150; is_operational := true |}
           {| normal_range := Some (0, 50); warning_range := Some (50, 80);
              critical_range := Some (80, 100) |}
           (0, 50) (50, 80) (80, 100)).
  - now left.
  - vm_compute. reflexivity.
  - reflexivity.
  - reflexivity.
  - reflexivity.
  - cbn. intros [_ H]. revert H. vm_compute. intros H. now apply H.
Defined.

Lemma remove_dups_shorter {A} `{EqDecision A} (l : list A) :
  (length (remove_dups l) <= length l)%nat.
Proof.
  induction l as [| x l IH]; simpl; [lia |].
  destruct (decide_rel elem_of x l); simpl; lia.
Qed.

Lemma remove_dups_two {A} `{EqDecision A} (l : list A) :
  (2 <= length (remove_dups l))%nat <->
  exists x y, In x l /\ In y l /\ x <> y.
Proof.
  split.
  - intros H.
    pose proof (NoDup_remove_dups l) as Hnd.
    destruct (remove_dups l) as [| x [| y rest]] eqn:E;
      [simpl in H; lia | simpl in H; lia |].
    exists x, y. repeat split.
    + apply list_elem_of_In, (elem_of_remove_dups l). rewrite E. left.
    + apply list_elem_of_In, (elem_of_remove_dups l). rewrite E. right. left.
    + intros ->. apply NoDup_cons in Hnd as [Hnd _]. apply Hnd. left.
  - intros (x & y & Hx & Hy & Hne).
    apply list_elem_of_In, (elem_of_remove_dups l) in Hx.
    apply list_elem_of_In, (elem_of_remove_dups l) in Hy.
    destruct (remove_dups l) as [| a [| b rest]]; [| | simpl; lia].
    + inversion Hx.
    + apply list_elem_of_singleton in Hx, Hy. congruence.
Qed.

(** X17. anomalies count as coordinated exactly when two of them come
    from sensors of different types (any number of anomalies from
    sensors of one type is never coordinated); the coordination
    confidence is then a value in [0.8, 1], and absent otherwise. *)
Theorem coordination_needs_two_sensor_types (l : list SensorAnomaly) :
  let r := _check_coordination l in
  (fst r = true <->
   exists a b, In a l /\ In b l /\
               anomaly_sensor_type a <> anomaly_sensor_type b) /\
  (fst r = true -> exists c, snd r = Some c /\ 0.8 <= c <= 1) /\
  (fst r = false -> snd r = None).
Proof.
  cbv zeta.
  assert (Htypes :
    (2 <= length (remove_dups (List.map anomaly_sensor_type l)))%nat <->
    exists a b, In a l /\ In b l /\
                anomaly_sensor_type a <> anomaly_sensor_type b).
  { rewrite remove_dups_two. split.
    - intros (x & y & Hx & Hy & Hne).
      apply in_map_iff in Hx as (a & <- & Ha).
      apply in_map_iff in Hy as (b & <- & Hb).
      now exists a, b.
    - intros (a & b & Ha & Hb & Hne).
      exists (anomaly_sensor_type a), (anomaly_sensor_type b).
      repeat split; try assumption; now apply in_map. }
  unfold _check_coordination.
  destruct (length l <? 2)%nat eqn:El.
  - cbn [fst snd]. split; [| split; [discriminate | reflexivity]].
    split; [discriminate |].
    intros H. apply Htypes in H. apply Nat.ltb_lt in El.
    pose proof (remove_dups_shorter (List.map anomaly_sensor_type l)) as Hl.
    rewrite length_map in Hl. lia.
  - destruct (2 <=? length (remove_dups (List.map anomaly_sensor_type l)))%nat
      eqn:Et; cbn [fst snd].
    + apply Nat.leb_le in Et.
      split; [| split; [| discriminate]].
      * split; [intros _; now apply Htypes | reflexivity].
      * intros _. eexists. split; [reflexivity |].
        assert (Hn : 2 <= py_len (remove_dups (List.map anomaly_sensor_type l))).
        { unfold py_len. change 2 with (inject_Z 2). rewrite <- Zle_Qle. lia. }
        match goal with
        | |- _ <= py_min ?x 1 <= _ =>
            assert (Hx : 0.8 <= x)
              by (destruct (2 <=? _)%nat; lra);
            destruct (py_min_cases x 1) as [[H ->] | [H ->]]; lra
        end.
    + apply Nat.leb_gt in Et.
      split; [| split; [discriminate | reflexivity]].
      split; [discriminate |].
      intros H. apply Htypes in H. lia.
Qed.

Lemma has_type_false (t : AnomalyType) (l : list SensorAnomaly) :
  Forall (fun a => anomaly_type a <> t) l -> has_type t l = false.
Proof.
  induction 1 as [| a l Ha _ IH]; [reflexivity |].
  unfold has_type in *. cbn [existsb]. rewrite IH.
  now rewrite bool_decide_eq_false_2.
Qed.

Lemma share_unit (score total : Q) :
  0 <= score -> 0 < total ->
  0 <= py_min (if Qltb 0 total then py_round3 (score / total) else 0) 1 <= 1.
Proof.
  intros Hs Ht.
  assert (E : Qltb 0 total = true) by now apply Qltb_true.
  rewrite E.
  assert (H : 0 <= py_round3 (score / total))
    by (apply py_round3_nonneg; now apply Qdiv_nonneg).
  destruct (py_min_cases (py_round3 (score / total)) 1) as [[H1 ->] | [H1 ->]];
    lra.
Qed.

Lemma share_zero (score total : Q) :
  score == 0 -> 0 < total ->
  py_min (if Qltb 0 total then py_round3 (score / total) else 0) 1 == 0.
Proof.
  intros Hs Ht.
  assert (E : Qltb 0 total = true) by now apply Qltb_true.
  rewrite E.
  assert (H : py_round3 (score / total) == 0).
  { apply py_round3_zero. rewrite Hs. unfold Qdiv. lra. }
  destruct (py_min_cases (py_round3 (score / total)) 1) as [[H1 ->] | [H1 ->]];
    lra.
Qed.

(** The three likelihoods lie in [0, 1]. *)
Lemma likelihoods_unit (l : list SensorAnomaly) :
  let s := calculate_likelihood_scores l in
  0 <= environmental s <= 1 /\ 0 <= mechanical s <= 1 /\
  0 <= sabotage s <= 1.
Proof.
  cbv zeta. destruct l as [| a l]; [cbn; lra |].
  unfold calculate_likelihood_scores.
  cbn [environmental mechanical sabotage].
  destruct (has_type ENVIRONMENTAL_NOISE (a :: l)),
    (has_type MECHANICAL_WEAR (a :: l)),
    (has_type SUDDEN_CHANGE (a :: l)),
    (has_type COORDINATED_ANOMALY (a :: l)),
    (4 <? _)%Z, (3 <? _)%nat;
    (split; [| split]); apply share_unit; lra.
Qed.

(** X18. the three likelihood scores are probabilities; without
    anomalies all three are 0; a cause none of whose anomaly types was
    seen gets likelihood 0 - the sabotage likelihood is 0 unless a
    sudden change or a coordinated anomaly was reported. *)
Theorem likelihood_scores_are_probabilities (l : list SensorAnomaly) :
  let s := calculate_likelihood_scores l in
  (0 <= environmental s <= 1 /\ 0 <= mechanical s <= 1 /\
   0 <= sabotage s <= 1) /\
  (l = [] -> environmental s = 0 /\ mechanical s = 0 /\ sabotage s = 0) /\
  (Forall (fun a => anomaly_type a <> ENVIRONMENTAL_NOISE) l ->
   environmental s == 0) /\
  (Forall (fun a => anomaly_type a <> MECHANICAL_WEAR) l ->
   mechanical s == 0) /\
  (Forall (fun a => anomaly_type a <> SUDDEN_CHANGE /\
                    anomaly_type a <> COORDINATED_ANOMALY) l ->
   sabotage s == 0).
Proof.
  cbv zeta. split; [apply likelihoods_unit |].
  split; [intros ->; cbn; repeat split; reflexivity |].
  destruct l as [| a l]; [cbn; repeat split; reflexivity |].
  unfold calculate_likelihood_scores.
  cbn [environmental mechanical sabotage].
  split; [| split].
  - intros H. rewrite (has_type_false _ _ H).
    destruct (has_type MECHANICAL_WEAR (a :: l)),
      (has_type SUDDEN_CHANGE (a :: l)),
      (has_type COORDINATED_ANOMALY (a :: l)),
      (4 <? _)%Z, (3 <? _)%nat; apply share_zero; lra.
  - intros H. rewrite (has_type_false _ _ H).
    destruct (has_type ENVIRONMENTAL_NOISE (a :: l)),
      (has_type SUDDEN_CHANGE (a :: l)),
      (has_type COORDINATED_ANOMALY (a :: l)),
      (4 <? _)%Z, (3 <? _)%nat; apply share_zero; lra.
  - intros H.
    assert (H1 : Forall (fun a => anomaly_type a <> SUDDEN_CHANGE) (a :: l))
      by (eapply Forall_impl; [exact H | now intros ? []]).
    assert (H2 : Forall (fun a => anomaly_type a <> COORDINATED_ANOMALY) (a :: l))
      by (eapply Forall_impl; [exact H | now intros ? []]).
    rewrite (has_type_false _ _ H1), (has_type_false _ _ H2).
    destruct (has_type ENVIRONMENTAL_NOISE (a :: l)),
      (has_type MECHANICAL_WEAR (a :: l)),
      (4 <? _)%Z, (3 <? _)%nat; apply share_zero; lra.
Qed.

Lemma sensor_total_nonneg (dc : DetectorConfig) (l : list SensorAnomaly)
    (acc : Q) :
  map_Forall (fun _ w => 0 <= w) (SENSOR_WEIGHTS dc) ->
  0 <= acc ->
  0 <= fold_left
         (fun total anomaly =>
            total +
            dict_get (SENSOR_WEIGHTS dc)
              (AnomalyType_value (anomaly_type anomaly)) 10
            * severity_mult (severity anomaly))
         l acc.
Proof.
  intros Hw. revert acc.
  induction l as [| a l IH]; intros acc Hacc; simpl; [assumption |].
  apply IH.
  pose proof (dict_get_nonneg (SENSOR_WEIGHTS dc)
                (AnomalyType_value (anomaly_type a)) 10 Hw) as H.
  assert (0 <= 10) as H10 by lra. specialize (H H10).
  assert (Hm : 0 <= severity_mult (severity a))
    by (destruct (severity a); cbn; lra).
  pose proof (Qmult_le_0_compat _ _ H Hm). lra.
Qed.

Lemma sensor_score_in_range (dc : DetectorConfig) (texts : ReasonTexts)
    (l : list SensorAnomaly) (coordinated : bool) (lk : Likelihoods) :
  map_Forall (fun _ w => 0 <= w) (SENSOR_WEIGHTS dc) ->
  0 <= fst (Sensor._calculate_risk_score dc texts l coordinated lk) <= 100.
Proof.
  intros Hw. destruct l as [| a l]; [cbn; lra |].
  unfold Sensor._calculate_risk_score.
  set (total := fold_left _ (a :: l) 0).
  assert (Ht : 0 <= total)
    by (subst total; apply sensor_total_nonneg; [assumption | lra]).
  destruct coordinated, (Qltb 0.5 (sabotage lk)),
    (Qltb 0.5 (environmental lk)); cbn [fst snd];
    match goal with
    | |- _ <= py_min (py_round2 ?x) 100 <= _ =>
        assert (Hx : 0 <= py_round2 x) by (apply py_round2_nonneg; lra);
        destruct (py_min_cases (py_round2 x) 100) as [[H ->] | [H ->]]; lra
    end.
Qed.

(** X19. evidence produced by the two services is classified within
    bounds: when the adapter's detections carry confidences in [0, 1]
    and no weight is negative, the vision and the sensor risk score lie
    in [0, 100] and the sabotage likelihood in [0, 1]; the
    classification built from the two analyses has a risk score in
    [0, 100] and a confidence in [0, 1], and the input guards of the
    engine leave both service scores as they are. *)
Theorem service_evidence_is_classified_within_bounds
    (ext : Intent.Collaborators) (cfg : Config) (cid : string)
    (request : Intent.IntentClassifyRequest) (tc : Intent.TemporalContext)
    (dc : DetectorConfig) (reason : Intent.Detection -> string)
    (texts : ReasonTexts) (vision_hex : string) (uuid4_hex : nat -> string)
    (raw : list Intent.Detection) (conditions : list Vision.ImageCondition)
    (request_readings : option (list SensorReading))
    (adapter_readings : list SensorReading)
    (vs : Vision.VisionService) (ss : SensorService) :
  map_Forall (fun _ w => 0 <= w) (VISION_WEIGHTS dc) ->
  map_Forall (fun _ w => 0 <= w) (SENSOR_WEIGHTS dc) ->
  Forall (fun d => 0 <= Intent.confidence d <= 1) raw ->
  let v := fst (Vision.analyze dc reason vision_hex (raw, conditions) vs) in
  let s := response (fst (analyze dc texts uuid4_hex request_readings
                            adapter_readings ss)) in
  let r := Intent.classify_with_context ext cfg cid request (Some v) (Some s)
             tc in
  0 <= Intent.vision_risk_score v <= 100 /\
  0 <= Intent.sensor_risk_score s <= 100 /\
  0 <= Intent.sabotage_likelihood s <= 1 /\
  0 <= Intent.risk_score r <= 100 /\
  0 <= Intent.resp_confidence r <= 1 /\
  Intent.resp_vision_risk_score r == Intent.vision_risk_score v /\
  Intent.resp_sensor_risk_score r == Intent.sensor_risk_score s.
Proof.
  intros Hvw Hsw Hraw v s r.
  assert (Hv : Forall (fun d => 0 <= Intent.confidence d <= 1)
                 (Intent.detections v)).
  { subst v. unfold Vision.analyze.
    destruct (Vision._calculate_risk_score dc reason _ conditions).
    cbn [fst Intent.detections].
    apply List.Forall_forall. intros d Hd. apply filter_In in Hd as [Hd _].
    rewrite List.Forall_forall in Hraw. now apply Hraw. }
  assert (Hvs : 0 <= Intent.vision_risk_score v <= 100).
  { subst v. unfold Vision.analyze.
    match goal with
    | |- context [Vision._calculate_risk_score dc reason ?ds conditions] =>
        pose proof (vision_score_in_range dc reason ds conditions Hvw) as H;
        destruct (Vision._calculate_risk_score dc reason ds conditions)
    end.
    cbn [fst Intent.vision_risk_score] in *. apply H.
    apply List.Forall_forall. intros d Hd. apply filter_In in Hd as [Hd _].
    rewrite List.Forall_forall in Hraw. now apply Hraw. }
  assert (Hs : 0 <= Intent.sabotage_likelihood s <= 1 /\
               0 <= Intent.sensor_risk_score s <= 100).
  { subst s. unfold analyze.
    destruct (_check_coordination _) as [coord cc].
    match goal with
    | |- context [Sensor._calculate_risk_score dc texts ?l coord ?lk] =>
        pose proof (sensor_score_in_range dc texts l coord lk Hsw) as H;
        pose proof (likelihoods_unit l) as (_ & _ & Hl);
        destruct (Sensor._calculate_risk_score dc texts l coord lk)
    end.
    cbn [fst response Intent.sabotage_likelihood Intent.sensor_risk_score] in *.
    split; assumption. }
  destruct Hs as [Hs1 Hs2].
  destruct (classify_with_context_fields ext cfg cid request (Some v) (Some s) tc)
    as (Er & _ & Ec).
  fold r in Er, Ec.
  pose proof (combined_risk_score_bounds (Some v) (Some s) tc) as Hb.
  split; [exact Hvs |]. split; [exact Hs2 |]. split; [exact Hs1 |].
  split; [rewrite Er; now apply py_round2_percent |].
  split.
  { rewrite Ec. apply determine_classification_confidence_unit;
      [assumption | now intros ? [= <-] | now intros ? [= <-]]. }
  subst r. unfold Intent.classify_with_context, Intent.combined_risk_score.
  destruct (safe_risk_score _ 0 100) as [final reason'].
  destruct (Intent._determine_classification cfg final (Some v) (Some s)).
  cbn [Intent.resp_vision_risk_score Intent.resp_sensor_risk_score].
  split; now apply safe_clamp_in_range.
Qed.

Lemma service_evidence_is_classified_within_bounds_witness :
  let texts := {| _generate_anomaly_reason := fun _ => "anomaly"%string;
                  sabotage_reason := fun _ => "sabotage"%string;
                  environmental_reason := fun _ => "environment"%string |} in
  let v := fst (Vision.analyze detector_config (fun _ => "detection"%string)
                  "0123456789abcdef"
                  ([Examples.fish_plate_090; Examples.displacement_095],
                   [Vision.LOW_LIGHT])
                  {| Vision._processing_count := 0 |}) in
  let s := response (fst (analyze detector_config texts
                            (fun _ => "0123456789abcdef"%string) None
                            [ {| sensor_id := "VIB-001";
                                 sensor_type := VIBRATION;
                                 value := 95; is_operational := true |};
                              {| sensor_id := "TLT-001"; sensor_type := TILT;
                                 value := 9; is_operational := true |} ]
                            {| _processing_count := 0 |})) in
  let r := Intent.classify_with_context Examples.quiet_collaborators config
             "cls_000000000000"
             (Examples.request "ZONE-001" Examples.night None None)
             (Some v) (Some s) (Examples.context_with 1.3) in
  0 <= Intent.vision_risk_score v <= 100 /\
  0 <= Intent.sensor_risk_score s <= 100 /\
  0 <= Intent.sabotage_likelihood s <= 1 /\
  0 <= Intent.risk_score r <= 100 /\
  0 <= Intent.resp_confidence r <= 1 /\
  Intent.resp_vision_risk_score r == Intent.vision_risk_score v /\
  Intent.resp_sensor_risk_score r == Intent.sensor_risk_score s.
Proof.
  apply (service_evidence_is_classified_within_bounds
           Examples.quiet_collaborators config "cls_000000000000"
           (Examples.request "ZONE-001" Examples.night None None)
           (Examples.context_with 1.3) detector_config
           (fun _ => "detection"%string)
           {| _generate_anomaly_reason := fun _ => "anomaly"%string;
              sabotage_reason := fun _ => "sabotage"%string;
              environmental_reason := fun _ => "environment"%string |}).
  - exact detector_config_vision_weights.
  - exact detector_config_sensor_weights.
  - repeat constructor; vm_compute; discriminate.
Defined.

End SensorAnalysisFacts.

Section ShippedDetector.

Import SafeMath Guards Sensor.
Local Open Scope Q_scope.

Lemma in_range_false (range : Q * Q) (v : Q) :
  in_range range v = false <-> ~ (fst range <= v <= snd range).
Proof.
  rewrite <- in_range_true. destruct (in_range range v); split;
    congruence.
Qed.

(** X20. under the shipped thresholds and weights, a lone vibration
    reading in the critical range [80, 100] yields sensor risk score 63,
    while a lone vibration reading above 100 - beyond the critical
    range - is rated as environmental noise and yields 3.5 with sabotage
    likelihood 0. *)
Theorem vibration_beyond_critical_scores_low (texts : ReasonTexts)
    (uuid4_hex : nat -> string) (sensor : string) (operational : bool)
    (critical beyond : Q) (self : SensorService) :
  80 <= critical <= 100 ->
  100 < beyond ->
  let reading v := {| sensor_id := sensor; sensor_type := VIBRATION;
                      value := v; is_operational := operational |} in
  let analysis v :=
    response (fst (analyze detector_config texts uuid4_hex
                     (Some [reading v]) [] self)) in
  Intent.sensor_risk_score (analysis critical) == 63 /\
  Intent.sensor_risk_score (analysis beyond) == 3.5 /\
  Intent.sabotage_likelihood (analysis beyond) == 0 /\
  Intent.is_coordinated (analysis beyond) = false.
Proof.
  intros Hc Hb reading analysis. subst reading analysis. cbv beta.
  assert (L : SENSOR_THRESHOLDS detector_config !! SensorType_value VIBRATION
              = Some {| normal_range := Some (0, 50);
                        warning_range := Some (50, 80);
                        critical_range := Some (80, 100) |})
    by (vm_compute; reflexivity).
  assert (C1 : in_range (0, 50) critical = false)
    by (apply in_range_false; cbn; lra).
  assert (C2 : in_range (80, 100) critical = true)
    by (apply in_range_true; cbn; lra).
  assert (B1 : in_range (0, 50) beyond = false)
    by (apply in_range_false; cbn; lra).
  assert (B2 : in_range (50, 80) beyond = false)
    by (apply in_range_false; cbn; lra).
  assert (B3 : in_range (80, 100) beyond = false)
    by (apply in_range_false; cbn; lra).
  unfold analyze. cbn [_detect_anomalies]. unfold detect_reading.
  cbn [sensor_type value]. rewrite L.
  cbn [threshold_config_is_empty normal_range warning_range critical_range
       from_option id].
  rewrite C1, C2, B1, B2, B3. cbn beta iota.
  repeat split; vm_compute; reflexivity.
Qed.

Lemma vibration_beyond_critical_scores_low_witness :
  let texts := {| _generate_anomaly_reason := fun _ => "anomaly"%string;
                  sabotage_reason := fun _ => "sabotage"%string;
                  environmental_reason := fun _ => "environment"%string |} in
  let reading v := {| sensor_id := "VIB-001"; sensor_type := VIBRATION;
                      value := v; is_operational := true |} in
  let analysis v :=
    response (fst (analyze detector_config texts
                     (fun _ => "0123456789abcdef"%string)
                     (Some [reading v]) [] {| _processing_count := 0 |})) in
  Intent.sensor_risk_score (analysis 90) == 63 /\
  Intent.sensor_risk_score (analysis 150) == 3.5 /\
  Intent.sabotage_likelihood (analysis 150) == 0 /\
  Intent.is_coordinated (analysis 150) = false.
Proof.
  apply (vibration_beyond_critical_scores_low
           {| _generate_anomaly_reason := fun _ => "anomaly"%string;
              sabotage_reason := fun _ => "sabotage"%string;
              environmental_reason := fun _ => "environment"%string |}
           (fun _ => "0123456789abcdef"%string) "VIB-001" true 90 150
           {| _processing_count := 0 |}).
  - split; vm_compute; discriminate.
  - reflexivity.
Defined.

End ShippedDetector.

(** ** Sorting and slicing as Python does *)

Section StableSort.

Context {A : Type} (before : A -> A -> bool).

Hypothesis before_asym :
  forall a b, before a b = true -> before b a = false.
Hypothesis before_negtrans :
  forall a b c, before a c = true -> before a b = true \/ before b c = true.

Lemma py_insert_perm (x : A) (l : list A) :
  Permutation (py_insert before x l) (x :: l).
Proof.
  induction l as [| y l IH]; simpl; [reflexivity |].
  destruct (before y x); [| reflexivity].
  rewrite IH. apply perm_swap.
Qed.

Lemma py_sorted_perm (l : list A) : Permutation (py_sorted before l) l.
Proof.
  induction l as [| x l IH]; simpl; [reflexivity |].
  rewrite py_insert_perm. now rewrite IH.
Qed.

Lemma py_sorted_length (l : list A) :
  length (py_sorted before l) = length l.
Proof. apply Permutation_length, py_sorted_perm. Qed.

Lemma py_sorted_In (l : list A) (a : A) :
  In a (py_sorted before l) <-> In a l.
Proof.
  split; apply Permutation_in;
    [apply py_sorted_perm | symmetry; apply py_sorted_perm].
Qed.

Lemma py_insert_sorted (x : A) (l : list A) :
  StronglySorted (ahead before) l -> StronglySorted (ahead before) (py_insert before x l).
Proof.
  induction 1 as [| y l Hs IH Hy]; simpl.
  - constructor; constructor.
  - destruct (before y x) eqn:E.
    + constructor; [assumption |].
      apply List.Forall_forall. intros z Hz.
      apply (Permutation_in _ (py_insert_perm x l)) in Hz.
      destruct Hz as [<- | Hz].
      * now apply before_asym.
      * rewrite List.Forall_forall in Hy. now apply Hy.
    + constructor; [now constructor |].
      constructor; [exact E |].
      apply List.Forall_forall. intros z Hz.
      rewrite List.Forall_forall in Hy. specialize (Hy z Hz).
      unfold ahead in *.
      destruct (before z x) eqn:E2; [| reflexivity].
      destruct (before_negtrans z y x E2); congruence.
Qed.

Lemma py_sorted_sorted (l : list A) : StronglySorted (ahead before) (py_sorted before l).
Proof.
  induction l as [| x l IH]; simpl; [constructor |].
  now apply py_insert_sorted.
Qed.

(** Stability: a list that is already in order is returned as it is. *)
Lemma py_sorted_stable (l : list A) :
  StronglySorted (ahead before) l -> py_sorted before l = l.
Proof.
  induction 1 as [| x l Hs IH Hx]; simpl; [reflexivity |].
  rewrite IH. destruct l as [| y l]; [reflexivity |].
  simpl. apply Forall_inv in Hx. unfold ahead in Hx. now rewrite Hx.
Qed.

End StableSort.

Lemma StronglySorted_weaken {A} (R R' : A -> A -> Prop) (l : list A) :
  (forall a b, R a b -> R' a b) ->
  StronglySorted R l -> StronglySorted R' l.
Proof.
  intros HR. induction 1 as [| x l Hs IH Hx]; constructor; [assumption |].
  eapply List.Forall_impl; [| exact Hx]. intros b. apply HR.
Qed.

Lemma StronglySorted_sublist {A} (R : A -> A -> Prop) (l k : list A) :
  sublist l k -> StronglySorted R k -> StronglySorted R l.
Proof.
  intros Hsub Hk. revert l Hsub.
  induction Hk as [| x k Hs IH Hx]; intros l Hsub.
  - apply sublist_nil_r in Hsub. subst. constructor.
  - apply sublist_cons_r in Hsub as [Hsub | (l' & -> & Hsub)].
    + now apply IH.
    + constructor; [now apply IH |].
      apply List.Forall_forall. intros b Hb.
      rewrite List.Forall_forall in Hx. apply Hx.
      apply list_elem_of_In. eapply elem_of_sublist; [| exact Hsub].
      now apply list_elem_of_In.
Qed.

Section SliceFacts.

Context {A : Type}.

Lemma py_slice_nonneg (l : list A) (start stop : Z) :
  (0 <= start)%Z -> (0 <= stop)%Z ->
  py_slice l start stop
  = take (Z.to_nat stop - Z.to_nat start) (drop (Z.to_nat start) l).
Proof.
  intros H1 H2. unfold py_slice.
  assert (E1 : (start <? 0)%Z = false) by lia.
  assert (E2 : (stop <? 0)%Z = false) by lia.
  rewrite E1, E2.
  destruct (Z.le_gt_cases start (Z.of_nat (length l))) as [Hs | Hs].
  - rewrite (Z.min_l start) by lia.
    destruct (Z.le_gt_cases stop (Z.of_nat (length l))) as [Ht | Ht].
    + rewrite (Z.min_l stop) by lia. f_equal. lia.
    + rewrite (Z.min_r stop) by lia.
      rewrite !take_ge; try reflexivity; rewrite length_drop; lia.
  - rewrite (Z.min_r start) by lia.
    rewrite !drop_ge by lia. now rewrite !take_nil.
Qed.

Lemma py_slice_length (l : list A) (start stop : Z) :
  (length (py_slice l start stop) <= length l)%nat.
Proof.
  unfold py_slice. rewrite length_take, length_drop. lia.
Qed.

Lemma py_slice_sublist (l : list A) (start stop : Z) :
  sublist (py_slice l start stop) l.
Proof.
  unfold py_slice.
  etransitivity; [apply sublist_take | apply sublist_drop].
Qed.

End SliceFacts.

(** ** Alert queries *)

Section HistoryFacts.

Import Alerts AlertQueries.

Lemma filter_filter {A} (p q : A -> bool) (l : list A) :
  List.filter p (List.filter q l) = List.filter (fun a => q a && p a) l.
Proof.
  induction l as [| x l IH]; [reflexivity |].
  cbn [List.filter]. destruct (q x); cbn [List.filter andb].
  - destruct (p x); now rewrite IH.
  - exact IH.
Qed.

Lemma filter_if_filter {A B} (field : option B) (truthy : B -> bool)
    (test : B -> A -> bool) (l : list A) :
  filter_if field truthy test l
  = List.filter
      (fun a => match field with
                | Some x => negb (truthy x) || test x a
                | None => true
                end) l.
Proof.
  assert (Hall : forall l : list A, List.filter (fun _ => true) l = l).
  { intros l0. induction l0 as [| x l0 IH]; [reflexivity |].
    cbn. now rewrite IH. }
  unfold filter_if. destruct field as [x |]; [| now rewrite Hall].
  destruct (truthy x); cbn [negb orb]; [reflexivity | now rewrite Hall].
Qed.

Lemma newest_first_asym (a b : Alert) :
  newest_first a b = true -> newest_first b a = false.
Proof. unfold newest_first. lia. Qed.

Lemma newest_first_negtrans (a b c : Alert) :
  newest_first a c = true ->
  newest_first a b = true \/ newest_first b c = true.
Proof.
  unfold newest_first. intros H.
  destruct (created_at b <? created_at a)%Z eqn:E; [now left |].
  right. lia.
Qed.

(** [get_history] pages through the listing of the matching alerts. *)
Lemma get_history_listing (values : list Alert) (query : AlertHistoryQuery) :
  let r := get_history values query in
  alerts r
  = py_slice (listing values query) (offset query)
      (offset query + limit query) /\
  total r = Z.of_nat (length (listing values query)) /\
  has_more r
  = (offset query + Z.of_nat (length (alerts r)) <? total r)%Z.
Proof.
  cbv zeta. unfold get_history, listing.
  rewrite !filter_if_filter, !filter_filter.
  cbn [alerts total has_more].
  match goal with
  | |- context [List.filter ?p values] =>
      assert (E : List.filter p values
                  = List.filter (query_matches query) values)
  end.
  { apply filter_ext. intros a. unfold query_matches.
    destruct (q_zone_id query), (q_severity query), (q_status query),
      (start_time query), (end_time query);
      cbn [negb orb]; rewrite ?negb_involutive, ?andb_assoc, ?andb_true_r;
      reflexivity. }
  rewrite E. repeat split.
Qed.

Lemma listing_sorted (values : list Alert) (query : AlertHistoryQuery) :
  StronglySorted (fun a b => (created_at b <= created_at a)%Z)
    (listing values query).
Proof.
  unfold listing.
  eapply StronglySorted_weaken;
    [| apply (py_sorted_sorted newest_first newest_first_asym
                newest_first_negtrans)].
  intros a b. unfold ahead, newest_first. lia.
Qed.

End HistoryFacts.

Section HistoryPages.

Import Alerts AlertQueries.

(** X21. the history page holds only alerts of the registry that pass
    every filter in force, newest first; [total] counts all matching
    alerts, not only those on the page, and the page never holds more
    than [total] alerts. *)
Theorem history_page_is_matching_and_newest_first (values : list Alert)
    (query : AlertHistoryQuery) :
  let r := get_history values query in
  (forall a, In a (alerts r) -> In a values /\ query_matches query a = true) /\
  StronglySorted (fun a b => (created_at b <= created_at a)%Z) (alerts r) /\
  total r = Z.of_nat (length (List.filter (query_matches query) values)) /\
  (Z.of_nat (length (alerts r)) <= total r)%Z /\
  resp_limit r = limit query /\ resp_offset r = offset query.
Proof.
  intros r. destruct (get_history_listing values query) as (Ea & Et & _).
  fold r in Ea, Et.
  assert (Hsub : sublist (alerts r) (listing values query))
    by (rewrite Ea; apply py_slice_sublist).
  split; [| split; [| split; [| split]]].
  - intros a Ha.
    assert (Hl : In a (listing values query)).
    { apply list_elem_of_In. eapply elem_of_sublist; [| exact Hsub].
      now apply list_elem_of_In. }
    unfold listing in Hl. apply py_sorted_In in Hl.
    now apply filter_In in Hl.
  - eapply StronglySorted_sublist; [exact Hsub | apply listing_sorted].
  - rewrite Et. unfold listing. now rewrite py_sorted_length.
  - rewrite Et, Ea. pose proof (py_slice_length (listing values query)
                                  (offset query) (offset query + limit query)).
    lia.
  - split; reflexivity.
Qed.

Lemma page_window (values : list Alert) (query : AlertHistoryQuery)
    (o l : Z) :
  (0 <= o)%Z -> (0 <= l)%Z ->
  alerts (get_history values (with_page query o l))
  = take (Z.to_nat l) (drop (Z.to_nat o) (listing values query)).
Proof.
  intros Ho Hl.
  destruct (get_history_listing values (with_page query o l)) as (Ea & _).
  rewrite Ea. cbn [offset limit with_page].
  rewrite py_slice_nonneg by lia.
  replace (Z.to_nat (o + l) - Z.to_nat o)%nat with (Z.to_nat l) by lia.
  reflexivity.
Qed.

(** X22. with a non-negative offset and limit, a page holds at most
    [limit] alerts, consecutive pages put one after the other give the
    page of the combined size - no alert is lost or repeated between
    pages -, a first page of size [total] is the whole listing, and
    [has_more] is set exactly when alerts remain after the page. *)
Theorem history_pages_tile_the_listing (values : list Alert)
    (query : AlertHistoryQuery) (o l l' : Z) :
  (0 <= o)%Z -> (0 <= l)%Z -> (0 <= l')%Z ->
  let page o l := alerts (get_history values (with_page query o l)) in
  let r := get_history values (with_page query o l) in
  (Z.of_nat (length (page o l)) <= l)%Z /\
  page o l ++ page (o + l)%Z l' = page o (l + l')%Z /\
  page 0%Z (total r) = listing values query /\
  (has_more r = true <-> (o + l < total r)%Z).
Proof.
  intros Ho Hl Hl' page r. subst page. cbv beta.
  destruct (get_history_listing values (with_page query o l))
    as (_ & Et & Eh). fold r in Et, Eh.
  cbn [offset limit with_page] in Eh.
  rewrite !page_window by lia.
  assert (Elist : listing values (with_page query o l) = listing values query)
    by reflexivity.
  rewrite Elist in Et.
  split; [| split; [| split]].
  - rewrite length_take. lia.
  - replace (Z.to_nat (o + l)) with (Z.to_nat o + Z.to_nat l)%nat by lia.
    rewrite <- drop_drop, take_take_drop. f_equal. lia.
  - rewrite Et, Nat2Z.id. cbn [drop Z.to_nat]. now rewrite take_ge.
  - rewrite Eh, Z.ltb_lt. unfold r at 1. rewrite page_window by lia.
    rewrite length_take, length_drop, Et. lia.
Qed.

Lemma history_pages_tile_the_listing_witness :
  let values := [Examples.sample_alert; Examples.sample_alert;
                 Examples.sample_alert] in
  let query := {| q_zone_id := None; q_severity := None; q_status := None;
                  start_time := None; end_time := None;
                  limit := 50; offset := 0 |} in
  let page o l := alerts (get_history values (with_page query o l)) in
  let r := get_history values (with_page query 1 1) in
  (Z.of_nat (length (page 1 1)) <= 1)%Z /\
  page 1%Z 1%Z ++ page (1 + 1)%Z 5%Z = page 1%Z (1 + 5)%Z /\
  page 0%Z (total r) = listing values query /\
  (has_more r = true <-> (1 + 1 < total r)%Z).
Proof.
  apply (history_pages_tile_the_listing
           [Examples.sample_alert; Examples.sample_alert;
            Examples.sample_alert]
           {| q_zone_id := None; q_severity := None; q_status := None;
              start_time := None; end_time := None;
              limit := 50; offset := 0 |} 1 1 5); lia.
Defined.

(** X23. the history query does not reject a negative limit: with
    offset 0 and limit -k the page holds every matching alert except
    the k oldest ones, however many that is; and an empty string as
    zone filter selects the alerts of all zones, like no filter. *)
Theorem history_edge_inputs (values : list Alert)
    (query : AlertHistoryQuery) (k : Z) :
  (0 < k)%Z ->
  let r := get_history values (with_page query 0 (- k)) in
  alerts r = take (Z.to_nat (total r - k)) (listing values query) /\
  (k <= total r -> Z.of_nat (length (alerts r)) = total r - k)%Z /\
  (has_more r = true <-> (0 < total r)%Z) /\
  (q_zone_id query = Some ""%string ->
   get_history values query
   = get_history values
       {| q_zone_id := None; q_severity := q_severity query;
          q_status := q_status query; start_time := start_time query;
          end_time := end_time query; limit := limit query;
          offset := offset query |}).
Proof.
  intros Hk r.
  destruct (get_history_listing values (with_page query 0 (- k)))
    as (Ea & Et & Eh). fold r in Ea, Et, Eh.
  cbn [offset limit with_page] in Ea, Eh.
  assert (Elist : listing values (with_page query 0 (- k))
                  = listing values query) by reflexivity.
  rewrite Elist in Ea, Et.
  assert (Ea' : alerts r
                = take (Z.to_nat (total r - k)) (listing values query)).
  { rewrite Ea, Et. unfold py_slice.
    assert (E1 : (0 <? 0)%Z = false) by reflexivity.
    assert (E2 : (0 + - k <? 0)%Z = true) by lia.
    rewrite E1, E2.
    rewrite (Z.min_l 0) by lia. cbn [Z.to_nat drop].
    f_equal. lia. }
  split; [exact Ea' |]. split; [| split].
  - intros Hle. rewrite Ea', length_take. lia.
  - rewrite Eh, Z.ltb_lt, Ea', length_take. lia.
  - intros Hz. unfold get_history.
    cbn [q_zone_id q_severity q_status start_time end_time limit offset].
    rewrite Hz. reflexivity.
Qed.

Lemma history_edge_inputs_witness :
  let values := [Examples.sample_alert; Examples.sample_alert;
                 Examples.sample_alert] in
  let query := {| q_zone_id := Some ""%string; q_severity := None;
                  q_status := None; start_time := None; end_time := None;
                  limit := 50; offset := 0 |} in
  let r := get_history values (with_page query 0 (- 1)) in
  alerts r = take (Z.to_nat (total r - 1)) (listing values query) /\
  (1 <= total r -> Z.of_nat (length (alerts r)) = total r - 1)%Z /\
  (has_more r = true <-> (0 < total r)%Z) /\
  (q_zone_id query = Some ""%string ->
   get_history values query
   = get_history values
       {| q_zone_id := None; q_severity := q_severity query;
          q_status := q_status query; start_time := start_time query;
          end_time := end_time query; limit := limit query;
          offset := offset query |}).
Proof.
  apply (history_edge_inputs
           [Examples.sample_alert; Examples.sample_alert;
            Examples.sample_alert]
           {| q_zone_id := Some ""%string; q_severity := None;
              q_status := None; start_time := None; end_time := None;
              limit := 50; offset := 0 |} 1).
  lia.
Defined.

End HistoryPages.

Section StatusSummary.

Import Alerts AlertQueries.

Lemma more_urgent_asym (a b : Alert) :
  more_urgent a b = true -> more_urgent b a = false.
Proof.
  unfold more_urgent.
  destruct (Z.ltb_spec (severity_order (severity a))
              (severity_order (severity b)));
    destruct (Z.ltb_spec (severity_order (severity b))
                (severity_order (severity a)));
    destruct (Z.eqb_spec (severity_order (severity a))
                (severity_order (severity b)));
    destruct (Z.eqb_spec (severity_order (severity b))
                (severity_order (severity a)));
    destruct (Z.ltb_spec (created_at a) (created_at b));
    destruct (Z.ltb_spec (created_at b) (created_at a));
    cbn; try reflexivity; try discriminate; lia.
Qed.

Lemma more_urgent_negtrans (a b c : Alert) :
  more_urgent a c = true ->
  more_urgent a b = true \/ more_urgent b c = true.
Proof.
  unfold more_urgent.
  destruct (Z.ltb_spec (severity_order (severity a))
              (severity_order (severity c)));
    destruct (Z.ltb_spec (severity_order (severity a))
                (severity_order (severity b)));
    destruct (Z.ltb_spec (severity_order (severity b))
                (severity_order (severity c)));
    destruct (Z.eqb_spec (severity_order (severity a))
                (severity_order (severity c)));
    destruct (Z.eqb_spec (severity_order (severity a))
                (severity_order (severity b)));
    destruct (Z.eqb_spec (severity_order (severity b))
                (severity_order (severity c)));
    destruct (Z.ltb_spec (created_at a) (created_at c));
    destruct (Z.ltb_spec (created_at a) (created_at b));
    destruct (Z.ltb_spec (created_at b) (created_at c));
    cbn; intros Hm; try discriminate; try (now left); try (now right); lia.
Qed.

Lemma SeverityLevel_value_inj (s1 s2 : SeverityLevel) :
  SeverityLevel_value s1 = SeverityLevel_value s2 -> s1 = s2.
Proof. destruct s1, s2; cbn; congruence. Qed.

Lemma count_by_severity (l : list Alert) (d : gmap string Z)
    (s : SeverityLevel) :
  fold_left
    (fun d alert =>
       alter (fun n => (n + 1)%Z) (SeverityLevel_value (severity alert)) d)
    l d !! SeverityLevel_value s
  = (fun n =>
       (n + Z.of_nat
              (length (List.filter
                         (fun a => bool_decide (severity a = s)) l)))%Z)
    <$> d !! SeverityLevel_value s.
Proof.
  revert d. induction l as [| a l IH]; intros d.
  - cbn. destruct (d !! SeverityLevel_value s); cbn; [f_equal; lia | reflexivity].
  - cbn [fold_left List.filter]. rewrite IH.
    destruct (decide (severity a = s)) as [E | E].
    + rewrite (bool_decide_eq_true_2 _ E), E, lookup_alter_eq.
      destruct (d !! SeverityLevel_value s); cbn [fmap option_fmap option_map length];
        [f_equal; lia | reflexivity].
    + rewrite (bool_decide_eq_false_2 _ E), lookup_alter_ne; [reflexivity |].
      intros H. now apply SeverityLevel_value_inj in H.
Qed.

Lemma filter_length_mono {A} (p q : A -> bool) (l : list A) :
  (forall a, p a = true -> q a = true) ->
  (length (List.filter p l) <= length (List.filter q l))%nat.
Proof.
  intros H. induction l as [| x l IH]; [cbn; lia |].
  cbn [List.filter]. destruct (p x) eqn:E.
  - rewrite (H x E). cbn. lia.
  - destruct (q x); cbn; lia.
Qed.

(** X24. the status summary counts the alerts whose status is ACTIVE -
    an escalated, acknowledged or resolved alert is not counted -, per
    severity level and in total; [most_urgent] is absent exactly when no
    alert is active, and otherwise an active alert that no other active
    alert precedes in severity (CRITICAL first) or, at equal severity,
    in age; at most 10 recent alerts are listed, newest first; and the
    count of the last hour never exceeds that of the last 24 hours. *)
Theorem status_summary_counts_active_alerts (values : list Alert)
    (now : Z) :
  let r := get_status values now in
  let active :=
    List.filter (fun a => bool_decide (status a = ACTIVE)) values in
  total_active r = Z.of_nat (length active) /\
  (forall s,
     by_severity r !! SeverityLevel_value s
     = Some (Z.of_nat
               (length (List.filter
                          (fun a => bool_decide (severity a = s)) active)))) /\
  (most_urgent r = None <-> active = []) /\
  (forall a, most_urgent r = Some a ->
     In a values /\ status a = ACTIVE /\
     forall b, In b values -> status b = ACTIVE -> more_urgent b a = false) /\
  (length (recent_alerts r) <= 10)%nat /\
  StronglySorted (fun a b => (created_at b <= created_at a)%Z)
    (recent_alerts r) /\
  (forall a, In a (recent_alerts r) -> In a values) /\
  (0 <= alerts_last_hour r <= alerts_last_24h r)%Z /\
  (alerts_last_24h r <= Z.of_nat (length values))%Z.
Proof.
  intros r active.
  assert (Hsorted : StronglySorted (ahead more_urgent)
                      (py_sorted more_urgent active))
    by apply (py_sorted_sorted more_urgent more_urgent_asym
                more_urgent_negtrans).
  assert (Hperm : forall a, In a (py_sorted more_urgent active) <-> In a active)
    by apply py_sorted_In.
  assert (Hlen : length (py_sorted more_urgent active) = length active)
    by apply py_sorted_length.
  split; [reflexivity |]. split; [| split; [| split; [| split; [| split;
    [| split; [| split]]]]]].
  - intros s. subst r. unfold get_status. cbn [by_severity].
    fold active. rewrite count_by_severity.
    destruct s; vm_compute (fold_left _ [LOW; MEDIUM; HIGH; CRITICAL] ∅ !! _);
      cbn; f_equal.
  - subst r. unfold get_status. cbn [most_urgent]. fold active.
    destruct active as [| a0 rest] eqn:Eact; [tauto |].
    split; [| discriminate].
    destruct (py_sorted more_urgent (a0 :: rest)); [discriminate Hlen |].
    discriminate.
  - intros a Ha. subst r. unfold get_status in Ha. cbn [most_urgent] in Ha.
    fold active in Ha.
    destruct active as [| a0 rest] eqn:Eact; [discriminate |].
    destruct (py_sorted more_urgent (a0 :: rest)) as [| h t] eqn:Es;
      [discriminate |].
    cbn in Ha. injection Ha as ->.
    assert (Hin : In a (a0 :: rest)) by (apply Hperm; now left).
    rewrite <- Eact in Hin. apply filter_In in Hin as [Hin Hst].
    apply bool_decide_eq_true in Hst.
    split; [exact Hin |]. split; [exact Hst |].
    intros b Hb Hbs.
    assert (Hb' : In b (a :: t)).
    { apply Hperm. rewrite <- Eact. apply filter_In. split; [exact Hb |].
      now apply bool_decide_eq_true. }
    destruct Hb' as [<- | Hb'].
    + destruct (more_urgent a a) eqn:E; [| reflexivity].
      now rewrite (more_urgent_asym _ _ E) in E.
    + apply StronglySorted_inv in Hsorted as [_ Hall].
      rewrite List.Forall_forall in Hall. exact (Hall b Hb').
  - subst r. unfold get_status. cbn [recent_alerts].
    rewrite py_slice_nonneg by lia. rewrite length_take. lia.
  - subst r. unfold get_status. cbn [recent_alerts].
    eapply StronglySorted_sublist; [apply py_slice_sublist |].
    eapply StronglySorted_weaken;
      [| apply (py_sorted_sorted newest_first newest_first_asym
                  newest_first_negtrans)].
    intros a b. unfold ahead, newest_first. lia.
  - intros a Ha. subst r. unfold get_status in Ha. cbn [recent_alerts] in Ha.
    apply (py_sorted_In newest_first values).
    apply list_elem_of_In. eapply elem_of_sublist;
      [| apply (py_slice_sublist _ 0 10)].
    now apply list_elem_of_In.
  - subst r. unfold get_status. cbn [alerts_last_hour alerts_last_24h].
    split; [lia |]. apply inj_le, filter_length_mono.
    intros a. unfold seconds. lia.
  - subst r. unfold get_status. cbn [alerts_last_24h].
    apply inj_le, List.filter_length_le.
Qed.

End StatusSummary.

(** ** Alert creation gates and the registry *)

Section AlertGates.

Import Alerts AlertQueries.

Variable env : Env.
Variable cfg : Config.

(** X25. a zone whose cooldown has expired but which already counts
    [MAX_ALERTS_PER_HOUR] alerts within the hour before the clock
    reading of the flooding check gets no alert: the call returns none,
    the registry and the last-alert times are unchanged and no
    identifier is drawn; the zone's list of alert times is however
    rewritten to the times within the hour. *)
Theorem flooding_blocks_alert (zone cid : string)
    (cls : TamperingClassification) (score : Q) (rs : list string)
    (w : World) (t1 : Z) :
  cls <> SAFE ->
  _zone_last_alert (alert_service w) !! zone = Some t1 ->
  (seconds (ALERT_COOLDOWN_SECONDS cfg)
   <= utcnow_reading env (clock_reads w) - t1)%Z ->
  let now := utcnow_reading env (S (clock_reads w)) in
  let recent :=
    List.filter (fun t => (now - seconds 3600 <? t)%Z)
      (default [] (_zone_alert_counts (alert_service w) !! zone)) in
  (MAX_ALERTS_PER_HOUR cfg <= Z.of_nat (length recent))%Z ->
  let out := create_alert_from_classification env cfg zone cid cls score rs w in
  fst out = None /\
  _alerts (alert_service (snd out)) = _alerts (alert_service w) /\
  _zone_last_alert (alert_service (snd out))
  = _zone_last_alert (alert_service w) /\
  _zone_alert_counts (alert_service (snd out))
  = <[zone := recent]> (_zone_alert_counts (alert_service w)) /\
  uuid_draws (snd out) = uuid_draws w /\
  audit_entries (snd out) = audit_entries w.
Proof.
  intros Hcls Hlast Hcool now recent Hmax out. subst out.
  unfold create_alert_from_classification.
  destruct (decide (cls = SAFE)) as [E | _]; [contradiction |].
  unfold _check_cooldown, _check_flooding. run_service.
  rewrite Hlast. run_service.
  apply Z.leb_le in Hcool. rewrite Hcool. cbn [negb]. run_service.
  fold now. fold recent.
  assert (E : (Z.of_nat (length recent) <? MAX_ALERTS_PER_HOUR cfg)%Z = false)
    by lia.
  rewrite E. cbn [negb]. run_service. repeat split.
Qed.

(** X26. an alert that was created can be fetched under its identifier,
    which is "alert_" followed by the identifier drawn; it carries the
    classification's id, tier and score and at most the first five
    reasons; every other identifier is answered as before the
    creation. *)
Theorem created_alert_can_be_fetched (zone cid : string)
    (cls : TamperingClassification) (score : Q) (rs : list string)
    (w w1 : World) (a : Alert) :
  create_alert_from_classification env cfg zone cid cls score rs w
  = (Some a, w1) ->
  get_alert (alert_id a) w1 = (Some a, w1) /\
  alert_id a = String.append "alert_" (uuid4_hex12 env (uuid_draws w)) /\
  uuid_draws w1 = S (uuid_draws w) /\
  classification_id a = cid /\ classification a = cls /\
  risk_score a = score /\
  reasons a = take 5 rs /\ (length (reasons a) <= 5)%nat /\
  (forall other, other <> alert_id a ->
     fst (get_alert other w1) = fst (get_alert other w)).
Proof.
  unfold create_alert_from_classification.
  destruct (decide (cls = SAFE)) as [_ | Hcls]; [discriminate |].
  unfold _check_cooldown, _check_flooding, get_alert. run_service.
  destruct (_zone_last_alert (alert_service w) !! zone) as [t |]; run_service;
    repeat match goal with
      | |- context [if negb ?b then _ else _] => destruct b; cbn [negb]
      end; try discriminate;
    intros [= <- <-]; cbn;
    (split; [now rewrite lookup_insert_eq |]);
    (repeat split; try reflexivity;
     [ rewrite length_take; lia
     | intros other Hne; now rewrite lookup_insert_ne ]).
Qed.

(** X27. once an alert is acknowledged, no number of escalation passes
    changes it: it stays acknowledged, with the status the request
    chose and the escalation level it had. *)
Theorem acknowledged_alert_is_never_escalated
    (request : AlertAcknowledgeRequest) (w : World) (a : Alert) (n : nat) :
  _alerts (alert_service w) !! ack_alert_id request = Some a ->
  let w1 := snd (acknowledge_alert env request w) in
  let w2 := snd (escalation_passes env cfg n w1) in
  exists a',
    _alerts (alert_service w1) !! ack_alert_id request = Some a' /\
    _alerts (alert_service w2) !! ack_alert_id request = Some a' /\
    acknowledged a' = true /\
    status a' = (if mark_as_false_positive request then FALSE_POSITIVE
                 else ACKNOWLEDGED) /\
    escalation_level a' = escalation_level a /\
    escalated_at a' = escalated_at a.
Proof.
  intros Ha w1 w2.
  assert (H1 : exists a',
             _alerts (alert_service w1) !! ack_alert_id request = Some a' /\
             acknowledged a' = true /\
             status a' = (if mark_as_false_positive request
                          then FALSE_POSITIVE else ACKNOWLEDGED) /\
             escalation_level a' = escalation_level a /\
             escalated_at a' = escalated_at a).
  { subst w1. unfold acknowledge_alert. run_service. rewrite Ha. run_service.
    eexists. split; [apply lookup_insert_eq |]. repeat split. }
  destruct H1 as (a' & Hl & Hack & Hst & Hlvl & Hat).
  exists a'. repeat split; try assumption.
  subst w2. apply escalated_alert_stays; [assumption |].
  rewrite Hst. destruct (mark_as_false_positive request); discriminate.
Qed.

End AlertGates.

Lemma flooding_blocks_alert_witness :
  let env := Examples.env_every (seconds 3000) 1 in
  let w := Scenarios.flooded_world in
  let now := utcnow_reading env (S (Alerts.clock_reads w)) in
  let recent :=
    List.filter (fun t => (now - seconds 3600 <? t)%Z)
      (default [] (Alerts._zone_alert_counts (Alerts.alert_service w)
                     !! "ZONE-001"%string)) in
  let out :=
    Alerts.create_alert_from_classification env config "ZONE-001"
      "cls_000000000011" CONFIRMED_TAMPERING 91 [] w in
  fst out = None /\
  Alerts._alerts (Alerts.alert_service (snd out))
  = Alerts._alerts (Alerts.alert_service w) /\
  Alerts._zone_last_alert (Alerts.alert_service (snd out))
  = Alerts._zone_last_alert (Alerts.alert_service w) /\
  Alerts._zone_alert_counts (Alerts.alert_service (snd out))
  = <[ "ZONE-001"%string := recent ]>
      (Alerts._zone_alert_counts (Alerts.alert_service w)) /\
  Alerts.uuid_draws (snd out) = Alerts.uuid_draws w /\
  Alerts.audit_entries (snd out) = Alerts.audit_entries w.
Proof.
  apply (flooding_blocks_alert (Examples.env_every (seconds 3000) 1) config
           "ZONE-001" "cls_000000000011" CONFIRMED_TAMPERING 91 []
           Scenarios.flooded_world (seconds 2700)).
  - discriminate.
  - vm_compute. reflexivity.
  - vm_compute. discriminate.
  - vm_compute. discriminate.
Defined.

Lemma created_alert_can_be_fetched_witness :
  let env := Examples.env_every 0 1 in
  let w := Examples.empty_world in
  let out :=
    Alerts.create_alert_from_classification env config "ZONE-001"
      "cls_000000000001" SUSPICIOUS 40
      ["r1"; "r2"; "r3"; "r4"; "r5"; "r6"]%string w in
  exists a,
    fst out = Some a /\
    AlertQueries.get_alert (Alerts.alert_id a) (snd out) = (Some a, snd out) /\
    Alerts.alert_id a
    = String.append "alert_" (uuid4_hex12 env (Alerts.uuid_draws w)) /\
    Alerts.uuid_draws (snd out) = S (Alerts.uuid_draws w) /\
    Alerts.classification_id a = "cls_000000000001"%string /\
    Alerts.classification a = SUSPICIOUS /\
    Alerts.risk_score a = 40%Q /\
    Alerts.reasons a = take 5 ["r1"; "r2"; "r3"; "r4"; "r5"; "r6"]%string /\
    (length (Alerts.reasons a) <= 5)%nat /\
    (forall other, other <> Alerts.alert_id a ->
       fst (AlertQueries.get_alert other (snd out))
       = fst (AlertQueries.get_alert other w)).
Proof.
  cbv zeta.
  destruct (Alerts.create_alert_from_classification (Examples.env_every 0 1)
              config "ZONE-001" "cls_000000000001" SUSPICIOUS 40
              ["r1"; "r2"; "r3"; "r4"; "r5"; "r6"]%string Examples.empty_world)
    as [[a |] w1] eqn:E.
  - exists a. split; [reflexivity |].
    exact (created_alert_can_be_fetched (Examples.env_every 0 1) config
             "ZONE-001" "cls_000000000001" SUSPICIOUS 40
             ["r1"; "r2"; "r3"; "r4"; "r5"; "r6"]%string
             Examples.empty_world w1 a E).
  - vm_compute in E. discriminate E.
Defined.

Lemma acknowledged_alert_is_never_escalated_witness :
  let env := Examples.env_every 0 400 in
  let request := Scenarios.acknowledge_request in
  let w := Examples.world_with_alert in
  let w1 := snd (Alerts.acknowledge_alert env request w) in
  let w2 := snd (Alerts.escalation_passes env config 3 w1) in
  exists a',
    Alerts._alerts (Alerts.alert_service w1) !! Alerts.ack_alert_id request
    = Some a' /\
    Alerts._alerts (Alerts.alert_service w2) !! Alerts.ack_alert_id request
    = Some a' /\
    Alerts.acknowledged a' = true /\
    Alerts.status a'
    = (if Alerts.mark_as_false_positive request then Alerts.FALSE_POSITIVE
       else Alerts.ACKNOWLEDGED) /\
    Alerts.escalation_level a' = Alerts.escalation_level Examples.sample_alert /\
    Alerts.escalated_at a' = Alerts.escalated_at Examples.sample_alert.
Proof.
  apply (acknowledged_alert_is_never_escalated (Examples.env_every 0 400)
           config Scenarios.acknowledge_request Examples.world_with_alert
           Examples.sample_alert 3).
  vm_compute. reflexivity.
Defined.

(** ** Audit trail *)

Section AuditFacts.

Import Alerts Audit.

Lemma py_slice_from_last (l : list AuditEntry) (m : Z) :
  (1 <= m)%Z ->
  py_slice_from l (- m) = drop (Z.to_nat (Z.of_nat (length l) - m)) l.
Proof.
  intros Hm. unfold py_slice_from.
  assert (E : (- m <? 0)%Z = true) by lia. rewrite E.
  f_equal. lia.
Qed.

(** X28. with a positive [MAX_AUDIT_LOG_ENTRIES] the log after an
    append is the old log and the new entry with just enough of the
    oldest entries removed: it ends with the new entry and, if it was
    within the maximum before, it is within it afterwards.  With a
    maximum of 0 nothing is ever removed. *)
Theorem audit_log_keeps_the_newest_entries (cfg : Config) (e : AuditEntry)
    (w : World) :
  let m := MAX_AUDIT_LOG_ENTRIES cfg in
  let old := audit_entries w in
  let new := audit_entries (snd (_add_entry cfg e w)) in
  ((1 <= m)%Z ->
   new = drop (Z.to_nat (Z.of_nat (length old) + 1 - m)) (old ++ [e]) /\
   last new = Some e /\
   Z.of_nat (length new) = Z.min (Z.of_nat (length old) + 1) m) /\
  (m = 0%Z -> new = old ++ [e]).
Proof.
  intros m old new. subst new. unfold _add_entry. cbn [snd audit_entries].
  fold m old. split.
  - intros Hm.
    assert (Hnew : (if (m <? Z.of_nat (length (old ++ [e])))%Z
                    then py_slice_from (old ++ [e]) (- m) else old ++ [e])
                   = drop (Z.to_nat (Z.of_nat (length old) + 1 - m))
                       (old ++ [e])).
    { rewrite length_app. cbn [length].
      destruct (m <? Z.of_nat (length old + 1))%Z eqn:E.
      - apply Z.ltb_lt in E.
        rewrite py_slice_from_last by lia. rewrite length_app. cbn [length].
        f_equal. lia.
      - apply Z.ltb_ge in E.
        replace (Z.to_nat (Z.of_nat (length old) + 1 - m)) with 0%nat by lia.
        reflexivity. }
    rewrite Hnew. split; [reflexivity |]. split.
    + rewrite drop_app_le by lia. apply last_snoc.
    + rewrite length_drop, length_app. cbn [length]. lia.
  - intros Hm. rewrite Hm.
    destruct (0 <? Z.of_nat (length (old ++ [e])))%Z; [| reflexivity].
    unfold py_slice_from. change (- 0 <? 0)%Z with false. cbv iota.
    rewrite Z.min_l by lia. reflexivity.
Qed.

Lemma audit_log_keeps_the_newest_entries_witness :
  let e := {| entry_id := "audit_000000000001";
              entry_timestamp := 0;
              event_type := ALERT_ACKNOWLEDGED;
              entry_zone_id := Some "ZONE-001"%string;
              details := AcknowledgedDetails "operator-2" None false;
              user_id := Some "operator-2"%string |} in
  let w := Examples.empty_world in
  let m := MAX_AUDIT_LOG_ENTRIES config in
  let old := audit_entries w in
  let new := audit_entries (snd (_add_entry config e w)) in
  ((1 <= m)%Z ->
   new = drop (Z.to_nat (Z.of_nat (length old) + 1 - m)) (old ++ [e]) /\
   last new = Some e /\
   Z.of_nat (length new) = Z.min (Z.of_nat (length old) + 1) m) /\
  (m = 0%Z -> new = old ++ [e]).
Proof.
  exact (audit_log_keeps_the_newest_entries config
           {| entry_id := "audit_000000000001";
              entry_timestamp := 0;
              event_type := ALERT_ACKNOWLEDGED;
              entry_zone_id := Some "ZONE-001"%string;
              details := AcknowledgedDetails "operator-2" None false;
              user_id := Some "operator-2"%string |}
           Examples.empty_world).
Defined.

Lemma filter_all {A} (l : list A) : List.filter (fun _ => true) l = l.
Proof. induction l as [| x l IH]; [reflexivity |]. cbn. now rewrite IH. Qed.

(** X29. the recent entries are the entries of the log that pass the
    filters in force, newest first, cut to the first [limit] of them
    when [limit] is positive; a limit of 0 returns every matching
    entry, and a negative limit returns all of them but the [-limit]
    oldest.  An absent filter and an empty zone string select every
    entry. *)
Theorem recent_entries_newest_first (entries : list AuditEntry) (limit : Z)
    (event_type_filter : option AuditEventType)
    (zone_id_filter : option string) :
  let matching :=
    List.filter (entry_matches event_type_filter zone_id_filter) entries in
  let r := get_recent_entries entries limit event_type_filter zone_id_filter in
  ((0 < limit)%Z -> r = take (Z.to_nat limit) (rev matching)) /\
  (limit = 0%Z -> r = rev matching) /\
  ((limit < 0)%Z -> r = rev (drop (Z.to_nat (- limit)) matching)) /\
  (length r <= length entries)%nat.
Proof.
  intros matching r.
  assert (Er : r = rev (py_slice_from matching (- limit))).
  { unfold r, matching, get_recent_entries. do 2 f_equal.
    destruct event_type_filter as [t |], zone_id_filter as [z |];
      try destruct (z =? "")%string eqn:Ez;
      rewrite ?filter_filter; unfold entry_matches; rewrite ?Ez;
      cbn [orb andb]; try reflexivity;
      try (apply filter_ext; intros a; now rewrite ?andb_true_r);
      try (symmetry; apply filter_all). }
  assert (Hlen : (length matching <= length entries)%nat)
    by apply List.filter_length_le.
  rewrite Er. clearbody matching. clear Er r.
  split; [| split; [| split]].
  - intros Hl. unfold py_slice_from.
    assert (E : (- limit <? 0)%Z = true) by lia. rewrite E.
    rewrite firstn_rev. f_equal.
    apply (f_equal (fun n => drop n matching)). clear - Hl. lia.
  - intros ->. unfold py_slice_from. change (- 0 <? 0)%Z with false.
    cbv iota. rewrite Z.min_l by lia. reflexivity.
  - intros Hl. unfold py_slice_from.
    assert (E : (- limit <? 0)%Z = false) by lia. rewrite E.
    f_equal.
    destruct (Z.le_gt_cases (- limit) (Z.of_nat (length matching))) as [H | H].
    + now rewrite Z.min_l.
    + rewrite Z.min_r by lia. rewrite !drop_ge; [reflexivity | lia | lia].
  - rewrite length_rev. unfold py_slice_from. rewrite length_drop. lia.
Qed.

End AuditFacts.

(** ** Run controller: the run counter *)

Section RunCounter.

Import Controller.

Lemma filter_insert_count {A} (p : A -> bool) (l : list A) (i : nat)
    (x y : A) :
  l !! i = Some x ->
  (Z.of_nat (length (List.filter p (<[i := y]> l)))
   = Z.of_nat (length (List.filter p l))
     - (if p x then 1 else 0) + (if p y then 1 else 0))%Z.
Proof.
  revert i. induction l as [| z l IH]; intros i Hi; [discriminate |].
  destruct i as [| i]; cbn in Hi.
  - injection Hi as ->. cbn [list_insert List.filter].
    change (<[0%nat := y]> (x :: l)) with (y :: l). cbn [List.filter].
    destruct (p x), (p y); cbn [length]; lia.
  - change (<[S i := y]> (z :: l)) with (z :: <[i := y]> l).
    cbn [List.filter]. specialize (IH i Hi).
    destruct (p z); cbn [length]; lia.
Qed.

Lemma step_run_count (s s' : System) :
  step s s' ->
  (_run_count (controller s') - successful_runs s'
   = _run_count (controller s) - successful_runs s)%Z /\
  length (tasks s') = length (tasks s).
Proof.
  intros Hstep. destruct Hstep as [s i zone scenario now Hi Hl
                                  | s i zone scenario outcome now Hi Hl];
    unfold successful_runs; cbn [controller tasks];
    rewrite (filter_insert_count is_success _ _ _ _ Hi), length_insert.
  - cbn. split; [lia | reflexivity].
  - destruct outcome; cbn; split; try reflexivity; lia.
Qed.

(** X30. however the [run_single] calls interleave, the run counter
    grows by exactly the number of calls that returned a success
    payload: no successful cycle is lost or counted twice, and a failed
    or unfinished cycle is not counted; the set of calls stays the
    same. *)
Theorem run_count_counts_successful_cycles (s0 s : System) :
  reachable s0 s ->
  (_run_count (controller s) - successful_runs s
   = _run_count (controller s0) - successful_runs s0)%Z /\
  length (tasks s) = length (tasks s0).
Proof.
  induction 1 as [| s s' Hreach [IH1 IH2] Hstep]; [split; reflexivity |].
  destruct (step_run_count s s' Hstep) as [H1 H2].
  split; [lia | congruence].
Qed.

End RunCounter.

Lemma run_count_counts_successful_cycles_witness :
  let response :=
    Intent.classify Examples.quiet_collaborators config "cls_000000000000"
      (Examples.request "ZONE-001" Examples.noon None None) in
  let s :=
    {| Controller.controller :=
         Controller.lock_block_success 2
           (Controller.lock_block_start 1
              (Controller.lock_block_start 0 Controller.init));
       Controller.lock_locked := false;
       Controller.tasks :=
         [Controller.Finished
            (Controller.RunSuccess response Controller.STOPPED);
          Controller.InCycle "ZONE-002" "normal"] |} in
  (Controller._run_count (Controller.controller s) - successful_runs s
   = Controller._run_count (Controller.controller Examples.two_requests)
     - successful_runs Examples.two_requests)%Z /\
  length (Controller.tasks s) = length (Controller.tasks Examples.two_requests).
Proof.
  apply run_count_counts_successful_cycles.
  pose (s1 := {| Controller.controller :=
                   Controller.lock_block_start 0 Controller.init;
                 Controller.lock_locked := false;
                 Controller.tasks :=
                   [Controller.InCycle "ZONE-001" "tampering";
                    Controller.Requested "ZONE-002" "normal"] |}).
  pose (s2 := {| Controller.controller :=
                   Controller.lock_block_start 1
                     (Controller.lock_block_start 0 Controller.init);
                 Controller.lock_locked := false;
                 Controller.tasks :=
                   [Controller.InCycle "ZONE-001" "tampering";
                    Controller.InCycle "ZONE-002" "normal"] |}).
  apply (Controller.reachable_step _ s2).
  - apply (Controller.reachable_step _ s1).
    + apply (Controller.reachable_step _ Examples.two_requests);
        [apply Controller.reachable_refl |].
      exact (Controller.step_start Examples.two_requests 0 "ZONE-001"
               "tampering" 0 eq_refl eq_refl).
    + exact (Controller.step_start s1 1 "ZONE-002" "normal" 1
               eq_refl eq_refl).
  - exact (Controller.step_complete s2 0 "ZONE-001" "tampering"
             (Controller.Returned
                (Intent.classify Examples.quiet_collaborators config
                   "cls_000000000000"
                   (Examples.request "ZONE-001" Examples.noon None None)))
             2 eq_refl eq_refl).
Defined.
